(** * The RFC validator of the credit-application backend

    Shallow embedding of [src/utils/rfcValidator.ts] (class [RFCValidator]
    and the row validation of class [ExcelUtils], which calls it) together
    with the fragment of the JavaScript string runtime it calls
    ([trim], [toUpperCase], [replace(/\s+/g, '')], [substring], [includes],
    [padStart], [parseInt], [join], number-to-string conversion,
    regular-expression tests without flags).

    A JavaScript string is a sequence of UTF-16 code units; [length],
    [substring], indexing and flag-less regular expressions all work on code
    units, while [toUpperCase] works on the code points the units encode.
    The current date read by [new Date().getFullYear()] is an explicit
    argument [fullYear]. *)

From Stdlib Require Import ZArith List Bool Lia String Ascii DecimalString.
Import ListNotations.
Open Scope Z_scope.

(** ** The JavaScript string runtime *)

Module JS.

(** A string value: its UTF-16 code units, each in [0, 0xFFFF]. *)
Definition jsstring := list Z.

Definition isCodeUnit (c : Z) : bool := (0 <=? c) && (c <=? 0xFFFF).

(** Source-text literals.  The TypeScript file is UTF-8; every character of
    its literals is below U+0800, so one- and two-byte sequences suffice. *)
Fixpoint utf8_decode (bs : list Z) : jsstring :=
  match bs with
  | [] => []
  | b :: rest =>
      if b <? 0x80 then b :: utf8_decode rest
      else match rest with
           | [] => [b]
           | c :: rest' => ((b - 0xC0) * 64 + (c - 0x80)) :: utf8_decode rest'
           end
  end.

Definition lit (s : string) : jsstring :=
  utf8_decode (map (fun a => Z.of_N (N_of_ascii a)) (list_ascii_of_string s)).
Arguments lit s%_string.

(** [js "..."] is the literal, evaluated once where it is written. *)
Notation "'js' s" :=
  (ltac:(let v := eval vm_compute in (lit s%string) in exact v))
  (at level 10, s at level 0, only parsing).

Definition eqb (a b : jsstring) : bool :=
  if list_eq_dec Z.eq_dec a b then true else false.

Definition isEmpty (s : jsstring) : bool :=
  match s with [] => true | _ :: _ => false end.

(** [WhiteSpace] and [LineTerminator] code points: what [trim] strips and
    what [\s] matches. *)
Definition isWhiteSpace (c : Z) : bool :=
  (c =? 0x09) || (c =? 0x0A) || (c =? 0x0B) || (c =? 0x0C) || (c =? 0x0D)
  || (c =? 0x20) || (c =? 0xA0) || (c =? 0x1680)
  || ((0x2000 <=? c) && (c <=? 0x200A))
  || (c =? 0x2028) || (c =? 0x2029) || (c =? 0x202F) || (c =? 0x205F)
  || (c =? 0x3000) || (c =? 0xFEFF).

Fixpoint trimStart (s : jsstring) : jsstring :=
  match s with
  | [] => []
  | c :: s' => if isWhiteSpace c then trimStart s' else s
  end.

Fixpoint trimEnd (s : jsstring) : jsstring :=
  match s with
  | [] => []
  | c :: s' =>
      match trimEnd s' with
      | [] => if isWhiteSpace c then [] else [c]
      | t => c :: t
      end
  end.

Definition trim (s : jsstring) : jsstring := trimEnd (trimStart s).

(** [s.replace(/\s+/g, '')]: every maximal run of white space is replaced by
    the empty string, so exactly the white-space code units disappear. *)
Definition removeWhiteSpace (s : jsstring) : jsstring :=
  filter (fun c => negb (isWhiteSpace c)) s.

(** *** Code points *)

Definition isLeadingSurrogate (c : Z) : bool := (0xD800 <=? c) && (c <=? 0xDBFF).
Definition isTrailingSurrogate (c : Z) : bool := (0xDC00 <=? c) && (c <=? 0xDFFF).
Definition isSurrogate (c : Z) : bool := (0xD800 <=? c) && (c <=? 0xDFFF).

Definition UTF16SurrogatePairToCodePoint (lead trail : Z) : Z :=
  (lead - 0xD800) * 0x400 + (trail - 0xDC00) + 0x10000.

(** A leading surrogate followed by a trailing one is one code point; any
    other unit, also an unpaired surrogate, is a code point of its own. *)
Fixpoint StringToCodePoints (s : jsstring) : list Z :=
  match s with
  | [] => []
  | c :: s' =>
      match s' with
      | d :: s'' =>
          if isLeadingSurrogate c && isTrailingSurrogate d
          then UTF16SurrogatePairToCodePoint c d :: StringToCodePoints s''
          else c :: StringToCodePoints s'
      | [] => [c]
      end
  end.

Definition UTF16EncodeCodePoint (cp : Z) : jsstring :=
  if cp <=? 0xFFFF then [cp]
  else [(cp - 0x10000) / 0x400 + 0xD800; (cp - 0x10000) mod 0x400 + 0xDC00].

Definition CodePointsToString (cps : list Z) : jsstring :=
  flat_map UTF16EncodeCodePoint cps.

(** [String.prototype.isWellFormed]: no unpaired surrogate. *)
Fixpoint isWellFormed (s : jsstring) : bool :=
  match s with
  | [] => true
  | c :: s' =>
      if isLeadingSurrogate c
      then match s' with
           | d :: s'' => isTrailingSurrogate d && isWellFormed s''
           | [] => false
           end
      else negb (isTrailingSurrogate c) && isWellFormed s'
  end.

(** *** Upper-casing

    The locale-independent, context-free upper-case mapping of the Unicode
    Character Database (version 14.0): simple mappings of [UnicodeData.txt]
    as arithmetic runs [(first, last, step, delta)], and the unconditional
    multi-character mappings of [SpecialCasing.txt]. *)

Definition CaseRanges : list (Z * Z * Z * Z) :=
  [ (0x0061, 0x007A, 1, (-32)); (0x00B5, 0x00B5, 1, 743); (0x00E0, 0x00F6, 1, (-32));
    (0x00F8, 0x00FE, 1, (-32)); (0x00FF, 0x00FF, 1, 121); (0x0101, 0x012F, 2, (-1));
    (0x0131, 0x0131, 1, (-232)); (0x0133, 0x0137, 2, (-1)); (0x013A, 0x0148, 2, (-1));
    (0x014B, 0x0177, 2, (-1)); (0x017A, 0x017E, 2, (-1)); (0x017F, 0x017F, 1, (-300));
    (0x0180, 0x0180, 1, 195); (0x0183, 0x0185, 2, (-1)); (0x0188, 0x0188, 1, (-1));
    (0x018C, 0x018C, 1, (-1)); (0x0192, 0x0192, 1, (-1)); (0x0195, 0x0195, 1, 97);
    (0x0199, 0x0199, 1, (-1)); (0x019A, 0x019A, 1, 163); (0x019E, 0x019E, 1, 130);
    (0x01A1, 0x01A5, 2, (-1)); (0x01A8, 0x01A8, 1, (-1)); (0x01AD, 0x01AD, 1, (-1));
    (0x01B0, 0x01B0, 1, (-1)); (0x01B4, 0x01B6, 2, (-1)); (0x01B9, 0x01B9, 1, (-1));
    (0x01BD, 0x01BD, 1, (-1)); (0x01BF, 0x01BF, 1, 56); (0x01C5, 0x01C5, 1, (-1));
    (0x01C6, 0x01C6, 1, (-2)); (0x01C8, 0x01C8, 1, (-1)); (0x01C9, 0x01C9, 1, (-2));
    (0x01CB, 0x01CB, 1, (-1)); (0x01CC, 0x01CC, 1, (-2)); (0x01CE, 0x01DC, 2, (-1));
    (0x01DD, 0x01DD, 1, (-79)); (0x01DF, 0x01EF, 2, (-1)); (0x01F2, 0x01F2, 1, (-1));
    (0x01F3, 0x01F3, 1, (-2)); (0x01F5, 0x01F5, 1, (-1)); (0x01F9, 0x021F, 2, (-1));
    (0x0223, 0x0233, 2, (-1)); (0x023C, 0x023C, 1, (-1)); (0x023F, 0x0240, 1, 10815);
    (0x0242, 0x0242, 1, (-1)); (0x0247, 0x024F, 2, (-1)); (0x0250, 0x0250, 1, 10783);
    (0x0251, 0x0251, 1, 10780); (0x0252, 0x0252, 1, 10782); (0x0253, 0x0253, 1, (-210));
    (0x0254, 0x0254, 1, (-206)); (0x0256, 0x0257, 1, (-205)); (0x0259, 0x0259, 1, (-202));
    (0x025B, 0x025B, 1, (-203)); (0x025C, 0x025C, 1, 42319); (0x0260, 0x0260, 1, (-205));
    (0x0261, 0x0261, 1, 42315); (0x0263, 0x0263, 1, (-207)); (0x0265, 0x0265, 1, 42280);
    (0x0266, 0x0266, 1, 42308); (0x0268, 0x0268, 1, (-209)); (0x0269, 0x0269, 1, (-211));
    (0x026A, 0x026A, 1, 42308); (0x026B, 0x026B, 1, 10743); (0x026C, 0x026C, 1, 42305);
    (0x026F, 0x026F, 1, (-211)); (0x0271, 0x0271, 1, 10749); (0x0272, 0x0272, 1, (-213));
    (0x0275, 0x0275, 1, (-214)); (0x027D, 0x027D, 1, 10727); (0x0280, 0x0280, 1, (-218));
    (0x0282, 0x0282, 1, 42307); (0x0283, 0x0283, 1, (-218)); (0x0287, 0x0287, 1, 42282);
    (0x0288, 0x0288, 1, (-218)); (0x0289, 0x0289, 1, (-69)); (0x028A, 0x028B, 1, (-217));
    (0x028C, 0x028C, 1, (-71)); (0x0292, 0x0292, 1, (-219)); (0x029D, 0x029D, 1, 42261);
    (0x029E, 0x029E, 1, 42258); (0x0345, 0x0345, 1, 84); (0x0371, 0x0373, 2, (-1));
    (0x0377, 0x0377, 1, (-1)); (0x037B, 0x037D, 1, 130); (0x03AC, 0x03AC, 1, (-38));
    (0x03AD, 0x03AF, 1, (-37)); (0x03B1, 0x03C1, 1, (-32)); (0x03C2, 0x03C2, 1, (-31));
    (0x03C3, 0x03CB, 1, (-32)); (0x03CC, 0x03CC, 1, (-64)); (0x03CD, 0x03CE, 1, (-63));
    (0x03D0, 0x03D0, 1, (-62)); (0x03D1, 0x03D1, 1, (-57)); (0x03D5, 0x03D5, 1, (-47));
    (0x03D6, 0x03D6, 1, (-54)); (0x03D7, 0x03D7, 1, (-8)); (0x03D9, 0x03EF, 2, (-1));
    (0x03F0, 0x03F0, 1, (-86)); (0x03F1, 0x03F1, 1, (-80)); (0x03F2, 0x03F2, 1, 7);
    (0x03F3, 0x03F3, 1, (-116)); (0x03F5, 0x03F5, 1, (-96)); (0x03F8, 0x03F8, 1, (-1));
    (0x03FB, 0x03FB, 1, (-1)); (0x0430, 0x044F, 1, (-32)); (0x0450, 0x045F, 1, (-80));
    (0x0461, 0x0481, 2, (-1)); (0x048B, 0x04BF, 2, (-1)); (0x04C2, 0x04CE, 2, (-1));
    (0x04CF, 0x04CF, 1, (-15)); (0x04D1, 0x052F, 2, (-1)); (0x0561, 0x0586, 1, (-48));
    (0x10D0, 0x10FA, 1, 3008); (0x10FD, 0x10FF, 1, 3008); (0x13F8, 0x13FD, 1, (-8));
    (0x1C80, 0x1C80, 1, (-6254)); (0x1C81, 0x1C81, 1, (-6253)); (0x1C82, 0x1C82, 1, (-6244));
    (0x1C83, 0x1C84, 1, (-6242)); (0x1C85, 0x1C85, 1, (-6243)); (0x1C86, 0x1C86, 1, (-6236));
    (0x1C87, 0x1C87, 1, (-6181)); (0x1C88, 0x1C88, 1, 35266); (0x1D79, 0x1D79, 1, 35332);
    (0x1D7D, 0x1D7D, 1, 3814); (0x1D8E, 0x1D8E, 1, 35384); (0x1E01, 0x1E95, 2, (-1));
    (0x1E9B, 0x1E9B, 1, (-59)); (0x1EA1, 0x1EFF, 2, (-1)); (0x1F00, 0x1F07, 1, 8);
    (0x1F10, 0x1F15, 1, 8); (0x1F20, 0x1F27, 1, 8); (0x1F30, 0x1F37, 1, 8);
    (0x1F40, 0x1F45, 1, 8); (0x1F51, 0x1F57, 2, 8); (0x1F60, 0x1F67, 1, 8);
    (0x1F70, 0x1F71, 1, 74); (0x1F72, 0x1F75, 1, 86); (0x1F76, 0x1F77, 1, 100);
    (0x1F78, 0x1F79, 1, 128); (0x1F7A, 0x1F7B, 1, 112); (0x1F7C, 0x1F7D, 1, 126);
    (0x1FB0, 0x1FB1, 1, 8); (0x1FBE, 0x1FBE, 1, (-7205)); (0x1FD0, 0x1FD1, 1, 8);
    (0x1FE0, 0x1FE1, 1, 8); (0x1FE5, 0x1FE5, 1, 7); (0x214E, 0x214E, 1, (-28));
    (0x2170, 0x217F, 1, (-16)); (0x2184, 0x2184, 1, (-1)); (0x24D0, 0x24E9, 1, (-26));
    (0x2C30, 0x2C5F, 1, (-48)); (0x2C61, 0x2C61, 1, (-1)); (0x2C65, 0x2C65, 1, (-10795));
    (0x2C66, 0x2C66, 1, (-10792)); (0x2C68, 0x2C6C, 2, (-1)); (0x2C73, 0x2C73, 1, (-1));
    (0x2C76, 0x2C76, 1, (-1)); (0x2C81, 0x2CE3, 2, (-1)); (0x2CEC, 0x2CEE, 2, (-1));
    (0x2CF3, 0x2CF3, 1, (-1)); (0x2D00, 0x2D25, 1, (-7264)); (0x2D27, 0x2D27, 1, (-7264));
    (0x2D2D, 0x2D2D, 1, (-7264)); (0xA641, 0xA66D, 2, (-1)); (0xA681, 0xA69B, 2, (-1));
    (0xA723, 0xA72F, 2, (-1)); (0xA733, 0xA76F, 2, (-1)); (0xA77A, 0xA77C, 2, (-1));
    (0xA77F, 0xA787, 2, (-1)); (0xA78C, 0xA78C, 1, (-1)); (0xA791, 0xA793, 2, (-1));
    (0xA794, 0xA794, 1, 48); (0xA797, 0xA7A9, 2, (-1)); (0xA7B5, 0xA7C3, 2, (-1));
    (0xA7C8, 0xA7CA, 2, (-1)); (0xA7D1, 0xA7D1, 1, (-1)); (0xA7D7, 0xA7D9, 2, (-1));
    (0xA7F6, 0xA7F6, 1, (-1)); (0xAB53, 0xAB53, 1, (-928)); (0xAB70, 0xABBF, 1, (-38864));
    (0xFF41, 0xFF5A, 1, (-32)); (0x10428, 0x1044F, 1, (-40)); (0x104D8, 0x104FB, 1, (-40));
    (0x10597, 0x105A1, 1, (-39)); (0x105A3, 0x105B1, 1, (-39)); (0x105B3, 0x105B9, 1, (-39));
    (0x105BB, 0x105BC, 1, (-39)); (0x10CC0, 0x10CF2, 1, (-64)); (0x118C0, 0x118DF, 1, (-32));
    (0x16E60, 0x16E7F, 1, (-32)); (0x1E922, 0x1E943, 1, (-34)) ].

Definition SpecialCasing : list (Z * list Z) :=
  [ (0x00DF, [0x0053; 0x0053]); (0x0149, [0x02BC; 0x004E]); (0x01F0, [0x004A; 0x030C]);
    (0x0390, [0x0399; 0x0308; 0x0301]); (0x03B0, [0x03A5; 0x0308; 0x0301]); (0x0587, [0x0535; 0x0552]);
    (0x1E96, [0x0048; 0x0331]); (0x1E97, [0x0054; 0x0308]); (0x1E98, [0x0057; 0x030A]);
    (0x1E99, [0x0059; 0x030A]); (0x1E9A, [0x0041; 0x02BE]); (0x1F50, [0x03A5; 0x0313]);
    (0x1F52, [0x03A5; 0x0313; 0x0300]); (0x1F54, [0x03A5; 0x0313; 0x0301]); (0x1F56, [0x03A5; 0x0313; 0x0342]);
    (0x1F80, [0x1F08; 0x0399]); (0x1F81, [0x1F09; 0x0399]); (0x1F82, [0x1F0A; 0x0399]);
    (0x1F83, [0x1F0B; 0x0399]); (0x1F84, [0x1F0C; 0x0399]); (0x1F85, [0x1F0D; 0x0399]);
    (0x1F86, [0x1F0E; 0x0399]); (0x1F87, [0x1F0F; 0x0399]); (0x1F88, [0x1F08; 0x0399]);
    (0x1F89, [0x1F09; 0x0399]); (0x1F8A, [0x1F0A; 0x0399]); (0x1F8B, [0x1F0B; 0x0399]);
    (0x1F8C, [0x1F0C; 0x0399]); (0x1F8D, [0x1F0D; 0x0399]); (0x1F8E, [0x1F0E; 0x0399]);
    (0x1F8F, [0x1F0F; 0x0399]); (0x1F90, [0x1F28; 0x0399]); (0x1F91, [0x1F29; 0x0399]);
    (0x1F92, [0x1F2A; 0x0399]); (0x1F93, [0x1F2B; 0x0399]); (0x1F94, [0x1F2C; 0x0399]);
    (0x1F95, [0x1F2D; 0x0399]); (0x1F96, [0x1F2E; 0x0399]); (0x1F97, [0x1F2F; 0x0399]);
    (0x1F98, [0x1F28; 0x0399]); (0x1F99, [0x1F29; 0x0399]); (0x1F9A, [0x1F2A; 0x0399]);
    (0x1F9B, [0x1F2B; 0x0399]); (0x1F9C, [0x1F2C; 0x0399]); (0x1F9D, [0x1F2D; 0x0399]);
    (0x1F9E, [0x1F2E; 0x0399]); (0x1F9F, [0x1F2F; 0x0399]); (0x1FA0, [0x1F68; 0x0399]);
    (0x1FA1, [0x1F69; 0x0399]); (0x1FA2, [0x1F6A; 0x0399]); (0x1FA3, [0x1F6B; 0x0399]);
    (0x1FA4, [0x1F6C; 0x0399]); (0x1FA5, [0x1F6D; 0x0399]); (0x1FA6, [0x1F6E; 0x0399]);
    (0x1FA7, [0x1F6F; 0x0399]); (0x1FA8, [0x1F68; 0x0399]); (0x1FA9, [0x1F69; 0x0399]);
    (0x1FAA, [0x1F6A; 0x0399]); (0x1FAB, [0x1F6B; 0x0399]); (0x1FAC, [0x1F6C; 0x0399]);
    (0x1FAD, [0x1F6D; 0x0399]); (0x1FAE, [0x1F6E; 0x0399]); (0x1FAF, [0x1F6F; 0x0399]);
    (0x1FB2, [0x1FBA; 0x0399]); (0x1FB3, [0x0391; 0x0399]); (0x1FB4, [0x0386; 0x0399]);
    (0x1FB6, [0x0391; 0x0342]); (0x1FB7, [0x0391; 0x0342; 0x0399]); (0x1FBC, [0x0391; 0x0399]);
    (0x1FC2, [0x1FCA; 0x0399]); (0x1FC3, [0x0397; 0x0399]); (0x1FC4, [0x0389; 0x0399]);
    (0x1FC6, [0x0397; 0x0342]); (0x1FC7, [0x0397; 0x0342; 0x0399]); (0x1FCC, [0x0397; 0x0399]);
    (0x1FD2, [0x0399; 0x0308; 0x0300]); (0x1FD3, [0x0399; 0x0308; 0x0301]); (0x1FD6, [0x0399; 0x0342]);
    (0x1FD7, [0x0399; 0x0308; 0x0342]); (0x1FE2, [0x03A5; 0x0308; 0x0300]); (0x1FE3, [0x03A5; 0x0308; 0x0301]);
    (0x1FE4, [0x03A1; 0x0313]); (0x1FE6, [0x03A5; 0x0342]); (0x1FE7, [0x03A5; 0x0308; 0x0342]);
    (0x1FF2, [0x1FFA; 0x0399]); (0x1FF3, [0x03A9; 0x0399]); (0x1FF4, [0x038F; 0x0399]);
    (0x1FF6, [0x03A9; 0x0342]); (0x1FF7, [0x03A9; 0x0342; 0x0399]); (0x1FFC, [0x03A9; 0x0399]);
    (0xFB00, [0x0046; 0x0046]); (0xFB01, [0x0046; 0x0049]); (0xFB02, [0x0046; 0x004C]);
    (0xFB03, [0x0046; 0x0046; 0x0049]); (0xFB04, [0x0046; 0x0046; 0x004C]); (0xFB05, [0x0053; 0x0054]);
    (0xFB06, [0x0053; 0x0054]); (0xFB13, [0x0544; 0x0546]); (0xFB14, [0x0544; 0x0535]);
    (0xFB15, [0x0544; 0x053B]); (0xFB16, [0x054E; 0x0546]); (0xFB17, [0x0544; 0x053D]) ].

Definition expand_range (r : Z * Z * Z * Z) : list (Z * list Z) :=
  let '(first, last, step, delta) := r in
  map (fun k => let cp := first + step * Z.of_nat k in (cp, [cp + delta]))
      (seq 0 (Z.to_nat ((last - first) / step) + 1)).

Definition UppercaseMapping : list (Z * list Z) :=
  Eval vm_compute in SpecialCasing ++ flat_map expand_range CaseRanges.

Definition toUppercase (cp : Z) : list Z :=
  match find (fun e => fst e =? cp) UppercaseMapping with
  | Some e => snd e
  | None => [cp]
  end.

Definition toUpperCase (s : jsstring) : jsstring :=
  CodePointsToString (flat_map toUppercase (StringToCodePoints s)).

(** *** Substrings, search, padding *)

(** [s.substring(a, b)]: indices are clamped to the length and swapped when
    [a > b]. *)
Definition substring (a b : nat) (s : jsstring) : jsstring :=
  let lo := Nat.min a b in
  let hi := Nat.max a b in
  firstn (hi - lo) (skipn lo s).

Fixpoint startsWith (p s : jsstring) : bool :=
  match p, s with
  | [], _ => true
  | _ :: _, [] => false
  | a :: p', b :: s' => (a =? b) && startsWith p' s'
  end.

(** [s.includes(p)] on strings: [p] occurs somewhere in [s]. *)
Fixpoint includes (s p : jsstring) : bool :=
  startsWith p s ||
  match s with
  | [] => false
  | _ :: s' => includes s' p
  end.

(** [arr.includes(x)] on an array of strings (strict equality). *)
Definition Array_includes (arr : list jsstring) (x : jsstring) : bool :=
  existsb (eqb x) arr.

(** [s.padStart(n, fill)] for a one-unit [fill]. *)
Definition padStart (n : nat) (fill : Z) (s : jsstring) : jsstring :=
  repeat fill (n - List.length s) ++ s.

(** *** Numbers

    Only integers far below 2^53 occur, so [Z] is exact; [None] is [NaN]. *)
Definition Number := option Z.

(** [String(n)] for an integer [n]. *)
Definition Number_toString (n : Z) : jsstring :=
  lit (NilZero.string_of_int (Z.to_int n)).

Definition isDigit (c : Z) : bool := (0x30 <=? c) && (c <=? 0x39).

Fixpoint digitsPrefix (s : jsstring) : jsstring :=
  match s with
  | c :: s' => if isDigit c then c :: digitsPrefix s' else []
  | [] => []
  end.

(** [parseInt(s, 10)]: leading white space, an optional sign, then the
    longest run of decimal digits; [NaN] when that run is empty. *)
Definition parseInt (s : jsstring) : Number :=
  let s1 := trimStart s in
  let '(sign, s2) :=
    match s1 with
    | 0x2D :: r => (-1, r)
    | 0x2B :: r => (1, r)
    | _ => (1, s1)
    end in
  match digitsPrefix s2 with
  | [] => None
  | ds => Some (sign * fold_left (fun acc d => acc * 10 + (d - 0x30)) ds 0)
  end.

(** Relational operators: any comparison with [NaN] is false. *)
Definition lt (a b : Number) : bool :=
  match a, b with Some x, Some y => x <? y | _, _ => false end.
Definition gt (a b : Number) : bool := lt b a.

(** *** Regular expressions (no flags)

    The two shapes the validator uses, both anchored at the start and the end
    of the input and matched on code units:
    [/^C1{n1}C2{n2}...$/] and [/^C+$/] for character classes [C]. *)
Inductive RegExp : Type :=
  | Fields (fs : list ((Z -> bool) * nat))
  | Plus (cls : Z -> bool).

Fixpoint matchFields (fs : list ((Z -> bool) * nat)) (s : jsstring) : bool :=
  match fs with
  | [] => isEmpty s
  | (cls, n) :: fs' =>
      (List.length (firstn n s) =? n)%nat
      && forallb cls (firstn n s)
      && matchFields fs' (skipn n s)
  end.

Definition test (re : RegExp) (s : jsstring) : bool :=
  match re with
  | Fields fs => matchFields fs s
  | Plus cls => negb (isEmpty s) && forallb cls s
  end.

(** [arr.join(sep)] on an array of strings. *)
Fixpoint join (sep : jsstring) (arr : list jsstring) : jsstring :=
  match arr with
  | [] => []
  | x :: rest =>
      match rest with
      | [] => x
      | _ :: _ => x ++ sep ++ join sep rest
      end
  end.

End JS.

(** ** The analysis record ([interface RFCAnalysis]) *)

Inductive TipoPersona : Type := FISICA | MORAL.

Record RFCAnalysis : Type := {
  isValid : bool;
  tipoPersona : option TipoPersona;
  length : Z;
  format : JS.jsstring;
  errors : list JS.jsstring
}.

(** ** The validator ([class RFCValidator]) *)

Module RFCValidator.
Import JS.

(** [[A-Z&Ñ]] and [[A-Z0-9]]; [[0-9]] and [\d] are [JS.isDigit]. *)
Definition isLetra (c : Z) : bool :=
  ((0x41 <=? c) && (c <=? 0x5A)) || (c =? 0x26) || (c =? 0xD1).
Definition isAlfanumerico (c : Z) : bool :=
  ((0x41 <=? c) && (c <=? 0x5A)) || isDigit c.

Definition RFC_FISICA_REGEX : RegExp :=
  Fields [(isLetra, 4%nat); (isDigit, 6%nat); (isAlfanumerico, 3%nat)].
Definition RFC_MORAL_REGEX : RegExp :=
  Fields [(isLetra, 3%nat); (isDigit, 6%nat); (isAlfanumerico, 3%nat)].

Definition VALID_CHARS : jsstring := js "ABCDEFGHIJKLMNÑOPQRSTUVWXYZ0123456789&".

Definition FORBIDDEN_WORDS : list jsstring :=
  Eval vm_compute in map lit
    [ "BUEI"; "BUEY"; "CACA"; "CACO"; "CAGA"; "CAGO"; "CAKA"; "CAKO";
      "COGE"; "COGI"; "COJA"; "COJE"; "COJI"; "COJO"; "COLA"; "CULO";
      "FALO"; "FETO"; "GETA"; "GUEY"; "JETA"; "JOTO"; "KACA"; "KACO";
      "KAGA"; "KAGO"; "KAKA"; "KAKO"; "KOGE"; "KOGI"; "KOJA"; "KOJE";
      "KOJI"; "KOJO"; "KOLA"; "KULO"; "LILO"; "LOCA"; "LOCO"; "LOKA";
      "LOKO"; "MAME"; "MAMO"; "MEAR"; "MEAS"; "MEON"; "MIAR"; "MION";
      "MOCO"; "MOKO"; "MULA"; "MULO"; "NACA"; "NACO"; "PEDA"; "PEDO";
      "PENE"; "PIPI"; "PITO"; "POPO"; "PUTA"; "PUTO"; "QULO"; "RATA";
      "ROBA"; "ROBE"; "ROBO"; "RUIN"; "SENO"; "TETA"; "VACA"; "VAGA";
      "VAGO"; "VAKA"; "VUEI"; "VUEY"; "WUEI"; "WUEY" ]%string.

(** The messages pushed on [result.errors]. *)
Definition QUOTE : jsstring := [0x22].

Definition err_requerido : jsstring := js "RFC es requerido".
Definition err_longitud : jsstring :=
  js "RFC debe tener 12 caracteres (Persona Moral) o 13 caracteres (Persona Física)".
Definition err_formato_fisica : jsstring := js "Formato de RFC de Persona Física inválido".
Definition err_formato_moral : jsstring := js "Formato de RFC de Persona Moral inválido".
Definition err_letras (fieldName : jsstring) : jsstring :=
  fieldName ++ js " debe contener solo letras válidas (A-Z, Ñ, &)".
Definition err_fecha_nacimiento : jsstring := js "Fecha de nacimiento debe tener formato AAMMDD".
Definition err_mes_nacimiento : jsstring := js "Mes de nacimiento inválido (01-12)".
Definition err_dia_nacimiento : jsstring := js "Día de nacimiento inválido (01-31)".
Definition err_anio_nacimiento : jsstring := js "Año de nacimiento parece inválido".
Definition err_fecha_constitucion : jsstring := js "Fecha de constitución debe tener formato AAMMDD".
Definition err_mes_constitucion : jsstring := js "Mes de constitución inválido (01-12)".
Definition err_dia_constitucion : jsstring := js "Día de constitución inválido (01-31)".
Definition err_homoclave : jsstring := js "Homoclave debe tener 3 caracteres alfanuméricos".
Definition err_iniciales (iniciales : jsstring) : jsstring :=
  js "Las iniciales " ++ QUOTE ++ iniciales ++ QUOTE ++ js " no están permitidas en RFC".
Definition err_caracter (c : Z) (posicion : Z) : jsstring :=
  js "Carácter inválido encontrado: " ++ QUOTE ++ [c] ++ QUOTE
  ++ js " en posición " ++ Number_toString posicion.

(** [result.errors.push(msg)] on the analysis object threaded through the
    helpers. *)
Definition push (msg : jsstring) (result : RFCAnalysis) : RFCAnalysis :=
  {| isValid := isValid result;
     tipoPersona := tipoPersona result;
     length := length result;
     format := format result;
     errors := errors result ++ [msg] |}.

Definition setIsValid (b : bool) (result : RFCAnalysis) : RFCAnalysis :=
  {| isValid := b;
     tipoPersona := tipoPersona result;
     length := length result;
     format := format result;
     errors := errors result |}.

Definition validateLetters (text fieldName : jsstring) (result : RFCAnalysis) : RFCAnalysis :=
  if negb (test (Plus isLetra) text) then push (err_letras fieldName) result
  else result.

Definition validateFechaNacimiento (fullYear : Z) (fecha : jsstring)
    (result : RFCAnalysis) : RFCAnalysis :=
  if negb (test (Fields [(isDigit, 6%nat)]) fecha) then push err_fecha_nacimiento result
  else
    let anio := parseInt (substring 0 2 fecha) in
    let mes := parseInt (substring 2 4 fecha) in
    let dia := parseInt (substring 4 6 fecha) in
    let result :=
      if lt mes (Some 1) || gt mes (Some 12) then push err_mes_nacimiento result
      else result in
    let result :=
      if lt dia (Some 1) || gt dia (Some 31) then push err_dia_nacimiento result
      else result in
    let currentYear := Z.rem fullYear 100 in
    if gt anio (Some (currentYear + 10)) then push err_anio_nacimiento result
    else result.

Definition validateFechaConstitucion (fecha : jsstring) (result : RFCAnalysis) : RFCAnalysis :=
  if negb (test (Fields [(isDigit, 6%nat)]) fecha) then push err_fecha_constitucion result
  else
    let mes := parseInt (substring 2 4 fecha) in
    let dia := parseInt (substring 4 6 fecha) in
    let result :=
      if lt mes (Some 1) || gt mes (Some 12) then push err_mes_constitucion result
      else result in
    if lt dia (Some 1) || gt dia (Some 31) then push err_dia_constitucion result
    else result.

Definition validateHomoclave (homoclave : jsstring) (result : RFCAnalysis) : RFCAnalysis :=
  if negb (test (Fields [(isAlfanumerico, 3%nat)]) homoclave) then push err_homoclave result
  else result.

(** The loop [for (let i = 0; i < rfc.length; i++)], entered at index [i]
    with [rest] the units from [i] on. *)
Fixpoint validateCharacters_from (i : Z) (rest : jsstring) (result : RFCAnalysis)
    : RFCAnalysis :=
  match rest with
  | [] => result
  | c :: rest' =>
      validateCharacters_from (i + 1) rest'
        (if negb (includes VALID_CHARS [c]) then push (err_caracter c (i + 1)) result
         else result)
  end.

Definition validateCharacters (rfc : jsstring) (result : RFCAnalysis) : RFCAnalysis :=
  validateCharacters_from 0 rfc result.

Definition validatePersonaFisica (fullYear : Z) (rfc : jsstring) (result : RFCAnalysis)
    : RFCAnalysis :=
  if negb (test RFC_FISICA_REGEX rfc) then push err_formato_fisica result
  else
    let apellidoPaterno := substring 0 2 rfc in
    let apellidoMaterno := substring 2 3 rfc in
    let nombre := substring 3 4 rfc in
    let fechaNacimiento := substring 4 10 rfc in
    let homoclave := substring 10 13 rfc in
    let result := validateLetters apellidoPaterno (js "Apellido paterno") result in
    let result := validateLetters apellidoMaterno (js "Apellido materno") result in
    let result := validateLetters nombre (js "Nombre") result in
    let result := validateFechaNacimiento fullYear fechaNacimiento result in
    let result := validateHomoclave homoclave result in
    let iniciales := substring 0 4 rfc in
    let result :=
      if Array_includes FORBIDDEN_WORDS iniciales then push (err_iniciales iniciales) result
      else result in
    let result := validateCharacters rfc result in
    setIsValid (List.length (errors result) =? 0)%nat result.

Definition validatePersonaMoral (rfc : jsstring) (result : RFCAnalysis) : RFCAnalysis :=
  if negb (test RFC_MORAL_REGEX rfc) then push err_formato_moral result
  else
    let razonSocial := substring 0 3 rfc in
    let fechaConstitucion := substring 3 9 rfc in
    let homoclave := substring 9 12 rfc in
    let result := validateLetters razonSocial (js "Razón social") result in
    let result := validateFechaConstitucion fechaConstitucion result in
    let result := validateHomoclave homoclave result in
    let result :=
      if Array_includes FORBIDDEN_WORDS razonSocial then push (err_iniciales razonSocial) result
      else result in
    let result := validateCharacters rfc result in
    setIsValid (List.length (errors result) =? 0)%nat result.

(** [rfc.trim().toUpperCase().replace(/\s+/g, '')], the expression shared by
    [validate], [getTipoPersona] and [normalize]. *)
Definition clean (rfc : jsstring) : jsstring :=
  removeWhiteSpace (toUpperCase (trim rfc)).

Definition validate (fullYear : Z) (rfc : jsstring) : RFCAnalysis :=
  let result :=
    {| isValid := false; tipoPersona := None; length := 0; format := []; errors := [] |} in
  if isEmpty rfc then push err_requerido result
  else
    let cleanRFC := clean rfc in
    let result :=
      {| isValid := isValid result;
         tipoPersona := tipoPersona result;
         length := Z.of_nat (List.length cleanRFC);
         format := cleanRFC;
         errors := errors result |} in
    if negb (List.length cleanRFC =? 12)%nat && negb (List.length cleanRFC =? 13)%nat
    then push err_longitud result
    else
      if (List.length cleanRFC =? 13)%nat
      then validatePersonaFisica fullYear cleanRFC
             {| isValid := isValid result;
                tipoPersona := Some FISICA;
                length := length result;
                format := format result;
                errors := errors result |}
      else validatePersonaMoral cleanRFC
             {| isValid := isValid result;
                tipoPersona := Some MORAL;
                length := length result;
                format := format result;
                errors := errors result |}.

Definition getTipoPersona (rfc : jsstring) : option TipoPersona :=
  if isEmpty rfc then None
  else
    let cleanRFC := clean rfc in
    if (List.length cleanRFC =? 13)%nat then Some FISICA
    else if (List.length cleanRFC =? 12)%nat then Some MORAL
    else None.

Definition normalize (rfc : jsstring) : jsstring :=
  if isEmpty rfc then [] else clean rfc.

Definition generateExample (fullYear : Z) (tipoPersona : TipoPersona) : jsstring :=
  let currentYear := Z.rem fullYear 100 in
  let year := padStart 2 0x30 (Number_toString (currentYear - 25)) in
  let month := js "06" in
  let day := js "15" in
  let homoclave := js "ABC" in
  match tipoPersona with
  | FISICA => js "GOPE" ++ year ++ month ++ day ++ homoclave
  | MORAL => js "TUB" ++ year ++ month ++ day ++ homoclave
  end.

End RFCValidator.

(** The remaining static methods of [RFCValidator]: [isValid],
    [extractInfo] and [getErrorMessage].  They sit in a module of their own
    because [isValid] is also a field of the analysis record. *)

Module RFCQueries.
Import JS RFCValidator.

(** The object [extractInfo] returns when it does not return [null]. *)
Record RFCInfo : Type := {
  info_tipoPersona : TipoPersona;
  info_iniciales : jsstring;
  info_fecha : jsstring;
  info_homoclave : jsstring;
  info_isValid : bool
}.

Definition extractInfo (fullYear : Z) (rfc : jsstring) : option RFCInfo :=
  let cleanRFC := normalize rfc in
  let analysis := validate fullYear cleanRFC in
  if negb (isValid analysis) then None
  else
    match tipoPersona analysis with
    | Some FISICA =>
        Some {| info_tipoPersona := FISICA;
                info_iniciales := substring 0 4 cleanRFC;
                info_fecha := substring 4 10 cleanRFC;
                info_homoclave := substring 10 13 cleanRFC;
                info_isValid := true |}
    | Some MORAL =>
        Some {| info_tipoPersona := MORAL;
                info_iniciales := substring 0 3 cleanRFC;
                info_fecha := substring 3 9 cleanRFC;
                info_homoclave := substring 9 12 cleanRFC;
                info_isValid := true |}
    | None => None
    end.

(** [analysis.errors[0]], read behind the guard [errors.length === 0]. *)
Definition getErrorMessage (fullYear : Z) (rfc : jsstring) : jsstring :=
  let analysis := validate fullYear rfc in
  if isValid analysis then []
  else if (List.length (errors analysis) =? 0)%nat then js "RFC inválido"
  else nth 0 (errors analysis) [].

Definition isValid (fullYear : Z) (rfc : jsstring) : bool :=
  let analysis := validate fullYear rfc in
  isValid analysis.

End RFCQueries.

(** ** The spreadsheet import ([class ExcelUtils])

    [validateHeaders], [validateAndParseRow], [validateDuplicates] and the
    part of [parseClientesExcel] that runs once [XLSX.utils.sheet_to_json]
    has returned the rows of the first sheet. *)

Module ExcelUtils.
Import JS.

(** A cell of a row ([any]).  The code reads a cell through its truthiness,
    [String(cell)], strict equality with a string and template
    interpolation, nothing else; so a value that is not a string is described
    by its truthiness and its string conversion.  An empty slot of a sparse
    row is [COther false _]: it stays [undefined] where an empty cell becomes
    [''], and the code treats the two alike. *)
Inductive Cell : Type :=
  | CString (s : jsstring)
  | COther (truthy : bool) (text : jsstring).

Definition ToBoolean (c : Cell) : bool :=
  match c with
  | CString s => negb (isEmpty s)
  | COther t _ => t
  end.

Definition ToString (c : Cell) : jsstring :=
  match c with
  | CString s => s
  | COther _ t => t
  end.

(** [cell === str] for a string [str]. *)
Definition strictEquals (str : jsstring) (c : Cell) : bool :=
  match c with
  | CString s => eqb s str
  | COther _ _ => false
  end.

(** [Omit<Cliente, 'id' | 'created_at' | 'updated_at'>]. *)
Record Cliente : Type := {
  codigo_sn : jsstring;
  nombre_sn : jsstring;
  rfc : jsstring;
  codigo_condiciones_pago : jsstring;
  codigo_grupo : jsstring
}.

Module HeaderValidation.
Record t : Type := { isValid : bool; errors : list jsstring }.
End HeaderValidation.

Module RowValidation.
Record t : Type := {
  isValid : bool;
  cliente : option Cliente;
  errors : list jsstring;
  warnings : list jsstring
}.
End RowValidation.

Module DuplicateValidation.
Record t : Type := { errors : list jsstring; warnings : list jsstring }.
End DuplicateValidation.

Module ExcelValidationResult.
Record t : Type := {
  isValid : bool;
  clientes : list Cliente;
  errors : list jsstring;
  warnings : list jsstring;
  totalRows : Z;
  validRows : Z
}.
End ExcelValidationResult.

Definition REQUIRED_COLUMNS : list jsstring :=
  [js "Código SN"; js "Nombre SN"; js "RFC"; js "Código Condiciones Pago";
   js "Código Grupo"].

Definition QUOTE : jsstring := [0x22].

Definition err_columna_faltante (requiredColumn : jsstring) : jsstring :=
  js "Columna requerida faltante: " ++ QUOTE ++ requiredColumn ++ QUOTE.

Definition err_columna_orden (posicion : Z) (expected found : jsstring) : jsstring :=
  js "Columna en posición " ++ Number_toString posicion ++ js " debería ser "
  ++ QUOTE ++ expected ++ QUOTE ++ js " pero es " ++ QUOTE ++ found ++ QUOTE.

Definition Fila (rowNumber : Z) : jsstring :=
  js "Fila " ++ Number_toString rowNumber ++ js ": ".

Definition err_rfc_invalido (rowNumber : Z) (rfcValidation : RFCAnalysis) : jsstring :=
  Fila rowNumber ++ js "RFC inválido - " ++ join (js ", ") (errors rfcValidation).

(** The second loop of [validateHeaders], entered at index [i]: it stops at
    the end of the shorter array or at the first mismatch ([break]). *)
Fixpoint checkOrder (i : Z) (headers : list Cell) (expectedOrder : list jsstring)
    (errors : list jsstring) : list jsstring :=
  match headers, expectedOrder with
  | h :: headers', e :: expectedOrder' =>
      if negb (strictEquals e h)
      then errors ++ [err_columna_orden (i + 1) e (ToString h)]
      else checkOrder (i + 1) headers' expectedOrder' errors
  | _, _ => errors
  end.

Definition validateHeaders (headers : list Cell) : HeaderValidation.t :=
  let errors :=
    fold_left
      (fun errors requiredColumn =>
         if negb (existsb (strictEquals requiredColumn) headers)
         then errors ++ [err_columna_faltante requiredColumn]
         else errors)
      REQUIRED_COLUMNS [] in
  let errors := checkOrder 0 headers REQUIRED_COLUMNS errors in
  {| HeaderValidation.isValid := (List.length errors =? 0)%nat;
     HeaderValidation.errors := errors |}.

(** [cell ? String(cell).trim().toUpperCase() : ''] *)
Definition cleanCell (cell : Cell) : jsstring :=
  if ToBoolean cell then toUpperCase (trim (ToString cell)) else [].

Definition validateAndParseRow (fullYear : Z) (row : list Cell) (rowNumber : Z)
    : RowValidation.t :=
  if (List.length row <? List.length REQUIRED_COLUMNS)%nat
  then
    {| RowValidation.isValid := false;
       RowValidation.cliente := None;
       RowValidation.errors :=
         [Fila rowNumber ++ js "Faltan columnas (esperadas: "
          ++ Number_toString (Z.of_nat (List.length REQUIRED_COLUMNS))
          ++ js ", encontradas: " ++ Number_toString (Z.of_nat (List.length row))
          ++ js ")"];
       RowValidation.warnings := [] |}
  else
    let cells := map cleanCell row in
    let codigoSN := nth 0 cells [] in
    let nombreSN := nth 1 cells [] in
    let rfc := nth 2 cells [] in
    let codigoCondicionesPago := nth 3 cells [] in
    let codigoGrupo := nth 4 cells [] in
    let errors : list jsstring := [] in
    let warnings : list jsstring := [] in
    let errors :=
      if isEmpty codigoSN then errors ++ [Fila rowNumber ++ js "Código SN es requerido"]
      else errors in
    let errors :=
      if isEmpty nombreSN then errors ++ [Fila rowNumber ++ js "Nombre SN es requerido"]
      else errors in
    let errors :=
      if isEmpty rfc then errors ++ [Fila rowNumber ++ js "RFC es requerido"]
      else
        let rfcValidation := RFCValidator.validate fullYear rfc in
        if negb (isValid rfcValidation)
        then errors ++ [err_rfc_invalido rowNumber rfcValidation]
        else errors in
    let errors :=
      if isEmpty codigoCondicionesPago
      then errors ++ [Fila rowNumber ++ js "Código Condiciones Pago es requerido"]
      else errors in
    let errors :=
      if isEmpty codigoGrupo
      then errors ++ [Fila rowNumber ++ js "Código Grupo es requerido"]
      else errors in
    let warnings :=
      if negb (isEmpty codigoSN) && (50 <? List.length codigoSN)%nat
      then warnings ++ [Fila rowNumber ++ js "Código SN muy largo ("
                        ++ Number_toString (Z.of_nat (List.length codigoSN))
                        ++ js " caracteres)"]
      else warnings in
    let warnings :=
      if negb (isEmpty nombreSN) && (200 <? List.length nombreSN)%nat
      then warnings ++ [Fila rowNumber ++ js "Nombre SN muy largo ("
                        ++ Number_toString (Z.of_nat (List.length nombreSN))
                        ++ js " caracteres)"]
      else warnings in
    let warnings :=
      if negb (isEmpty codigoCondicionesPago)
         && negb (test (Plus isDigit) codigoCondicionesPago)
      then warnings ++ [Fila rowNumber ++ js "Código Condiciones Pago debería ser numérico"]
      else warnings in
    if (0 <? List.length errors)%nat
    then
      {| RowValidation.isValid := false;
         RowValidation.cliente := None;
         RowValidation.errors := errors;
         RowValidation.warnings := warnings |}
    else
      let cliente :=
        {| codigo_sn := codigoSN;
           nombre_sn := nombreSN;
           rfc := RFCValidator.normalize rfc;
           codigo_condiciones_pago := codigoCondicionesPago;
           codigo_grupo := codigoGrupo |} in
      {| RowValidation.isValid := true;
         RowValidation.cliente := Some cliente;
         RowValidation.errors := errors;
         RowValidation.warnings := warnings |}.

(** A [Map<string, number[]>] in insertion order, which is the order
    [forEach] visits it in.  [Map_push m key v] is
    [if (!m.has(key)) m.set(key, []); m.get(key).push(v)]. *)
Fixpoint Map_push (m : list (jsstring * list Z)) (key : jsstring) (v : Z)
    : list (jsstring * list Z) :=
  match m with
  | [] => [(key, [v])]
  | (k, indices) :: m' =>
      if eqb k key then (k, indices ++ [v]) :: m'
      else (k, indices) :: Map_push m' key v
  end.

(** [clientes.forEach((cliente, index) => ...)] from position [index] on. *)
Fixpoint collectRows (key : Cliente -> jsstring) (clientes : list Cliente) (index : Z)
    (m : list (jsstring * list Z)) : list (jsstring * list Z) :=
  match clientes with
  | [] => m
  | cliente :: clientes' =>
      collectRows key clientes' (index + 1) (Map_push m (key cliente) (index + 2))
  end.

Definition err_duplicado (what key : jsstring) (indices : list Z) : jsstring :=
  what ++ js " duplicado " ++ QUOTE ++ key ++ QUOTE ++ js " en filas: "
  ++ join (js ", ") (map Number_toString indices).

Definition reportDuplicates (what : jsstring) (m : list (jsstring * list Z))
    (errors : list jsstring) : list jsstring :=
  fold_left
    (fun errors entry =>
       if (1 <? List.length (snd entry))%nat
       then errors ++ [err_duplicado what (fst entry) (snd entry)]
       else errors)
    m errors.

Definition validateDuplicates (clientes : list Cliente) : DuplicateValidation.t :=
  let errors : list jsstring := [] in
  let warnings : list jsstring := [] in
  let codigosSN := collectRows codigo_sn clientes 0 [] in
  let errors := reportDuplicates (js "Código SN") codigosSN errors in
  let rfcs := collectRows rfc clientes 0 [] in
  let errors := reportDuplicates (js "RFC") rfcs errors in
  {| DuplicateValidation.errors := errors; DuplicateValidation.warnings := warnings |}.

(** The row loop of [parseClientesExcel], entered at index [i]. *)
Fixpoint processRows (fullYear : Z) (i : Z) (dataRows : list (list Cell))
    (result : ExcelValidationResult.t) : ExcelValidationResult.t :=
  match dataRows with
  | [] => result
  | row :: dataRows' =>
      let rowNumber := i + 2 in
      let rowValidation := validateAndParseRow fullYear row rowNumber in
      let result :=
        match RowValidation.isValid rowValidation, RowValidation.cliente rowValidation with
        | true, Some cliente =>
            {| ExcelValidationResult.isValid := ExcelValidationResult.isValid result;
               ExcelValidationResult.clientes :=
                 ExcelValidationResult.clientes result ++ [cliente];
               ExcelValidationResult.errors := ExcelValidationResult.errors result;
               ExcelValidationResult.warnings := ExcelValidationResult.warnings result;
               ExcelValidationResult.totalRows := ExcelValidationResult.totalRows result;
               ExcelValidationResult.validRows :=
                 ExcelValidationResult.validRows result + 1 |}
        | _, _ =>
            {| ExcelValidationResult.isValid := ExcelValidationResult.isValid result;
               ExcelValidationResult.clientes := ExcelValidationResult.clientes result;
               ExcelValidationResult.errors :=
                 ExcelValidationResult.errors result ++ RowValidation.errors rowValidation;
               ExcelValidationResult.warnings :=
                 ExcelValidationResult.warnings result
                 ++ RowValidation.warnings rowValidation;
               ExcelValidationResult.totalRows := ExcelValidationResult.totalRows result;
               ExcelValidationResult.validRows := ExcelValidationResult.validRows result |}
        end in
      processRows fullYear (i + 1) dataRows' result
  end.

(** [parseClientesExcel] from [const jsonData = sheet_to_json(...)] on, as a
    function of the rows that call returned. *)
Definition parseJsonData (fullYear : Z) (jsonData : list (list Cell))
    : ExcelValidationResult.t :=
  match jsonData with
  | [] =>
      {| ExcelValidationResult.isValid := false;
         ExcelValidationResult.clientes := [];
         ExcelValidationResult.errors := [js "El archivo Excel está vacío"];
         ExcelValidationResult.warnings := [];
         ExcelValidationResult.totalRows := 0;
         ExcelValidationResult.validRows := 0 |}
  | headers :: dataRows =>
      let headerValidation := validateHeaders headers in
      if negb (HeaderValidation.isValid headerValidation)
      then
        {| ExcelValidationResult.isValid := false;
           ExcelValidationResult.clientes := [];
           ExcelValidationResult.errors := HeaderValidation.errors headerValidation;
           ExcelValidationResult.warnings := [];
           ExcelValidationResult.totalRows := 0;
           ExcelValidationResult.validRows := 0 |}
      else
        let result :=
          {| ExcelValidationResult.isValid := false;
             ExcelValidationResult.clientes := [];
             ExcelValidationResult.errors := [];
             ExcelValidationResult.warnings := [];
             ExcelValidationResult.totalRows := Z.of_nat (List.length dataRows);
             ExcelValidationResult.validRows := 0 |} in
        if (List.length dataRows =? 0)%nat
        then
          {| ExcelValidationResult.isValid := false;
             ExcelValidationResult.clientes := [];
             ExcelValidationResult.errors :=
               [js "El archivo no contiene datos (solo encabezados)"];
             ExcelValidationResult.warnings := [];
             ExcelValidationResult.totalRows := 0;
             ExcelValidationResult.validRows := 0 |}
        else
          let result := processRows fullYear 0 dataRows result in
          let duplicateValidation :=
            validateDuplicates (ExcelValidationResult.clientes result) in
          let errors :=
            ExcelValidationResult.errors result
            ++ DuplicateValidation.errors duplicateValidation in
          let warnings :=
            ExcelValidationResult.warnings result
            ++ DuplicateValidation.warnings duplicateValidation in
          {| ExcelValidationResult.isValid :=
               (List.length errors =? 0)%nat
               && (0 <? ExcelValidationResult.validRows result);
             ExcelValidationResult.clientes := ExcelValidationResult.clientes result;
             ExcelValidationResult.errors := errors;
             ExcelValidationResult.warnings := warnings;
             ExcelValidationResult.totalRows := ExcelValidationResult.totalRows result;
             ExcelValidationResult.validRows := ExcelValidationResult.validRows result |}
  end.

End ExcelUtils.

(** ** Vocabulary of the specification *)

Import JS.

(** The object literal [validate] starts from. *)
Definition blank : RFCAnalysis :=
  {| isValid := false; tipoPersona := None; length := 0; format := []; errors := [] |}.

(** What a check pushes when it is run on a fresh analysis. *)
Definition reported (check : RFCAnalysis -> RFCAnalysis) : list JS.jsstring :=
  errors (check blank).

(** Person type read off a normalized length. *)
Definition tipoOfLength (n : nat) : option TipoPersona :=
  if (n =? 13)%nat then Some FISICA
  else if (n =? 12)%nat then Some MORAL
  else None.

(** The paths of [validate] that return before the field checks. *)
Definition earlyExit (rfc : JS.jsstring) : bool :=
  JS.isEmpty rfc
  || (negb (List.length (RFCValidator.clean rfc) =? 12)%nat
      && negb (List.length (RFCValidator.clean rfc) =? 13)%nat)
  || ((List.length (RFCValidator.clean rfc) =? 13)%nat
      && negb (JS.test RFCValidator.RFC_FISICA_REGEX (RFCValidator.clean rfc)))
  || ((List.length (RFCValidator.clean rfc) =? 12)%nat
      && negb (JS.test RFCValidator.RFC_MORAL_REGEX (RFCValidator.clean rfc))).

(** The two-digit year of a FISICA identifier: the digits at positions 4
    and 5. *)
Definition yearField (rfc : JS.jsstring) : Z :=
  10 * (nth 4 rfc 0 - 0x30) + (nth 5 rfc 0 - 0x30).

(** The messages the MORAL path can push. *)
Inductive MoralMessage : JS.jsstring -> Prop :=
  | mm_formato : MoralMessage RFCValidator.err_formato_moral
  | mm_letras : MoralMessage (RFCValidator.err_letras (js "Razón social"))
  | mm_fecha : MoralMessage RFCValidator.err_fecha_constitucion
  | mm_mes : MoralMessage RFCValidator.err_mes_constitucion
  | mm_dia : MoralMessage RFCValidator.err_dia_constitucion
  | mm_homoclave : MoralMessage RFCValidator.err_homoclave
  | mm_caracter (c posicion : Z) : MoralMessage (RFCValidator.err_caracter c posicion).

(** What the granular field checks of each path report on a normalized
    string, run without the format gate in front of them. *)
Definition fieldChecksFisica (fullYear : Z) (rfc : JS.jsstring) : list JS.jsstring :=
  reported (RFCValidator.validateLetters (substring 0 2 rfc) (js "Apellido paterno"))
  ++ reported (RFCValidator.validateLetters (substring 2 3 rfc) (js "Apellido materno"))
  ++ reported (RFCValidator.validateLetters (substring 3 4 rfc) (js "Nombre"))
  ++ reported (RFCValidator.validateFechaNacimiento fullYear (substring 4 10 rfc))
  ++ reported (RFCValidator.validateHomoclave (substring 10 13 rfc)).

Definition fieldChecksMoral (rfc : JS.jsstring) : list JS.jsstring :=
  reported (RFCValidator.validateLetters (substring 0 3 rfc) (js "Razón social"))
  ++ reported (RFCValidator.validateFechaConstitucion (substring 3 9 rfc))
  ++ reported (RFCValidator.validateHomoclave (substring 9 12 rfc)).

(** A normalized string made of a forbidden word [w], six date digits whose
    month is outside 1..12, and an alphanumeric homoclave [h]. *)
Definition ForbiddenWordBadMonth (rfc w h : JS.jsstring) : Prop :=
  exists y1 y2 m1 m2 d1 d2 : Z,
    rfc = w ++ [y1; y2; m1; m2; d1; d2] ++ h
    /\ In w RFCValidator.FORBIDDEN_WORDS
    /\ forallb isDigit [y1; y2; m1; m2; d1; d2] = true
    /\ (10 * (m1 - 0x30) + (m2 - 0x30) < 1 \/ 12 < 10 * (m1 - 0x30) + (m2 - 0x30))
    /\ forallb RFCValidator.isAlfanumerico h = true.

Definition atLeast3Distinct (l : list JS.jsstring) : Prop :=
  exists a b c, In a l /\ In b l /\ In c l /\ a <> b /\ a <> c /\ b <> c.

(** Unicode scalar values: code points that are not surrogates. *)
Definition isScalarValue (cp : Z) : bool :=
  (0 <=? cp) && (cp <=? 0x10FFFF) && negb (isSurrogate cp).

(** A string that is the UTF-16 encoding of a sequence of scalar values. *)
Definition Encoded (s : jsstring) : Prop :=
  exists cps : list Z, forallb isScalarValue cps = true /\ s = CodePointsToString cps.

(** A code point that upper-casing leaves alone. *)
Definition isUpperFixed (cp : Z) : bool :=
  match find (fun e => fst e =? cp) UppercaseMapping with
  | Some _ => false
  | None => true
  end.

(** The number written by the two digits at positions [i] and [i + 1]. *)
Definition twoDigits (i : nat) (rfc : jsstring) : Z :=
  10 * (nth i rfc 0 - 0x30) + (nth (S i) rfc 0 - 0x30).

(** The messages [validate] can return, each with the condition that makes
    the FISICA and the MORAL path report it. *)
Definition fisicaErrors (fullYear : Z) (rfc : jsstring) : list jsstring :=
  (if (twoDigits 6 rfc <? 1) || (12 <? twoDigits 6 rfc)
   then [RFCValidator.err_mes_nacimiento] else [])
  ++ (if (twoDigits 8 rfc <? 1) || (31 <? twoDigits 8 rfc)
      then [RFCValidator.err_dia_nacimiento] else [])
  ++ (if Z.rem fullYear 100 + 10 <? twoDigits 4 rfc
      then [RFCValidator.err_anio_nacimiento] else [])
  ++ (if Array_includes RFCValidator.FORBIDDEN_WORDS (firstn 4 rfc)
      then [RFCValidator.err_iniciales (firstn 4 rfc)] else []).

Definition moralErrors (rfc : jsstring) : list jsstring :=
  (if (twoDigits 5 rfc <? 1) || (12 <? twoDigits 5 rfc)
   then [RFCValidator.err_mes_constitucion] else [])
  ++ (if (twoDigits 7 rfc <? 1) || (31 <? twoDigits 7 rfc)
      then [RFCValidator.err_dia_constitucion] else []).

(** The messages [validate] can put in [errors]. *)
Definition Reportable (e : jsstring) : Prop :=
  In e [RFCValidator.err_requerido; RFCValidator.err_longitud;
        RFCValidator.err_formato_fisica; RFCValidator.err_formato_moral;
        RFCValidator.err_mes_nacimiento; RFCValidator.err_dia_nacimiento;
        RFCValidator.err_anio_nacimiento;
        RFCValidator.err_mes_constitucion; RFCValidator.err_dia_constitucion]
  \/ exists w, In w RFCValidator.FORBIDDEN_WORDS /\ e = RFCValidator.err_iniciales w.

(** The four field names [validateLetters] is called with. *)
Definition fieldNames : list jsstring :=
  [js "Apellido paterno"; js "Apellido materno"; js "Nombre"; js "Razón social"].

(** The cleaned text of cell [i] of a row, as [validateAndParseRow] reads
    it; past the end of the row it is empty. *)
Definition rowField (i : nat) (row : list ExcelUtils.Cell) : jsstring :=
  ExcelUtils.cleanCell (nth i row (ExcelUtils.COther false [])).

(** The condition under which a row becomes a client record. *)
Definition rowAccepted (fullYear : Z) (row : list ExcelUtils.Cell) : bool :=
  (5 <=? List.length row)%nat
  && negb (isEmpty (rowField 0 row))
  && negb (isEmpty (rowField 1 row))
  && isValid (RFCValidator.validate fullYear (rowField 2 row))
  && negb (isEmpty (rowField 3 row))
  && negb (isEmpty (rowField 4 row)).

(** The client record built from an accepted row. *)
Definition rowCliente (row : list ExcelUtils.Cell) : ExcelUtils.Cliente :=
  {| ExcelUtils.codigo_sn := rowField 0 row;
     ExcelUtils.nombre_sn := rowField 1 row;
     ExcelUtils.rfc := RFCValidator.normalize (rowField 2 row);
     ExcelUtils.codigo_condiciones_pago := rowField 3 row;
     ExcelUtils.codigo_grupo := rowField 4 row |}.

(** [m.get(k)] on the insertion-ordered map of [validateDuplicates], with
    the empty array for an absent key. *)
Definition Map_get (m : list (jsstring * list Z)) (k : jsstring) : list Z :=
  match find (fun e => eqb (fst e) k) m with
  | Some e => snd e
  | None => []
  end.

(** The errors and the warnings of the rows that [validateAndParseRow]
    rejects, in row order; [i] is the loop index of the first row. *)
Fixpoint rejectedErrors (fullYear : Z) (i : Z) (rows : list (list ExcelUtils.Cell))
    : list jsstring :=
  match rows with
  | [] => []
  | row :: rows' =>
      (if rowAccepted fullYear row then []
       else ExcelUtils.RowValidation.errors
              (ExcelUtils.validateAndParseRow fullYear row (i + 2)))
      ++ rejectedErrors fullYear (i + 1) rows'
  end.

Fixpoint rejectedWarnings (fullYear : Z) (i : Z) (rows : list (list ExcelUtils.Cell))
    : list jsstring :=
  match rows with
  | [] => []
  | row :: rows' =>
      (if rowAccepted fullYear row then []
       else ExcelUtils.RowValidation.warnings
              (ExcelUtils.validateAndParseRow fullYear row (i + 2)))
      ++ rejectedWarnings fullYear (i + 1) rows'
  end.

(** * Properties *)

Import RFCValidator.

(** ** The model on concrete inputs *)

Example lit_non_ascii : js "Ñá" = [0xD1; 0xE1].
Proof. reflexivity. Qed.

Example toUpperCase_full_mapping :
  toUpperCase (js "gope ñ ß") = js "GOPE Ñ SS".
Proof. vm_compute. reflexivity. Qed.

Example clean_mixed : clean (js "  tub 650615 abc ") = js "TUB650615ABC".
Proof. vm_compute. reflexivity. Qed.

Example validate_TUB650615ABC :
  validate 2024 (js "TUB650615ABC")
  = {| isValid := true; tipoPersona := Some MORAL; length := 12;
       format := js "TUB650615ABC"; errors := [] |}.
Proof. vm_compute. reflexivity. Qed.

Example validate_XAXX010101000 :
  validate 2024 (js "XAXX010101000")
  = {| isValid := true; tipoPersona := Some FISICA; length := 13;
       format := js "XAXX010101000"; errors := [] |}.
Proof. vm_compute. reflexivity. Qed.

Example validate_AB12 :
  validate 2024 (js "AB12")
  = {| isValid := false; tipoPersona := None; length := 4;
       format := js "AB12"; errors := [err_longitud] |}.
Proof. vm_compute. reflexivity. Qed.

Example validate_empty :
  validate 2024 []
  = {| isValid := false; tipoPersona := None; length := 0;
       format := []; errors := [err_requerido] |}.
Proof. vm_compute. reflexivity. Qed.

Example validate_CACA650615ABC :
  errors (validate 2060 (js "CACA650615ABC")) = [err_iniciales (js "CACA")].
Proof. vm_compute. reflexivity. Qed.

Example validate_four_errors :
  errors (validate 2024 (js "CACA991399ABC"))
  = [err_mes_nacimiento; err_dia_nacimiento; err_anio_nacimiento;
     err_iniciales (js "CACA")].
Proof. vm_compute. reflexivity. Qed.

(** ** The helpers only append to [errors] *)

Lemma push_errors (m : jsstring) (r : RFCAnalysis) :
  errors (push m r) = errors r ++ [m].
Proof. reflexivity. Qed.

Lemma push_tipoPersona (m : jsstring) (r : RFCAnalysis) :
  tipoPersona (push m r) = tipoPersona r.
Proof. reflexivity. Qed.

Ltac frame_cases :=
  repeat match goal with
         | |- context [if ?b then _ else _] => destruct b
         end;
  cbn [errors push tipoPersona app];
  rewrite <- ?app_assoc, ?app_nil_r; try reflexivity.

Lemma validateLetters_errors (t f : jsstring) (r : RFCAnalysis) :
  errors (validateLetters t f r) = errors r ++ reported (validateLetters t f).
Proof. unfold reported, validateLetters. frame_cases. Qed.

Lemma validateFechaNacimiento_errors (y : Z) (f : jsstring) (r : RFCAnalysis) :
  errors (validateFechaNacimiento y f r)
  = errors r ++ reported (validateFechaNacimiento y f).
Proof. unfold reported, validateFechaNacimiento. frame_cases. Qed.

Lemma validateFechaConstitucion_errors (f : jsstring) (r : RFCAnalysis) :
  errors (validateFechaConstitucion f r)
  = errors r ++ reported (validateFechaConstitucion f).
Proof. unfold reported, validateFechaConstitucion. frame_cases. Qed.

Lemma validateHomoclave_errors (h : jsstring) (r : RFCAnalysis) :
  errors (validateHomoclave h r) = errors r ++ reported (validateHomoclave h).
Proof. unfold reported, validateHomoclave. frame_cases. Qed.

Lemma validateCharacters_from_cons (i c : Z) (rest : jsstring) (r : RFCAnalysis) :
  validateCharacters_from i (c :: rest) r
  = validateCharacters_from (i + 1) rest
      (if negb (includes VALID_CHARS [c]) then push (err_caracter c (i + 1)) r else r).
Proof. reflexivity. Qed.

Lemma validateCharacters_from_errors (rest : jsstring) :
  forall (i : Z) (r : RFCAnalysis),
    errors (validateCharacters_from i rest r)
    = errors r ++ reported (validateCharacters_from i rest).
Proof.
  induction rest as [|c rest IH]; intros i r.
  - cbn. now rewrite app_nil_r.
  - unfold reported. rewrite !validateCharacters_from_cons. rewrite IH.
    rewrite (IH (i + 1)
               (if negb (includes VALID_CHARS [c])
                then push (err_caracter c (i + 1)) blank else blank)).
    destruct (negb (includes VALID_CHARS [c])).
    + rewrite !push_errors. change (errors blank) with (@nil jsstring).
      rewrite app_nil_l, app_assoc. reflexivity.
    + change (errors blank) with (@nil jsstring). reflexivity.
Qed.

Lemma validateLetters_tipoPersona (t f : jsstring) (r : RFCAnalysis) :
  tipoPersona (validateLetters t f r) = tipoPersona r.
Proof. unfold validateLetters. frame_cases. Qed.

Lemma validateFechaNacimiento_tipoPersona (y : Z) (f : jsstring) (r : RFCAnalysis) :
  tipoPersona (validateFechaNacimiento y f r) = tipoPersona r.
Proof. unfold validateFechaNacimiento. frame_cases. Qed.

Lemma validateFechaConstitucion_tipoPersona (f : jsstring) (r : RFCAnalysis) :
  tipoPersona (validateFechaConstitucion f r) = tipoPersona r.
Proof. unfold validateFechaConstitucion. frame_cases. Qed.

Lemma validateHomoclave_tipoPersona (h : jsstring) (r : RFCAnalysis) :
  tipoPersona (validateHomoclave h r) = tipoPersona r.
Proof. unfold validateHomoclave. frame_cases. Qed.

Lemma validateCharacters_from_tipoPersona (rest : jsstring) :
  forall (i : Z) (r : RFCAnalysis),
    tipoPersona (validateCharacters_from i rest r) = tipoPersona r.
Proof.
  induction rest as [|c rest IH]; intros i r.
  - reflexivity.
  - rewrite validateCharacters_from_cons, IH.
    now destruct (negb (includes VALID_CHARS [c])).
Qed.

Lemma validatePersonaFisica_tipoPersona (y : Z) (rfc : jsstring) (r : RFCAnalysis) :
  tipoPersona (validatePersonaFisica y rfc r) = tipoPersona r.
Proof.
  unfold validatePersonaFisica.
  destruct (negb (test RFC_FISICA_REGEX rfc)); [reflexivity|].
  cbv zeta. unfold setIsValid, validateCharacters. cbn [tipoPersona].
  rewrite validateCharacters_from_tipoPersona.
  destruct (Array_includes FORBIDDEN_WORDS (substring 0 4 rfc));
    rewrite ?push_tipoPersona, validateHomoclave_tipoPersona,
      validateFechaNacimiento_tipoPersona, !validateLetters_tipoPersona;
    reflexivity.
Qed.

Lemma validatePersonaMoral_tipoPersona (rfc : jsstring) (r : RFCAnalysis) :
  tipoPersona (validatePersonaMoral rfc r) = tipoPersona r.
Proof.
  unfold validatePersonaMoral.
  destruct (negb (test RFC_MORAL_REGEX rfc)); [reflexivity|].
  cbv zeta. unfold setIsValid, validateCharacters. cbn [tipoPersona].
  rewrite validateCharacters_from_tipoPersona.
  destruct (Array_includes FORBIDDEN_WORDS (substring 0 3 rfc));
    rewrite ?push_tipoPersona, validateHomoclave_tipoPersona,
      validateFechaConstitucion_tipoPersona, !validateLetters_tipoPersona;
    reflexivity.
Qed.

(** ** Person type and validity flag *)

Lemma clean_nil : clean [] = [].
Proof. reflexivity. Qed.

Lemma setIsValid_iff (r : RFCAnalysis) :
  isValid (setIsValid (List.length (errors r) =? 0)%nat r) = true
  <-> errors (setIsValid (List.length (errors r) =? 0)%nat r) = [].
Proof.
  cbn [isValid errors setIsValid].
  rewrite Nat.eqb_eq. apply length_zero_iff_nil.
Qed.

Lemma validatePersonaFisica_isValid_iff (y : Z) (rfc : jsstring) (r : RFCAnalysis) :
  isValid r = false ->
  isValid (validatePersonaFisica y rfc r) = true
  <-> errors (validatePersonaFisica y rfc r) = [].
Proof.
  intros Hr. unfold validatePersonaFisica.
  destruct (negb (test RFC_FISICA_REGEX rfc)).
  - cbn [isValid errors push]. rewrite Hr. split; [discriminate|].
    intros H. now apply app_eq_nil in H.
  - cbv zeta. apply setIsValid_iff.
Qed.

Lemma validatePersonaMoral_isValid_iff (rfc : jsstring) (r : RFCAnalysis) :
  isValid r = false ->
  isValid (validatePersonaMoral rfc r) = true
  <-> errors (validatePersonaMoral rfc r) = [].
Proof.
  intros Hr. unfold validatePersonaMoral.
  destruct (negb (test RFC_MORAL_REGEX rfc)).
  - cbn [isValid errors push]. rewrite Hr. split; [discriminate|].
    intros H. now apply app_eq_nil in H.
  - cbv zeta. apply setIsValid_iff.
Qed.

(** C7. [getTipoPersona] classifies by the length of the normalized form
    alone (13: FISICA, 12: MORAL, anything else: none), and the
    [tipoPersona] that [validate] reports is that same classification for
    every input and every date, whether or not the input is valid. *)
Theorem getTipoPersona_by_length (s : jsstring) :
  (List.length (normalize s) = 13%nat -> getTipoPersona s = Some FISICA)
  /\ (List.length (normalize s) = 12%nat -> getTipoPersona s = Some MORAL)
  /\ (List.length (normalize s) <> 13%nat -> List.length (normalize s) <> 12%nat ->
      getTipoPersona s = None)
  /\ (forall y : Z, tipoPersona (validate y s) = getTipoPersona s).
Proof.
  assert (Hcls : getTipoPersona s = tipoOfLength (List.length (normalize s))).
  { unfold getTipoPersona, normalize, tipoOfLength.
    destruct (isEmpty s); reflexivity. }
  repeat split.
  - intros H. rewrite Hcls, H. reflexivity.
  - intros H. rewrite Hcls, H. reflexivity.
  - intros H13 H12. rewrite Hcls. unfold tipoOfLength.
    apply Nat.eqb_neq in H13, H12. now rewrite H13, H12.
  - intros y. unfold validate, getTipoPersona.
    destruct (isEmpty s); [reflexivity|]. cbv zeta.
    destruct (List.length (clean s) =? 13)%nat eqn:E13.
    + rewrite andb_false_r. now rewrite validatePersonaFisica_tipoPersona.
    + rewrite andb_true_r.
      destruct (List.length (clean s) =? 12)%nat eqn:E12; cbn [negb].
      * now rewrite validatePersonaMoral_tipoPersona.
      * reflexivity.
Qed.

(** The classification of an input that fails validation: upper-casing and
    white-space removal leave 13 units, the month 13 and the day 99 are
    rejected, and the person type is still FISICA. *)
Lemma getTipoPersona_by_length_witness :
  List.length (normalize (js "caca 991399 abc")) = 13%nat
  /\ getTipoPersona (js "caca 991399 abc") = Some FISICA
  /\ isValid (validate 2024 (js "caca 991399 abc")) = false.
Proof.
  split; [vm_compute; reflexivity|].
  split; [|vm_compute; reflexivity].
  apply (proj1 (getTipoPersona_by_length (js "caca 991399 abc"))).
  vm_compute; reflexivity.
Defined.

(** C8. [isValid] is true exactly when [errors] is empty, and every path
    that returns before the field checks (missing input, wrong length, overall
    format not matched) leaves [isValid = false] with a non-empty list. *)
Theorem isValid_iff_no_errors (y : Z) (s : jsstring) :
  (isValid (validate y s) = true <-> errors (validate y s) = [])
  /\ (earlyExit s = true ->
      isValid (validate y s) = false /\ errors (validate y s) <> []).
Proof.
  split.
  - unfold validate. destruct (isEmpty s).
    + cbn. split; discriminate.
    + cbv zeta.
      destruct (negb (List.length (clean s) =? 12)%nat
                && negb (List.length (clean s) =? 13)%nat).
      * cbn. split; discriminate.
      * destruct (List.length (clean s) =? 13)%nat.
        -- now apply validatePersonaFisica_isValid_iff.
        -- now apply validatePersonaMoral_isValid_iff.
  - unfold earlyExit, validate, validatePersonaFisica, validatePersonaMoral.
    destruct (isEmpty s).
    + intros _. cbn. split; [reflexivity|discriminate].
    + cbv zeta.
      destruct (List.length (clean s) =? 13)%nat eqn:E13.
      * assert (E12 : (List.length (clean s) =? 12)%nat = false).
        { apply Nat.eqb_eq in E13. rewrite E13. reflexivity. }
        rewrite E12.
        destruct (test RFC_FISICA_REGEX (clean s)); cbn [negb andb orb];
          intros H; try discriminate H.
        cbn. split; [reflexivity|discriminate].
      * destruct (List.length (clean s) =? 12)%nat;
          destruct (test RFC_MORAL_REGEX (clean s)); cbn [negb andb orb];
          intros H; try discriminate H;
          cbn; (split; [reflexivity|discriminate]).
Qed.

(** A 13-unit input with a dash in the homoclave leaves through the format
    gate of the FISICA path. *)
Lemma isValid_iff_no_errors_witness :
  earlyExit (js "GOPE650615AB-") = true
  /\ isValid (validate 2024 (js "GOPE650615AB-")) = false
  /\ errors (validate 2024 (js "GOPE650615AB-")) <> [].
Proof.
  split; [vm_compute; reflexivity|].
  apply (proj2 (isValid_iff_no_errors 2024 (js "GOPE650615AB-"))).
  vm_compute; reflexivity.
Defined.

(** ** White-space-only inputs *)

Lemma trimStart_whitespace (s : jsstring) :
  forallb isWhiteSpace s = true -> trimStart s = [].
Proof.
  induction s as [|c s IH]; [reflexivity|].
  cbn [forallb trimStart]. intros H. apply andb_prop in H as [Hc Hs].
  rewrite Hc. now apply IH.
Qed.

Lemma clean_whitespace (s : jsstring) :
  forallb isWhiteSpace s = true -> clean s = [].
Proof.
  intros H. unfold clean, trim. now rewrite (trimStart_whitespace s H).
Qed.

(** C10. A non-empty input made of white space only passes the emptiness
    guard, which looks at the raw string, and is rejected for its length: the
    result carries the length message, which names 12 and 13 and is not the
    message for a missing input, with [length = 0], an empty [format] and no
    person type. *)
Theorem validate_whitespace_only (y : Z) (s : jsstring) :
  s <> [] ->
  forallb isWhiteSpace s = true ->
  validate y s
  = {| isValid := false; tipoPersona := None; length := 0; format := [];
       errors := [err_longitud] |}
  /\ err_longitud <> err_requerido
  /\ includes err_longitud (js "12") = true
  /\ includes err_longitud (js "13") = true.
Proof.
  intros Hne Hws.
  split; [|split; [vm_compute; discriminate|split; vm_compute; reflexivity]].
  unfold validate. destruct s as [|c s]; [contradiction|].
  cbn [isEmpty]. cbv zeta. rewrite (clean_whitespace _ Hws). reflexivity.
Qed.

(** A tab, a no-break space and a line feed. *)
Lemma validate_whitespace_only_witness :
  errors (validate 2024 [0x09; 0xA0; 0x0A]) = [err_longitud]
  /\ length (validate 2024 [0x09; 0xA0; 0x0A]) = 0.
Proof.
  assert (H := validate_whitespace_only 2024 [0x09; 0xA0; 0x0A]
                 ltac:(discriminate) ltac:(vm_compute; reflexivity)).
  destruct H as [H _]. rewrite H. split; reflexivity.
Defined.

(** ** The date the validator reads *)

Lemma validateFechaNacimiento_rem (y : Z) (f : jsstring) (r : RFCAnalysis) :
  validateFechaNacimiento (Z.rem y 100) f r = validateFechaNacimiento y f r.
Proof.
  unfold validateFechaNacimiento. rewrite Z.rem_rem by discriminate. reflexivity.
Qed.

Lemma validate_rem (y : Z) (s : jsstring) :
  validate (Z.rem y 100) s = validate y s.
Proof.
  unfold validate, validatePersonaFisica.
  rewrite validateFechaNacimiento_rem. reflexivity.
Qed.

Lemma generateExample_rem (y : Z) (t : TipoPersona) :
  generateExample (Z.rem y 100) t = generateExample y t.
Proof.
  unfold generateExample. rewrite Z.rem_rem by discriminate. reflexivity.
Qed.

Lemma in_Z_range (lo : nat) (n : nat) (z : Z) :
  Z.of_nat lo <= z < Z.of_nat (lo + n) -> In z (map Z.of_nat (seq lo n)).
Proof.
  intros H. apply in_map_iff. exists (Z.to_nat z). split; [lia|].
  apply in_seq. lia.
Qed.

(** C2. Evaluated in 2024, [validate("GOPE650615ABC")] takes the FISICA path,
    accepts the letters, the month, the day and the homoclave, and rejects
    the year: 65 exceeds 24 + 10.  The result is not valid. *)
Theorem validate_GOPE650615ABC_in_2024 :
  validate 2024 (js "GOPE650615ABC")
  = {| isValid := false; tipoPersona := Some FISICA; length := 13;
       format := js "GOPE650615ABC"; errors := [err_anio_nacimiento] |}.
Proof. vm_compute. reflexivity. Qed.

(** The same input is accepted exactly when the two-digit current year is
    55 or more. *)
Lemma validate_GOPE650615ABC_valid_iff (y : Z) :
  0 <= y ->
  isValid (validate y (js "GOPE650615ABC")) = true <-> 55 <= y mod 100.
Proof.
  intros Hy. rewrite <- validate_rem. rewrite Z.rem_mod_nonneg by lia.
  assert (Hb : 0 <= y mod 100 < 100) by (apply Z.mod_pos_bound; lia).
  generalize dependent (y mod 100). intros cy Hb.
  assert (Hall : forallb (fun c => Bool.eqb (isValid (validate c (js "GOPE650615ABC")))
                                     (55 <=? c))
                   (map Z.of_nat (seq 0 100)) = true)
    by (vm_compute; reflexivity).
  rewrite forallb_forall in Hall.
  specialize (Hall cy (in_Z_range 0 100 cy ltac:(lia))).
  apply eqb_prop in Hall. rewrite Hall. apply Z.leb_le.
Qed.

(** C6. Evaluated in 2024, [generateExample] computes the year field from
    24 - 25 = -1, which [padStart] leaves as ["-1"]: both examples carry a
    minus sign where the date digits belong and both are rejected by the
    format check of their variant. *)
Theorem generateExample_in_2024_invalid :
  generateExample 2024 FISICA = js "GOPE-10615ABC"
  /\ generateExample 2024 MORAL = js "TUB-10615ABC"
  /\ validate 2024 (generateExample 2024 FISICA)
     = {| isValid := false; tipoPersona := Some FISICA; length := 13;
          format := js "GOPE-10615ABC"; errors := [err_formato_fisica] |}
  /\ validate 2024 (generateExample 2024 MORAL)
     = {| isValid := false; tipoPersona := Some MORAL; length := 12;
          format := js "TUB-10615ABC"; errors := [err_formato_moral] |}.
Proof. repeat split; vm_compute; reflexivity. Qed.

(** From a two-digit current year of 25 on, the examples validate and carry
    the requested person type. *)
Lemma generateExample_valid_from_25 (y : Z) (t : TipoPersona) :
  25 <= Z.rem y 100 ->
  isValid (validate y (generateExample y t)) = true
  /\ tipoPersona (validate y (generateExample y t)) = Some t.
Proof.
  intros Hy. rewrite <- validate_rem, <- generateExample_rem.
  assert (Hb : Z.rem y 100 < 100).
  { pose proof (Z.rem_bound_abs y 100 ltac:(discriminate)). lia. }
  revert Hy Hb. generalize (Z.rem y 100). intros cy Hy Hb.
  assert (Hall : forallb
                   (fun c =>
                      forallb
                        (fun t' =>
                           isValid (validate c (generateExample c t'))
                           && match tipoPersona (validate c (generateExample c t')), t' with
                              | Some FISICA, FISICA | Some MORAL, MORAL => true
                              | _, _ => false
                              end)
                        [FISICA; MORAL])
                   (map Z.of_nat (seq 25 75)) = true)
    by (vm_compute; reflexivity).
  rewrite forallb_forall in Hall.
  specialize (Hall cy (in_Z_range 25 75 cy ltac:(lia))).
  rewrite forallb_forall in Hall.
  assert (Ht : In t [FISICA; MORAL]) by (destruct t; cbn; auto).
  specialize (Hall t Ht). apply andb_prop in Hall as [Hv Htp].
  split; [exact Hv|].
  destruct (tipoPersona (validate cy (generateExample cy t))) as [[]|], t;
    try discriminate Htp; reflexivity.
Qed.

(** ** What each check can report *)

Lemma validateLetters_message (t f e : jsstring) :
  In e (reported (validateLetters t f)) -> e = err_letras f.
Proof.
  unfold reported, validateLetters. destruct (negb (test (Plus isLetra) t)); cbn.
  - intros [H|[]]. now symmetry.
  - intros [].
Qed.

Lemma validateHomoclave_message (h e : jsstring) :
  In e (reported (validateHomoclave h)) -> e = err_homoclave.
Proof.
  unfold reported, validateHomoclave.
  destruct (negb (test (Fields [(isAlfanumerico, 3%nat)]) h)); cbn.
  - intros [H|[]]. now symmetry.
  - intros [].
Qed.

Lemma validateFechaConstitucion_message (f e : jsstring) :
  In e (reported (validateFechaConstitucion f)) ->
  e = err_fecha_constitucion \/ e = err_mes_constitucion \/ e = err_dia_constitucion.
Proof.
  unfold reported, validateFechaConstitucion.
  repeat match goal with
         | |- context [if ?b then _ else _] => destruct b
         end;
    cbn [errors push blank app In]; intuition auto.
Qed.

Lemma validateFechaNacimiento_message (y : Z) (f e : jsstring) :
  In e (reported (validateFechaNacimiento y f)) ->
  e = err_fecha_nacimiento \/ e = err_mes_nacimiento
  \/ e = err_dia_nacimiento \/ e = err_anio_nacimiento.
Proof.
  unfold reported, validateFechaNacimiento.
  repeat match goal with
         | |- context [if ?b then _ else _] => destruct b
         end;
    cbn [errors push blank app In]; intuition auto.
Qed.

Lemma validateCharacters_from_message (rest : jsstring) :
  forall (i : Z) (e : jsstring),
    In e (reported (validateCharacters_from i rest)) ->
    exists c p, e = err_caracter c p.
Proof.
  induction rest as [|c rest IH]; intros i e.
  - intros [].
  - unfold reported.
    rewrite validateCharacters_from_cons, validateCharacters_from_errors.
    intros H. apply in_app_or in H as [H|H]; [|now apply (IH (i + 1))].
    destruct (negb (includes VALID_CHARS [c])); cbn in H.
    + destruct H as [H|[]]. now exists c, (i + 1).
    + destruct H.
Qed.

(** ** The error list of each path *)

Lemma validatePersonaFisica_errors (y : Z) (rfc : jsstring) (r : RFCAnalysis) :
  test RFC_FISICA_REGEX rfc = true ->
  errors (validatePersonaFisica y rfc r)
  = errors r
    ++ reported (validateLetters (substring 0 2 rfc) (js "Apellido paterno"))
    ++ reported (validateLetters (substring 2 3 rfc) (js "Apellido materno"))
    ++ reported (validateLetters (substring 3 4 rfc) (js "Nombre"))
    ++ reported (validateFechaNacimiento y (substring 4 10 rfc))
    ++ reported (validateHomoclave (substring 10 13 rfc))
    ++ (if Array_includes FORBIDDEN_WORDS (substring 0 4 rfc)
        then [err_iniciales (substring 0 4 rfc)] else [])
    ++ reported (validateCharacters rfc).
Proof.
  intros Hre. unfold validatePersonaFisica. rewrite Hre. cbn [negb]. cbv zeta.
  unfold setIsValid, validateCharacters. cbn [errors].
  rewrite validateCharacters_from_errors.
  destruct (Array_includes FORBIDDEN_WORDS (substring 0 4 rfc));
    rewrite ?push_errors, validateHomoclave_errors, validateFechaNacimiento_errors,
      !validateLetters_errors;
    rewrite <- ?app_assoc; rewrite ?app_nil_l; reflexivity.
Qed.

Lemma validatePersonaMoral_errors (rfc : jsstring) (r : RFCAnalysis) :
  test RFC_MORAL_REGEX rfc = true ->
  errors (validatePersonaMoral rfc r)
  = errors r
    ++ reported (validateLetters (substring 0 3 rfc) (js "Razón social"))
    ++ reported (validateFechaConstitucion (substring 3 9 rfc))
    ++ reported (validateHomoclave (substring 9 12 rfc))
    ++ (if Array_includes FORBIDDEN_WORDS (substring 0 3 rfc)
        then [err_iniciales (substring 0 3 rfc)] else [])
    ++ reported (validateCharacters rfc).
Proof.
  intros Hre. unfold validatePersonaMoral. rewrite Hre. cbn [negb]. cbv zeta.
  unfold setIsValid, validateCharacters. cbn [errors].
  rewrite validateCharacters_from_errors.
  destruct (Array_includes FORBIDDEN_WORDS (substring 0 3 rfc));
    rewrite ?push_errors, validateHomoclave_errors, validateFechaConstitucion_errors,
      !validateLetters_errors;
    rewrite <- ?app_assoc; rewrite ?app_nil_l; reflexivity.
Qed.

Lemma validatePersonaFisica_errors_gate (y : Z) (rfc : jsstring) (r : RFCAnalysis) :
  test RFC_FISICA_REGEX rfc = false ->
  errors (validatePersonaFisica y rfc r) = errors r ++ [err_formato_fisica].
Proof. intros Hre. unfold validatePersonaFisica. now rewrite Hre. Qed.

Lemma validatePersonaMoral_errors_gate (rfc : jsstring) (r : RFCAnalysis) :
  test RFC_MORAL_REGEX rfc = false ->
  errors (validatePersonaMoral rfc r) = errors r ++ [err_formato_moral].
Proof. intros Hre. unfold validatePersonaMoral. now rewrite Hre. Qed.

(** [validate] on an input whose normalized form has 13, respectively 12,
    units. *)
Lemma clean_length_nonempty (s : jsstring) :
  List.length (clean s) <> 0%nat -> isEmpty s = false.
Proof. destruct s; [intros H; now contradiction H|reflexivity]. Qed.

Lemma validate_fisica (y : Z) (s : jsstring) :
  List.length (clean s) = 13%nat ->
  validate y s
  = validatePersonaFisica y (clean s)
      {| isValid := false; tipoPersona := Some FISICA; length := 13;
         format := clean s; errors := [] |}.
Proof.
  intros H. unfold validate.
  rewrite (clean_length_nonempty s) by (rewrite H; discriminate).
  cbv zeta. rewrite H. reflexivity.
Qed.

Lemma validate_moral (y : Z) (s : jsstring) :
  List.length (clean s) = 12%nat ->
  validate y s
  = validatePersonaMoral (clean s)
      {| isValid := false; tipoPersona := Some MORAL; length := 12;
         format := clean s; errors := [] |}.
Proof.
  intros H. unfold validate.
  rewrite (clean_length_nonempty s) by (rewrite H; discriminate).
  cbv zeta. rewrite H. reflexivity.
Qed.

(** ** The forbidden-word list against a three-letter field *)

Lemma eqb_eq (a b : jsstring) : eqb a b = true -> a = b.
Proof. unfold eqb. now destruct (list_eq_dec Z.eq_dec a b). Qed.

Lemma FORBIDDEN_WORDS_length :
  Forall (fun w => List.length w = 4%nat) FORBIDDEN_WORDS.
Proof.
  apply Forall_forall.
  assert (H : forallb (fun w => (List.length w =? 4)%nat) FORBIDDEN_WORDS = true)
    by (vm_compute; reflexivity).
  rewrite forallb_forall in H. intros w Hw. now apply Nat.eqb_eq, H.
Qed.

Lemma Array_includes_In (arr : list jsstring) (x : jsstring) :
  Array_includes arr x = true -> In x arr.
Proof.
  unfold Array_includes. rewrite existsb_exists. intros (w & Hw & E).
  apply eqb_eq in E. now subst.
Qed.

Lemma forbidden_length (x : jsstring) :
  Array_includes FORBIDDEN_WORDS x = true -> List.length x = 4%nat.
Proof.
  intros H. apply Array_includes_In in H.
  exact (proj1 (Forall_forall _ _) FORBIDDEN_WORDS_length x H).
Qed.

Lemma substring_0_3_not_forbidden (rfc : jsstring) :
  Array_includes FORBIDDEN_WORDS (substring 0 3 rfc) = false.
Proof.
  destruct (Array_includes FORBIDDEN_WORDS (substring 0 3 rfc)) eqn:E; [|reflexivity].
  apply forbidden_length in E. unfold substring in E. cbn [Nat.min Nat.max Nat.sub skipn] in E.
  pose proof (firstn_le_length 3 rfc). lia.
Qed.

Lemma validate_moral_messages (y : Z) (s : jsstring) :
  List.length (clean s) = 12%nat -> Forall MoralMessage (errors (validate y s)).
Proof.
  intros H. rewrite (validate_moral y s H).
  destruct (test RFC_MORAL_REGEX (clean s)) eqn:Hre.
  - rewrite (validatePersonaMoral_errors _ _ Hre), substring_0_3_not_forbidden.
    cbn [errors app]. rewrite !Forall_app. repeat split; apply Forall_forall; intros e He.
    + apply validateLetters_message in He. subst. constructor.
    + apply validateFechaConstitucion_message in He as [->|[->| ->]]; constructor.
    + apply validateHomoclave_message in He. subst. constructor.
    + unfold validateCharacters in He.
      apply validateCharacters_from_message in He as (c & p & ->). constructor.
  - rewrite (validatePersonaMoral_errors_gate _ _ Hre). cbn.
    repeat constructor.
Qed.

Lemma err_iniciales_hd (w : jsstring) : hd 0 (err_iniciales w) = 0x4C.
Proof. reflexivity. Qed.

Lemma err_caracter_firstn (c p : Z) : firstn 2 (err_caracter c p) = [0x43; 0x61].
Proof. reflexivity. Qed.

Lemma MoralMessage_not_iniciales (e w : jsstring) :
  MoralMessage e -> e <> err_iniciales w.
Proof.
  intros He E. apply (f_equal (hd 0)) in E. rewrite err_iniciales_hd in E.
  destruct He; vm_compute in E; discriminate E.
Qed.

Lemma MoralMessage_not_anio (e : jsstring) :
  MoralMessage e -> e <> err_anio_nacimiento.
Proof.
  intros He E. apply (f_equal (firstn 2)) in E.
  destruct He; vm_compute in E; discriminate E.
Qed.

Lemma normalize_clean (s : jsstring) :
  List.length (normalize s) <> 0%nat -> normalize s = clean s.
Proof. unfold normalize. destruct s; [intros H; now contradiction H|reflexivity]. Qed.

(** C4. On the MORAL path no forbidden-word error is ever reported: every
    entry of the list has four units, the leading field that is looked up has
    three, so the lookup is always false. *)
Theorem moral_never_forbidden_word (y : Z) (s : jsstring) :
  List.length (normalize s) = 12%nat ->
  Forall (fun w => List.length w = 4%nat) FORBIDDEN_WORDS
  /\ List.length (substring 0 3 (normalize s)) = 3%nat
  /\ Array_includes FORBIDDEN_WORDS (substring 0 3 (normalize s)) = false
  /\ forall w : jsstring, ~ In (err_iniciales w) (errors (validate y s)).
Proof.
  intros H. split; [exact FORBIDDEN_WORDS_length|].
  split.
  { unfold substring. cbn [Nat.min Nat.max Nat.sub skipn].
    apply firstn_length_le. lia. }
  split; [apply substring_0_3_not_forbidden|].
  intros w Hin.
  rewrite normalize_clean in H by (rewrite H; discriminate).
  pose proof (validate_moral_messages y s H) as Hall.
  rewrite Forall_forall in Hall.
  exact (MoralMessage_not_iniciales _ w (Hall _ Hin) eq_refl).
Qed.

(** "CAC650615ABC": a twelve-unit identifier whose leading field is the
    first three letters of a listed word. *)
Lemma moral_never_forbidden_word_witness :
  List.length (normalize (js "CAC650615ABC")) = 12%nat
  /\ forall w : jsstring,
       ~ In (err_iniciales w) (errors (validate 2024 (js "CAC650615ABC"))).
Proof.
  split; [vm_compute; reflexivity|].
  apply (moral_never_forbidden_word 2024 (js "CAC650615ABC")).
  vm_compute; reflexivity.
Defined.

(** ** The birth-year check *)

Lemma isDigit_range (d : Z) : isDigit d = true -> In d (map Z.of_nat (seq 48 10)).
Proof.
  unfold isDigit. intros H. apply andb_prop in H as [H1 H2].
  apply Z.leb_le in H1, H2. apply in_Z_range. lia.
Qed.

Lemma parseInt_two_digits (d1 d2 : Z) :
  isDigit d1 = true -> isDigit d2 = true ->
  parseInt [d1; d2] = Some (10 * (d1 - 0x30) + (d2 - 0x30)).
Proof.
  intros H1 H2. apply isDigit_range in H1, H2.
  assert (Hall : forallb
                   (fun a =>
                      forallb
                        (fun b =>
                           match parseInt [a; b] with
                           | Some v => v =? 10 * (a - 0x30) + (b - 0x30)
                           | None => false
                           end)
                        (map Z.of_nat (seq 48 10)))
                   (map Z.of_nat (seq 48 10)) = true)
    by (vm_compute; reflexivity).
  rewrite forallb_forall in Hall. specialize (Hall d1 H1).
  rewrite forallb_forall in Hall. specialize (Hall d2 H2).
  destruct (parseInt [d1; d2]) as [v|]; [|discriminate Hall].
  apply Z.eqb_eq in Hall. now subst.
Qed.

Lemma validateFechaNacimiento_anio (y : Z) (f : jsstring) :
  In err_anio_nacimiento (reported (validateFechaNacimiento y f))
  <-> test (Fields [(isDigit, 6%nat)]) f = true
      /\ gt (parseInt (substring 0 2 f)) (Some (Z.rem y 100 + 10)) = true.
Proof.
  unfold reported, validateFechaNacimiento.
  destruct (test (Fields [(isDigit, 6%nat)]) f); cbn [negb].
  - cbv zeta.
    destruct (gt (parseInt (substring 0 2 f)) (Some (Z.rem y 100 + 10)));
      repeat match goal with
             | |- context [if ?b then _ else _] => destruct b
             end;
      cbn [errors push blank app In];
      (split;
       [ intros H; repeat destruct H as [H|H];
         try (vm_compute in H; discriminate H); try contradiction; auto
       | intros [_ H]; try discriminate H; auto 6 ]).
  - cbn [errors push blank app In]. split.
    + intros [H|[]]. vm_compute in H. discriminate H.
    + intros [H _]. discriminate H.
Qed.

Lemma err_iniciales_not_anio (w : jsstring) : err_iniciales w <> err_anio_nacimiento.
Proof.
  intros E. apply (f_equal (hd 0)) in E. rewrite err_iniciales_hd in E.
  vm_compute in E. discriminate E.
Qed.

Lemma err_caracter_not_anio (c p : Z) : err_caracter c p <> err_anio_nacimiento.
Proof.
  intros E. apply (f_equal (firstn 2)) in E. rewrite err_caracter_firstn in E.
  vm_compute in E. discriminate E.
Qed.

Lemma matchFields_length (fs : list ((Z -> bool) * nat)) :
  forall s : jsstring,
    matchFields fs s = true ->
    List.length s = fold_right (fun f n => (snd f + n)%nat) 0%nat fs.
Proof.
  induction fs as [|[cls n] fs IH]; intros s H; cbn [matchFields fold_right snd] in *.
  - now destruct s.
  - apply andb_prop in H as [H Hrest]. apply andb_prop in H as [Hn _].
    apply Nat.eqb_eq in Hn. apply IH in Hrest.
    rewrite length_firstn in Hn. rewrite length_skipn in Hrest. lia.
Qed.

(** The fields of a string that matches the FISICA format. *)
Lemma RFC_FISICA_REGEX_fields (rfc : jsstring) :
  test RFC_FISICA_REGEX rfc = true ->
  exists l0 l1 l2 l3 y1 y2 m1 m2 d1 d2 h1 h2 h3,
    rfc = [l0; l1; l2; l3; y1; y2; m1; m2; d1; d2; h1; h2; h3]
    /\ forallb isLetra [l0; l1; l2; l3] = true
    /\ forallb isDigit [y1; y2; m1; m2; d1; d2] = true
    /\ forallb isAlfanumerico [h1; h2; h3] = true.
Proof.
  unfold RFC_FISICA_REGEX, test. intros H.
  pose proof (matchFields_length _ _ H) as Hlen. cbn in Hlen.
  do 13 (destruct rfc as [|? rfc]; [discriminate Hlen|]).
  destruct rfc; [|discriminate Hlen].
  cbn [matchFields firstn skipn List.length Nat.eqb isEmpty andb] in H.
  rewrite andb_true_r in H.
  apply andb_prop in H as [H1 H]. apply andb_prop in H as [H2 H3].
  repeat eexists; eassumption.
Qed.

(** C5. On the FISICA path, once the overall format is matched, the
    implausible-birth-year error is reported exactly when the two-digit year
    exceeds the current two-digit year plus 10; on the MORAL path that error
    is never reported. *)
Theorem birth_year_error_iff (y : Z) (s : jsstring) :
  (List.length (clean s) = 13%nat ->
   test RFC_FISICA_REGEX (clean s) = true ->
   (In err_anio_nacimiento (errors (validate y s))
    <-> yearField (clean s) > Z.rem y 100 + 10))
  /\ (List.length (clean s) = 12%nat ->
      ~ In err_anio_nacimiento (errors (validate y s))).
Proof.
  split.
  - intros Hlen Hre. rewrite (validate_fisica y s Hlen).
    rewrite (validatePersonaFisica_errors _ _ _ Hre). cbn [errors app].
    destruct (RFC_FISICA_REGEX_fields _ Hre)
      as (l0 & l1 & l2 & l3 & y1 & y2 & m1 & m2 & d1 & d2 & h1 & h2 & h3
          & -> & _ & Hd & _).
    assert (Hfecha : substring 4 10 [l0; l1; l2; l3; y1; y2; m1; m2; d1; d2; h1; h2; h3]
                     = [y1; y2; m1; m2; d1; d2]) by reflexivity.
    rewrite Hfecha.
    assert (Hsix : test (Fields [(isDigit, 6%nat)]) [y1; y2; m1; m2; d1; d2] = true).
    { cbn [test matchFields firstn skipn List.length Nat.eqb isEmpty andb].
      now rewrite Hd. }
    assert (Hyear : parseInt (substring 0 2 [y1; y2; m1; m2; d1; d2])
                    = Some (yearField [l0; l1; l2; l3; y1; y2; m1; m2; d1; d2; h1; h2; h3])).
    { cbn [forallb] in Hd.
      apply andb_prop in Hd as [Hy1 Hd]. apply andb_prop in Hd as [Hy2 _].
      exact (parseInt_two_digits y1 y2 Hy1 Hy2). }
    rewrite !in_app_iff, validateFechaNacimiento_anio, Hsix, Hyear.
    unfold gt, lt. rewrite Z.ltb_lt.
    split.
    + intros [H|[H|[H|[H|[H|[H|H]]]]]].
      * apply validateLetters_message in H. vm_compute in H. discriminate H.
      * apply validateLetters_message in H. vm_compute in H. discriminate H.
      * apply validateLetters_message in H. vm_compute in H. discriminate H.
      * destruct H as [_ H]. lia.
      * apply validateHomoclave_message in H. vm_compute in H. discriminate H.
      * destruct (Array_includes FORBIDDEN_WORDS _); [|destruct H].
        destruct H as [H|[]]. now apply err_iniciales_not_anio in H.
      * apply validateCharacters_from_message in H as (c & p & H).
        symmetry in H. now apply err_caracter_not_anio in H.
    + intros H. right; right; right; left. split; [reflexivity|lia].
  - intros Hlen Hin.
    pose proof (validate_moral_messages y s Hlen) as Hall.
    rewrite Forall_forall in Hall.
    exact (MoralMessage_not_anio _ (Hall _ Hin) eq_refl).
Qed.

(** In 2026 the birth year 37 is reported and 36 is not. *)
Lemma birth_year_error_iff_witness :
  In err_anio_nacimiento (errors (validate 2026 (js "GOPE370615ABC")))
  /\ ~ In err_anio_nacimiento (errors (validate 2026 (js "GOPE360615ABC")))
  /\ ~ In err_anio_nacimiento (errors (validate 2026 (js "TUB990615ABC"))).
Proof.
  pose proof (proj1 (birth_year_error_iff 2026 (js "GOPE370615ABC"))) as T37.
  pose proof (proj1 (birth_year_error_iff 2026 (js "GOPE360615ABC"))) as T36.
  pose proof (proj2 (birth_year_error_iff 2026 (js "TUB990615ABC"))) as M99.
  assert (L13a : List.length (clean (js "GOPE370615ABC")) = 13%nat)
    by (vm_compute; reflexivity).
  assert (L13b : List.length (clean (js "GOPE360615ABC")) = 13%nat)
    by (vm_compute; reflexivity).
  assert (R13a : test RFC_FISICA_REGEX (clean (js "GOPE370615ABC")) = true)
    by (vm_compute; reflexivity).
  assert (R13b : test RFC_FISICA_REGEX (clean (js "GOPE360615ABC")) = true)
    by (vm_compute; reflexivity).
  assert (L12 : List.length (clean (js "TUB990615ABC")) = 12%nat)
    by (vm_compute; reflexivity).
  split; [|split].
  - refine (proj2 (T37 L13a R13a) _). vm_compute. reflexivity.
  - intros H. pose proof (proj1 (T36 L13b R13b) H) as G.
    vm_compute in G. discriminate G.
  - exact (M99 L12).
Defined.

(** ** The format gate *)

Lemma existsb_eqb_In (e : jsstring) (l : list jsstring) :
  existsb (eqb e) l = true -> In e l.
Proof.
  rewrite existsb_exists. intros (x & Hx & E). apply eqb_eq in E. now subst.
Qed.

Lemma validate_fisica_gate (y : Z) (s : jsstring) :
  List.length (clean s) = 13%nat ->
  test RFC_FISICA_REGEX (clean s) = false ->
  validate y s
  = {| isValid := false; tipoPersona := Some FISICA; length := 13;
       format := clean s; errors := [err_formato_fisica] |}.
Proof.
  intros Hlen Hre. rewrite (validate_fisica y s Hlen). unfold validatePersonaFisica.
  rewrite Hre. reflexivity.
Qed.

Lemma validate_moral_gate (y : Z) (s : jsstring) :
  List.length (clean s) = 12%nat ->
  test RFC_MORAL_REGEX (clean s) = false ->
  validate y s
  = {| isValid := false; tipoPersona := Some MORAL; length := 12;
       format := clean s; errors := [err_formato_moral] |}.
Proof.
  intros Hlen Hre. rewrite (validate_moral y s Hlen). unfold validatePersonaMoral.
  rewrite Hre. reflexivity.
Qed.

(** C1, as stated, fails: "GOPE651315AB-" and "TUB651315AB-" have 13 and 12
    units and miss the overall format (a dash in the homoclave); run on their
    own, the date check reports the month 13 and the homoclave check reports
    the dash, yet [validate] returns the format error alone. *)
Lemma format_gate_suppresses_field_checks :
  (List.length (clean (js "GOPE651315AB-")) = 13%nat
   /\ test RFC_FISICA_REGEX (clean (js "GOPE651315AB-")) = false
   /\ ~ incl (fieldChecksFisica 2024 (clean (js "GOPE651315AB-")))
             (errors (validate 2024 (js "GOPE651315AB-"))))
  /\ (List.length (clean (js "TUB651315AB-")) = 12%nat
      /\ test RFC_MORAL_REGEX (clean (js "TUB651315AB-")) = false
      /\ ~ incl (fieldChecksMoral (clean (js "TUB651315AB-")))
                (errors (validate 2024 (js "TUB651315AB-")))).
Proof.
  split; (split; [vm_compute; reflexivity|]); (split; [vm_compute; reflexivity|]);
    intros Hincl.
  - assert (Hin : In err_homoclave (fieldChecksFisica 2024 (clean (js "GOPE651315AB-"))))
      by (apply existsb_eqb_In; vm_compute; reflexivity).
    apply Hincl in Hin. vm_compute in Hin. destruct Hin as [E|[]]. discriminate E.
  - assert (Hin : In err_homoclave (fieldChecksMoral (clean (js "TUB651315AB-"))))
      by (apply existsb_eqb_In; vm_compute; reflexivity).
    apply Hincl in Hin. vm_compute in Hin. destruct Hin as [E|[]]. discriminate E.
Qed.

(** C1, amended. When the normalized form has 13 (respectively 12) units and
    misses the overall format of its variant, [validate] returns at the gate:
    the format error is the only entry, [isValid] is false, and none of the
    field checks has run. *)
Theorem format_gate_single_error (y : Z) (s : jsstring) :
  (List.length (clean s) = 13%nat ->
   test RFC_FISICA_REGEX (clean s) = false ->
   validate y s
   = {| isValid := false; tipoPersona := Some FISICA; length := 13;
        format := clean s; errors := [err_formato_fisica] |})
  /\ (List.length (clean s) = 12%nat ->
      test RFC_MORAL_REGEX (clean s) = false ->
      validate y s
      = {| isValid := false; tipoPersona := Some MORAL; length := 12;
           format := clean s; errors := [err_formato_moral] |}).
Proof.
  split; [apply validate_fisica_gate|apply validate_moral_gate].
Qed.

Lemma format_gate_single_error_witness :
  errors (validate 2024 (js "GOPE651315AB-")) = [err_formato_fisica]
  /\ errors (validate 2024 (js "TUB651315AB-")) = [err_formato_moral].
Proof.
  split.
  - rewrite (proj1 (format_gate_single_error 2024 (js "GOPE651315AB-"))
               ltac:(vm_compute; reflexivity) ltac:(vm_compute; reflexivity)).
    reflexivity.
  - rewrite (proj2 (format_gate_single_error 2024 (js "TUB651315AB-"))
               ltac:(vm_compute; reflexivity) ltac:(vm_compute; reflexivity)).
    reflexivity.
Defined.

(** ** Several defects in one input *)

Lemma validate_bad_length (y : Z) (s : jsstring) :
  isEmpty s = false ->
  List.length (clean s) <> 12%nat ->
  List.length (clean s) <> 13%nat ->
  validate y s
  = {| isValid := false; tipoPersona := None;
       length := Z.of_nat (List.length (clean s));
       format := clean s; errors := [err_longitud] |}.
Proof.
  intros Hne H12 H13. unfold validate. rewrite Hne. cbv zeta.
  apply Nat.eqb_neq in H12, H13. rewrite H12, H13. reflexivity.
Qed.

Lemma FORBIDDEN_WORDS_shape (w : jsstring) :
  In w FORBIDDEN_WORDS ->
  exists a b c d,
    w = [a; b; c; d] /\ forallb isLetra [a; b; c; d] = true /\ isDigit d = false.
Proof.
  assert (H : forallb
                (fun w => match w with
                          | [a; b; c; d] => forallb isLetra w && negb (isDigit d)
                          | _ => false
                          end) FORBIDDEN_WORDS = true)
    by (vm_compute; reflexivity).
  rewrite forallb_forall in H. intros Hw. specialize (H w Hw).
  destruct w as [|a [|b [|c [|d [|? ?]]]]]; try discriminate H.
  apply andb_prop in H as [Hl Hd]. apply negb_true_iff in Hd.
  now exists a, b, c, d.
Qed.

Lemma In_Array_includes (arr : list jsstring) (x : jsstring) :
  In x arr -> Array_includes arr x = true.
Proof.
  intros H. unfold Array_includes. apply existsb_exists. exists x. split; [exact H|].
  unfold eqb. now destruct (list_eq_dec Z.eq_dec x x).
Qed.

Lemma validateFechaNacimiento_mes (y : Z) (f : jsstring) :
  test (Fields [(isDigit, 6%nat)]) f = true ->
  lt (parseInt (substring 2 4 f)) (Some 1) || gt (parseInt (substring 2 4 f)) (Some 12) = true ->
  In err_mes_nacimiento (reported (validateFechaNacimiento y f)).
Proof.
  intros Hsix Hmes. unfold reported, validateFechaNacimiento.
  rewrite Hsix, Hmes. cbn [negb]. cbv zeta.
  repeat match goal with
         | |- context [if ?b then _ else _] => destruct b
         end;
    cbn [errors push blank app In]; auto.
Qed.

Lemma err_mes_not_iniciales (w : jsstring) : err_mes_nacimiento <> err_iniciales w.
Proof.
  intros E. apply (f_equal (hd 0)) in E. rewrite err_iniciales_hd in E.
  vm_compute in E. discriminate E.
Qed.

(** C3, as stated, fails: "CACA651315AB" opens with a forbidden word, has
    the month 13 and a two-unit homoclave, and [validate] reports a single
    error, the MORAL format error. *)
Lemma multi_broken_single_error :
  ForbiddenWordBadMonth (clean (js "CACA651315AB")) (js "CACA") (js "AB")
  /\ List.length (js "AB") <> 3%nat
  /\ errors (validate 2024 (js "CACA651315AB")) = [err_formato_moral]
  /\ ~ atLeast3Distinct (errors (validate 2024 (js "CACA651315AB"))).
Proof.
  assert (E : errors (validate 2024 (js "CACA651315AB")) = [err_formato_moral])
    by (vm_compute; reflexivity).
  split; [|split; [discriminate|split; [exact E|]]].
  - exists 0x36, 0x35, 0x31, 0x33, 0x31, 0x35.
    split; [vm_compute; reflexivity|].
    split; [apply Array_includes_In; vm_compute; reflexivity|].
    split; [reflexivity|]. split; [right; reflexivity|reflexivity].
  - rewrite E. intros (a & b & c & Ha & Hb & _ & Hab & _).
    destruct Ha as [<-|[]]. destruct Hb as [<-|[]]. now apply Hab.
Qed.

(** C3, amended. For an input whose normalized form is a forbidden word, a
    six-digit date with the month outside 1..12 and an alphanumeric
    homoclave: if the homoclave does not have three units, [validate] stops
    at the length check or at the MORAL format gate and reports that one
    error; if it has three, the input passes the FISICA gate and the list
    holds both the month error and the forbidden-word error, two distinct
    entries. *)
Theorem forbidden_word_bad_month_errors (y : Z) (s w h : jsstring) :
  ForbiddenWordBadMonth (clean s) w h ->
  (List.length h <> 3%nat ->
   isValid (validate y s) = false
   /\ (errors (validate y s) = [err_longitud]
       \/ errors (validate y s) = [err_formato_moral]))
  /\ (List.length h = 3%nat ->
      In err_mes_nacimiento (errors (validate y s))
      /\ In (err_iniciales w) (errors (validate y s))
      /\ err_mes_nacimiento <> err_iniciales w).
Proof.
  intros (y1 & y2 & m1 & m2 & d1 & d2 & Hrfc & Hw & Hd & Hm & Hh).
  destruct (FORBIDDEN_WORDS_shape w Hw) as (a & b & c & d & -> & Hl & Hnd).
  cbn [app] in Hrfc.
  split.
  - intros Hlen.
    assert (Hne : isEmpty s = false)
      by (apply clean_length_nonempty; rewrite Hrfc; discriminate).
    destruct h as [|h1 [|h2 [|h3 h]]].
    + assert (H12 : List.length (clean s) <> 12%nat)
        by (rewrite Hrfc; cbn [List.length]; lia).
      assert (H13 : List.length (clean s) <> 13%nat)
        by (rewrite Hrfc; cbn [List.length]; lia).
      rewrite (validate_bad_length y s Hne H12 H13).
      split; [reflexivity|now left].
    + assert (H12 : List.length (clean s) <> 12%nat)
        by (rewrite Hrfc; cbn [List.length]; lia).
      assert (H13 : List.length (clean s) <> 13%nat)
        by (rewrite Hrfc; cbn [List.length]; lia).
      rewrite (validate_bad_length y s Hne H12 H13).
      split; [reflexivity|now left].
    + assert (Hre : test RFC_MORAL_REGEX (clean s) = false).
      { rewrite Hrfc. unfold RFC_MORAL_REGEX.
        cbn [test matchFields firstn skipn List.length Nat.eqb isEmpty forallb].
        rewrite Hnd. now rewrite !andb_false_r. }
      assert (H12 : List.length (clean s) = 12%nat) by (now rewrite Hrfc).
      rewrite (validate_moral_gate y s H12 Hre).
      split; [reflexivity|now right].
    + destruct h as [|h4 h]; [now contradiction Hlen|].
      assert (H12 : List.length (clean s) <> 12%nat)
        by (rewrite Hrfc; cbn [List.length]; lia).
      assert (H13 : List.length (clean s) <> 13%nat)
        by (rewrite Hrfc; cbn [List.length]; lia).
      rewrite (validate_bad_length y s Hne H12 H13).
      split; [reflexivity|now left].
  - intros Hlen.
    destruct h as [|h1 [|h2 [|h3 [|? ?]]]]; try discriminate Hlen.
    assert (H13 : List.length (clean s) = 13%nat) by (now rewrite Hrfc).
    assert (Hre : test RFC_FISICA_REGEX (clean s) = true).
    { rewrite Hrfc. unfold RFC_FISICA_REGEX.
      cbn [test matchFields firstn skipn List.length Nat.eqb isEmpty].
      now rewrite Hl, Hd, Hh. }
    rewrite (validate_fisica y s H13), (validatePersonaFisica_errors _ _ _ Hre).
    cbn [errors app]. rewrite Hrfc.
    change (substring 4 10 [a; b; c; d; y1; y2; m1; m2; d1; d2; h1; h2; h3])
      with [y1; y2; m1; m2; d1; d2].
    change (substring 0 4 [a; b; c; d; y1; y2; m1; m2; d1; d2; h1; h2; h3])
      with [a; b; c; d].
    rewrite (In_Array_includes _ _ Hw).
    split; [|split; [|apply err_mes_not_iniciales]].
    + rewrite !in_app_iff. right; right; right; left.
      apply validateFechaNacimiento_mes.
      * cbn [test matchFields firstn skipn List.length Nat.eqb isEmpty].
        now rewrite Hd.
      * change (substring 2 4 [y1; y2; m1; m2; d1; d2]) with [m1; m2].
        cbn [forallb] in Hd.
        apply andb_prop in Hd as [_ Hd]. apply andb_prop in Hd as [_ Hd].
        apply andb_prop in Hd as [Hm1 Hd]. apply andb_prop in Hd as [Hm2 _].
        rewrite (parseInt_two_digits m1 m2 Hm1 Hm2). unfold gt, lt.
        apply orb_true_iff. rewrite !Z.ltb_lt. exact Hm.
    + rewrite !in_app_iff. do 5 right. left. now left.
Qed.

(** "CACA651315AB" (two-unit homoclave) and "CACA651315ABC" (three). *)
Lemma forbidden_word_bad_month_errors_witness :
  (isValid (validate 2024 (js "CACA651315AB")) = false
   /\ (errors (validate 2024 (js "CACA651315AB")) = [err_longitud]
       \/ errors (validate 2024 (js "CACA651315AB")) = [err_formato_moral]))
  /\ (In err_mes_nacimiento (errors (validate 2024 (js "CACA651315ABC")))
      /\ In (err_iniciales (js "CACA")) (errors (validate 2024 (js "CACA651315ABC")))
      /\ err_mes_nacimiento <> err_iniciales (js "CACA")).
Proof.
  assert (Hw : In (js "CACA") FORBIDDEN_WORDS)
    by (apply Array_includes_In; vm_compute; reflexivity).
  assert (B2 : ForbiddenWordBadMonth (clean (js "CACA651315AB")) (js "CACA") (js "AB")).
  { exists 0x36, 0x35, 0x31, 0x33, 0x31, 0x35.
    split; [vm_compute; reflexivity|]. split; [exact Hw|].
    split; [reflexivity|]. split; [right; reflexivity|reflexivity]. }
  assert (B3 : ForbiddenWordBadMonth (clean (js "CACA651315ABC")) (js "CACA") (js "ABC")).
  { exists 0x36, 0x35, 0x31, 0x33, 0x31, 0x35.
    split; [vm_compute; reflexivity|]. split; [exact Hw|].
    split; [reflexivity|]. split; [right; reflexivity|reflexivity]. }
  split.
  - exact (proj1 (forbidden_word_bad_month_errors 2024 _ _ _ B2) ltac:(discriminate)).
  - exact (proj2 (forbidden_word_bad_month_errors 2024 _ _ _ B3) eq_refl).
Defined.

(** ** Normalization *)

(** *** Surrogates and white space *)

Lemma isWhiteSpace_bound (c : Z) :
  isWhiteSpace c = true -> 0x09 <= c <= 0x3000 \/ c = 0xFEFF.
Proof.
  unfold isWhiteSpace.
  rewrite !orb_true_iff, andb_true_iff, !Z.eqb_eq, !Z.leb_le. lia.
Qed.

Lemma surrogate_not_whitespace (c : Z) :
  isSurrogate c = true -> isWhiteSpace c = false.
Proof.
  unfold isSurrogate. rewrite andb_true_iff, !Z.leb_le. intros H.
  destruct (isWhiteSpace c) eqn:E; [|reflexivity].
  apply isWhiteSpace_bound in E. lia.
Qed.

Lemma astral_not_whitespace (cp : Z) :
  0xFFFF < cp -> isWhiteSpace cp = false.
Proof.
  intros H. destruct (isWhiteSpace cp) eqn:E; [|reflexivity].
  apply isWhiteSpace_bound in E. lia.
Qed.

Lemma leading_isSurrogate (c : Z) : isLeadingSurrogate c = true -> isSurrogate c = true.
Proof.
  unfold isLeadingSurrogate, isSurrogate. rewrite !andb_true_iff, !Z.leb_le. lia.
Qed.

Lemma trailing_isSurrogate (c : Z) : isTrailingSurrogate c = true -> isSurrogate c = true.
Proof.
  unfold isTrailingSurrogate, isSurrogate. rewrite !andb_true_iff, !Z.leb_le. lia.
Qed.

Lemma not_surrogate_not_leading (c : Z) :
  isSurrogate c = false -> isLeadingSurrogate c = false.
Proof.
  intros H. destruct (isLeadingSurrogate c) eqn:E; [|reflexivity].
  apply leading_isSurrogate in E. congruence.
Qed.

(** *** Encoding and decoding code points *)

Lemma isScalarValue_spec (cp : Z) :
  isScalarValue cp = true <-> 0 <= cp <= 0x10FFFF /\ isSurrogate cp = false.
Proof.
  unfold isScalarValue. rewrite !andb_true_iff, !Z.leb_le, negb_true_iff. tauto.
Qed.

Lemma encode_bmp (cp : Z) : cp <= 0xFFFF -> UTF16EncodeCodePoint cp = [cp].
Proof.
  intros H. unfold UTF16EncodeCodePoint. apply Z.leb_le in H. now rewrite H.
Qed.

Lemma encode_astral (cp : Z) :
  0xFFFF < cp <= 0x10FFFF ->
  exists h l,
    UTF16EncodeCodePoint cp = [h; l]
    /\ isLeadingSurrogate h = true /\ isTrailingSurrogate l = true
    /\ UTF16SurrogatePairToCodePoint h l = cp.
Proof.
  intros H. unfold UTF16EncodeCodePoint.
  assert (E : (cp <=? 0xFFFF) = false) by (apply Z.leb_gt; lia). rewrite E.
  eexists _, _. split; [reflexivity|].
  unfold isLeadingSurrogate, isTrailingSurrogate, UTF16SurrogatePairToCodePoint.
  rewrite !andb_true_iff, !Z.leb_le.
  pose proof (Z.div_mod (cp - 0x10000) 0x400 ltac:(discriminate)) as Hdm.
  pose proof (Z.mod_pos_bound (cp - 0x10000) 0x400 ltac:(reflexivity)) as Hm.
  assert (Hq : 0 <= (cp - 0x10000) / 0x400 <= 0x3FF).
  { split.
    - apply Z.div_pos; lia.
    - apply Z.lt_succ_r. apply Z.div_lt_upper_bound; lia. }
  repeat split; lia.
Qed.

Lemma pair_encode (h l : Z) :
  isLeadingSurrogate h = true -> isTrailingSurrogate l = true ->
  isScalarValue (UTF16SurrogatePairToCodePoint h l) = true
  /\ UTF16EncodeCodePoint (UTF16SurrogatePairToCodePoint h l) = [h; l].
Proof.
  unfold isLeadingSurrogate, isTrailingSurrogate. rewrite !andb_true_iff, !Z.leb_le.
  intros [Hh1 Hh2] [Hl1 Hl2].
  set (cp := UTF16SurrogatePairToCodePoint h l).
  assert (Hcp : cp = 0x400 * (h - 0xD800) + (l - 0xDC00) + 0x10000)
    by (unfold cp, UTF16SurrogatePairToCodePoint; lia).
  split.
  - apply isScalarValue_spec. split; [lia|].
    unfold isSurrogate. apply andb_false_iff. right. apply Z.leb_gt. lia.
  - unfold UTF16EncodeCodePoint.
    assert (E : (cp <=? 0xFFFF) = false) by (apply Z.leb_gt; lia). rewrite E.
    assert (Hq : (cp - 0x10000) / 0x400 = h - 0xD800).
    { symmetry. apply (Z.div_unique _ _ _ (l - 0xDC00)); lia. }
    assert (Hr : (cp - 0x10000) mod 0x400 = l - 0xDC00).
    { symmetry. apply (Z.mod_unique _ _ (h - 0xD800)); lia. }
    rewrite Hq, Hr. f_equal; [lia|f_equal; lia].
Qed.

Lemma StringToCodePoints_cons (c : Z) (s : jsstring) :
  isLeadingSurrogate c = false ->
  StringToCodePoints (c :: s) = c :: StringToCodePoints s.
Proof. intros H. destruct s; cbn [StringToCodePoints]; [|rewrite H]; reflexivity. Qed.

Lemma StringToCodePoints_pair (h l : Z) (s : jsstring) :
  isLeadingSurrogate h = true -> isTrailingSurrogate l = true ->
  StringToCodePoints (h :: l :: s)
  = UTF16SurrogatePairToCodePoint h l :: StringToCodePoints s.
Proof.
  intros Hh Hl.
  change (StringToCodePoints (h :: l :: s))
    with (if isLeadingSurrogate h && isTrailingSurrogate l
          then UTF16SurrogatePairToCodePoint h l :: StringToCodePoints s
          else h :: StringToCodePoints (l :: s)).
  now rewrite Hh, Hl.
Qed.

Lemma CodePointsToString_cons (cp : Z) (cps : list Z) :
  CodePointsToString (cp :: cps) = UTF16EncodeCodePoint cp ++ CodePointsToString cps.
Proof. reflexivity. Qed.

(** Decoding inverts encoding on scalar values. *)
Lemma decode_encode (cps : list Z) :
  forallb isScalarValue cps = true ->
  StringToCodePoints (CodePointsToString cps) = cps.
Proof.
  induction cps as [|cp cps IH]; [reflexivity|].
  cbn [forallb]. intros H. apply andb_prop in H as [Hcp Hrest].
  rewrite CodePointsToString_cons. apply isScalarValue_spec in Hcp as [Hr Hs].
  destruct (Z_le_gt_dec cp 0xFFFF) as [Hbmp|Hast].
  - rewrite (encode_bmp cp Hbmp). cbn [app].
    rewrite StringToCodePoints_cons by now apply not_surrogate_not_leading.
    now rewrite IH.
  - destruct (encode_astral cp ltac:(lia)) as (h & l & -> & Hh & Hl & Hp).
    cbn [app]. rewrite (StringToCodePoints_pair h l _ Hh Hl), Hp. now rewrite IH.
Qed.

(** A string of code units without unpaired surrogates is an encoding. *)
Lemma wellFormed_Encoded (s : jsstring) :
  forallb isCodeUnit s = true -> isWellFormed s = true -> Encoded s.
Proof.
  remember (List.length s) as n eqn:Hn. revert s Hn.
  induction n as [n IH] using lt_wf_ind. intros s Hn Hu Hwf.
  destruct s as [|c s]; [now exists []|].
  cbn [forallb] in Hu. apply andb_prop in Hu as [Hc Hu].
  cbn [isWellFormed] in Hwf.
  destruct (isLeadingSurrogate c) eqn:Hlead.
  - destruct s as [|d s]; [discriminate Hwf|].
    apply andb_prop in Hwf as [Hd Hwf].
    cbn [forallb] in Hu. apply andb_prop in Hu as [_ Hu].
    destruct (IH (List.length s) ltac:(subst n; cbn [List.length]; lia) s eq_refl Hu Hwf)
      as (cps & Hcps & ->).
    destruct (pair_encode c d Hlead Hd) as [Hsc Henc].
    exists (UTF16SurrogatePairToCodePoint c d :: cps). split.
    + cbn [forallb]. now rewrite Hsc, Hcps.
    + rewrite CodePointsToString_cons, Henc. reflexivity.
  - apply andb_prop in Hwf as [Hd Hwf]. apply negb_true_iff in Hd.
    destruct (IH (List.length s) ltac:(subst n; cbn [List.length]; lia) s eq_refl Hu Hwf)
      as (cps & Hcps & ->).
    unfold isCodeUnit in Hc. apply andb_prop in Hc as [Hc0 Hc1].
    apply Z.leb_le in Hc0, Hc1.
    assert (Hsur : isSurrogate c = false).
    { unfold isSurrogate, isLeadingSurrogate, isTrailingSurrogate in *.
      apply andb_false_iff in Hlead, Hd. apply andb_false_iff.
      rewrite !Z.leb_gt in *. lia. }
    exists (c :: cps). split.
    + cbn [forallb]. rewrite Hcps, andb_true_r. apply isScalarValue_spec. split; [lia|exact Hsur].
    + rewrite CodePointsToString_cons, (encode_bmp c Hc1). reflexivity.
Qed.

(** *** Trimming and white-space removal on encodings *)

Lemma trimEnd_cons (c : Z) (s : jsstring) :
  isWhiteSpace c = false -> trimEnd (c :: s) = c :: trimEnd s.
Proof. intros H. cbn [trimEnd]. rewrite H. now destruct (trimEnd s). Qed.

Lemma Encoded_cons_bmp (cp : Z) (cps : list Z) :
  isScalarValue cp = true -> cp <= 0xFFFF -> forallb isScalarValue cps = true ->
  Encoded (cp :: CodePointsToString cps).
Proof.
  intros Hcp Hb Hcps. exists (cp :: cps). split.
  - cbn [forallb]. now rewrite Hcp.
  - now rewrite CodePointsToString_cons, encode_bmp.
Qed.

Lemma trimStart_Encoded (s : jsstring) : Encoded s -> Encoded (trimStart s).
Proof.
  intros (cps & Hcps & ->). induction cps as [|cp cps IH]; [now exists []|].
  cbn [forallb] in Hcps. apply andb_prop in Hcps as [Hcp Hrest].
  rewrite CodePointsToString_cons.
  pose proof (proj1 (isScalarValue_spec cp) Hcp) as [Hr Hs].
  destruct (Z_le_gt_dec cp 0xFFFF) as [Hbmp|Hast].
  - rewrite (encode_bmp cp Hbmp). cbn [app trimStart].
    destruct (isWhiteSpace cp); [now apply IH|now apply Encoded_cons_bmp].
  - destruct (encode_astral cp ltac:(lia)) as (h & l & E & Hh & Hl & Hp).
    rewrite E. cbn [app trimStart].
    rewrite (surrogate_not_whitespace h (leading_isSurrogate h Hh)).
    exists (cp :: cps). split.
    + cbn [forallb]. now rewrite Hcp.
    + now rewrite CodePointsToString_cons, E.
Qed.

Lemma trimEnd_Encoded (s : jsstring) : Encoded s -> Encoded (trimEnd s).
Proof.
  intros (cps & Hcps & ->). induction cps as [|cp cps IH]; [now exists []|].
  cbn [forallb] in Hcps. apply andb_prop in Hcps as [Hcp Hrest].
  specialize (IH Hrest). destruct IH as (cps' & Hcps' & IH).
  rewrite CodePointsToString_cons.
  pose proof (proj1 (isScalarValue_spec cp) Hcp) as [Hr Hs].
  destruct (Z_le_gt_dec cp 0xFFFF) as [Hbmp|Hast].
  - rewrite (encode_bmp cp Hbmp). cbn [app trimEnd]. rewrite IH.
    destruct (CodePointsToString cps') as [|u us] eqn:E.
    + destruct (isWhiteSpace cp); [now exists []|].
      exists [cp]. split; [cbn [forallb]; now rewrite Hcp|].
      cbn. now rewrite encode_bmp.
    + rewrite <- E. now apply Encoded_cons_bmp.
  - destruct (encode_astral cp ltac:(lia)) as (h & l & E & Hh & Hl & Hp).
    rewrite E. cbn [app].
    rewrite (trimEnd_cons h) by exact (surrogate_not_whitespace h (leading_isSurrogate h Hh)).
    rewrite (trimEnd_cons l) by exact (surrogate_not_whitespace l (trailing_isSurrogate l Hl)).
    rewrite IH. exists (cp :: cps'). split.
    + cbn [forallb]. now rewrite Hcp.
    + now rewrite CodePointsToString_cons, E.
Qed.

Lemma trim_Encoded (s : jsstring) : Encoded s -> Encoded (trim s).
Proof. intros H. unfold trim. now apply trimEnd_Encoded, trimStart_Encoded. Qed.

Lemma removeWhiteSpace_encode (cps : list Z) :
  forallb isScalarValue cps = true ->
  removeWhiteSpace (CodePointsToString cps)
  = CodePointsToString (filter (fun c => negb (isWhiteSpace c)) cps).
Proof.
  unfold removeWhiteSpace.
  induction cps as [|cp cps IH]; [reflexivity|].
  cbn [forallb]. intros H. apply andb_prop in H as [Hcp Hrest].
  rewrite CodePointsToString_cons, filter_app, (IH Hrest).
  pose proof (proj1 (isScalarValue_spec cp) Hcp) as [Hr Hs].
  destruct (Z_le_gt_dec cp 0xFFFF) as [Hbmp|Hast].
  - rewrite (encode_bmp cp Hbmp). cbn [filter].
    destruct (negb (isWhiteSpace cp)); [|reflexivity].
    now rewrite CodePointsToString_cons, encode_bmp.
  - destruct (encode_astral cp ltac:(lia)) as (h & l & E & Hh & Hl & Hp).
    rewrite E. cbn [filter].
    rewrite (surrogate_not_whitespace h (leading_isSurrogate h Hh)).
    rewrite (surrogate_not_whitespace l (trailing_isSurrogate l Hl)).
    rewrite (astral_not_whitespace cp) by lia. cbn [negb app].
    now rewrite CodePointsToString_cons, E.
Qed.

Lemma trim_no_whitespace (s : jsstring) :
  forallb (fun c => negb (isWhiteSpace c)) s = true -> trim s = s.
Proof.
  intros H. unfold trim.
  assert (Hs : trimStart s = s).
  { destruct s as [|c s]; [reflexivity|]. cbn [forallb] in H.
    apply andb_prop in H as [Hc _]. apply negb_true_iff in Hc.
    cbn [trimStart]. now rewrite Hc. }
  rewrite Hs. induction s as [|c s IH]; [reflexivity|].
  cbn [forallb] in H. apply andb_prop in H as [Hc Hrest]. apply negb_true_iff in Hc.
  rewrite (trimEnd_cons c s Hc). f_equal. apply IH; [exact Hrest|].
  destruct s as [|d s]; [reflexivity|]. cbn [forallb] in Hrest.
  apply andb_prop in Hrest as [Hd _]. apply negb_true_iff in Hd.
  cbn [trimStart]. now rewrite Hd.
Qed.

Lemma removeWhiteSpace_no_whitespace (s : jsstring) :
  forallb (fun c => negb (isWhiteSpace c)) (removeWhiteSpace s) = true.
Proof.
  apply forallb_forall. intros c Hc. unfold removeWhiteSpace in Hc.
  now apply filter_In in Hc.
Qed.

Lemma removeWhiteSpace_idempotent (s : jsstring) :
  removeWhiteSpace (removeWhiteSpace s) = removeWhiteSpace s.
Proof.
  unfold removeWhiteSpace. induction s as [|c s IH]; [reflexivity|].
  cbn [filter]. destruct (negb (isWhiteSpace c)) eqn:E; [|exact IH].
  cbn [filter]. now rewrite E, IH.
Qed.

(** *** The upper-case mapping *)

Lemma UppercaseMapping_targets :
  forallb (fun e => forallb (fun x => isScalarValue x && isUpperFixed x) (snd e))
          UppercaseMapping = true.
Proof. vm_compute. reflexivity. Qed.

Lemma isUpperFixed_toUppercase (cp : Z) :
  isUpperFixed cp = true -> toUppercase cp = [cp].
Proof.
  unfold isUpperFixed, toUppercase.
  now destruct (find (fun e => fst e =? cp) UppercaseMapping).
Qed.

Lemma toUppercase_targets (cp : Z) :
  isScalarValue cp = true ->
  forallb (fun x => isScalarValue x && isUpperFixed x) (toUppercase cp) = true.
Proof.
  intros Hcp. unfold toUppercase.
  destruct (find (fun e => fst e =? cp) UppercaseMapping) as [e|] eqn:E.
  - apply find_some in E as [Hin _].
    pose proof UppercaseMapping_targets as H. rewrite forallb_forall in H.
    exact (H e Hin).
  - cbn [forallb]. rewrite Hcp. unfold isUpperFixed. now rewrite E.
Qed.

Lemma flat_map_toUppercase_targets (cps : list Z) :
  forallb isScalarValue cps = true ->
  forallb (fun x => isScalarValue x && isUpperFixed x) (flat_map toUppercase cps) = true.
Proof.
  induction cps as [|cp cps IH]; [reflexivity|].
  cbn [forallb flat_map]. intros H. apply andb_prop in H as [Hcp Hrest].
  rewrite forallb_app, (toUppercase_targets cp Hcp). now apply IH.
Qed.

Lemma flat_map_toUppercase_fixed (cps : list Z) :
  forallb isUpperFixed cps = true -> flat_map toUppercase cps = cps.
Proof.
  induction cps as [|cp cps IH]; [reflexivity|].
  cbn [forallb flat_map]. intros H. apply andb_prop in H as [Hcp Hrest].
  now rewrite (isUpperFixed_toUppercase cp Hcp), (IH Hrest).
Qed.

Lemma forallb_and_filter (p q f : Z -> bool) (l : list Z) :
  forallb (fun x => p x && q x) l = true ->
  forallb p (filter f l) = true /\ forallb q (filter f l) = true.
Proof.
  intros H. rewrite forallb_forall in H.
  split; apply forallb_forall; intros x Hx; apply filter_In in Hx as [Hx _];
    specialize (H x Hx); now apply andb_prop in H.
Qed.

(** Cleaning an encoding yields the encoding of upper-case-fixed scalar
    values, none of them white space. *)
Lemma clean_Encoded (s : jsstring) :
  Encoded s ->
  exists cps,
    clean s = CodePointsToString cps
    /\ forallb isScalarValue cps = true
    /\ forallb isUpperFixed cps = true.
Proof.
  intros H. apply trim_Encoded in H as (cps & Hcps & E).
  unfold clean, toUpperCase. rewrite E, (decode_encode cps Hcps).
  pose proof (flat_map_toUppercase_targets cps Hcps) as Hup.
  assert (Hsc : forallb isScalarValue (flat_map toUppercase cps) = true).
  { rewrite forallb_forall in Hup. apply forallb_forall. intros x Hx.
    specialize (Hup x Hx). now apply andb_prop in Hup. }
  rewrite (removeWhiteSpace_encode _ Hsc).
  eexists. split; [reflexivity|].
  exact (forallb_and_filter _ _ _ _ Hup).
Qed.

Lemma clean_fixed_point (t : jsstring) (cps : list Z) :
  t = CodePointsToString cps ->
  forallb isScalarValue cps = true ->
  forallb isUpperFixed cps = true ->
  forallb (fun c => negb (isWhiteSpace c)) t = true ->
  clean t = t.
Proof.
  intros E Hsc Hfix Hws. unfold clean, toUpperCase.
  rewrite (trim_no_whitespace t Hws), E, (decode_encode cps Hsc),
    (flat_map_toUppercase_fixed cps Hfix), <- E.
  unfold removeWhiteSpace. induction t as [|c t IH] in Hws |- *; [reflexivity|].
  cbn [forallb] in Hws. apply andb_prop in Hws as [Hc Hrest].
  cbn [filter]. rewrite Hc. f_equal. now apply IH.
Qed.

(** C9, as stated, fails: with a space between the two halves of a surrogate
    pair, the first normalization joins the halves into U+10428 (a lower-case
    Deseret letter) without upper-casing it, and the second one upper-cases
    it to U+10400. *)
Lemma normalize_not_idempotent :
  forallb isCodeUnit [0xD801; 0x20; 0xDC28] = true
  /\ normalize [0xD801; 0x20; 0xDC28] = [0xD801; 0xDC28]
  /\ normalize (normalize [0xD801; 0x20; 0xDC28]) = [0xD801; 0xDC00]
  /\ normalize (normalize [0xD801; 0x20; 0xDC28]) <> normalize [0xD801; 0x20; 0xDC28].
Proof. repeat split; try (vm_compute; reflexivity). vm_compute. discriminate. Qed.

(** C9, amended. [normalize] is idempotent on every string without unpaired
    surrogates. *)
Theorem normalize_idempotent_well_formed (s : jsstring) :
  forallb isCodeUnit s = true ->
  isWellFormed s = true ->
  normalize (normalize s) = normalize s.
Proof.
  intros Hu Hwf. unfold normalize at 2 3.
  destruct (isEmpty s); [reflexivity|].
  destruct (clean_Encoded s (wellFormed_Encoded s Hu Hwf)) as (cps & E & Hsc & Hfix).
  unfold normalize. destruct (isEmpty (clean s)) eqn:Hempty.
  - now destruct (clean s).
  - apply (clean_fixed_point _ cps E Hsc Hfix).
    unfold clean. apply removeWhiteSpace_no_whitespace.
Qed.

(** Mixed case, inner and outer white space, a sharp s and a well-formed
    surrogate pair. *)
Lemma normalize_idempotent_well_formed_witness :
  normalize (normalize [0x20; 0x67; 0xDF; 0x09; 0xD801; 0xDC28; 0xF1; 0x0A])
  = normalize [0x20; 0x67; 0xDF; 0x09; 0xD801; 0xDC28; 0xF1; 0x0A]
  /\ normalize [0x20; 0x67; 0xDF; 0x09; 0xD801; 0xDC28; 0xF1; 0x0A]
     = [0x47; 0x53; 0x53; 0xD801; 0xDC00; 0xD1].
Proof.
  split; [|vm_compute; reflexivity].
  apply normalize_idempotent_well_formed; vm_compute; reflexivity.
Defined.

(** * Further properties of the validator *)

(** ** The checks behind the format gate *)

Lemma valid_char (c : Z) :
  (0x30 <= c <= 0x39 \/ 0x41 <= c <= 0x5A \/ c = 0x26 \/ c = 0xD1) ->
  includes VALID_CHARS [c] = true.
Proof.
  assert (Hall : forallb (fun c => includes VALID_CHARS [c])
                   (map Z.of_nat (seq 48 10) ++ map Z.of_nat (seq 65 26) ++ [0x26; 0xD1])
                 = true) by (vm_compute; reflexivity).
  rewrite forallb_forall in Hall. intros H. apply Hall.
  rewrite !in_app_iff.
  destruct H as [H|[H|[H|H]]].
  - left. apply in_Z_range. lia.
  - right; left. apply in_Z_range. lia.
  - right; right. subst. now left.
  - right; right. subst. right. now left.
Qed.

Lemma isLetra_valid (c : Z) : isLetra c = true -> includes VALID_CHARS [c] = true.
Proof.
  unfold isLetra. rewrite !orb_true_iff, andb_true_iff, !Z.leb_le, !Z.eqb_eq.
  intros H. apply valid_char. lia.
Qed.

Lemma isDigit_valid (c : Z) : isDigit c = true -> includes VALID_CHARS [c] = true.
Proof.
  unfold isDigit. rewrite andb_true_iff, !Z.leb_le.
  intros H. apply valid_char. lia.
Qed.

Lemma isAlfanumerico_valid (c : Z) :
  isAlfanumerico c = true -> includes VALID_CHARS [c] = true.
Proof.
  unfold isAlfanumerico, isDigit. rewrite !orb_true_iff, !andb_true_iff, !Z.leb_le.
  intros H. apply valid_char. lia.
Qed.

Lemma validateCharacters_from_valid (rest : jsstring) :
  forall (i : Z) (r : RFCAnalysis),
    forallb (fun c => includes VALID_CHARS [c]) rest = true ->
    validateCharacters_from i rest r = r.
Proof.
  induction rest as [|c rest IH]; intros i r H; [reflexivity|].
  cbn [forallb] in H. apply andb_prop in H as [Hc Hrest].
  rewrite validateCharacters_from_cons, Hc. cbn [negb]. now apply IH.
Qed.

Lemma reported_validateLetters_ok (t f : jsstring) :
  t <> [] -> forallb isLetra t = true -> reported (validateLetters t f) = [].
Proof.
  intros Hne H. unfold reported, validateLetters, test. rewrite H.
  destruct t; [contradiction|reflexivity].
Qed.

Lemma reported_validateHomoclave_ok (h1 h2 h3 : Z) :
  forallb isAlfanumerico [h1; h2; h3] = true ->
  reported (validateHomoclave [h1; h2; h3]) = [].
Proof.
  intros H. unfold reported, validateHomoclave.
  cbn [test matchFields firstn skipn List.length Nat.eqb isEmpty andb].
  now rewrite H.
Qed.

Lemma date_digits (a b c d e f : Z) :
  forallb isDigit [a; b; c; d; e; f] = true ->
  test (Fields [(isDigit, 6%nat)]) [a; b; c; d; e; f] = true
  /\ parseInt [a; b] = Some (10 * (a - 0x30) + (b - 0x30))
  /\ parseInt [c; d] = Some (10 * (c - 0x30) + (d - 0x30))
  /\ parseInt [e; f] = Some (10 * (e - 0x30) + (f - 0x30)).
Proof.
  intros H. split.
  - cbn [test matchFields firstn skipn List.length Nat.eqb isEmpty andb]. now rewrite H.
  - cbn [forallb] in H.
    repeat match type of H with
           | _ && _ = true => let H' := fresh "D" in apply andb_prop in H as [H' H]
           end.
    repeat split; now apply parseInt_two_digits.
Qed.

Lemma reported_validateFechaNacimiento (y a b c d e f : Z) :
  forallb isDigit [a; b; c; d; e; f] = true ->
  reported (validateFechaNacimiento y [a; b; c; d; e; f])
  = (if (10 * (c - 0x30) + (d - 0x30) <? 1) || (12 <? 10 * (c - 0x30) + (d - 0x30))
     then [err_mes_nacimiento] else [])
    ++ (if (10 * (e - 0x30) + (f - 0x30) <? 1) || (31 <? 10 * (e - 0x30) + (f - 0x30))
        then [err_dia_nacimiento] else [])
    ++ (if Z.rem y 100 + 10 <? 10 * (a - 0x30) + (b - 0x30)
        then [err_anio_nacimiento] else []).
Proof.
  intros H. destruct (date_digits _ _ _ _ _ _ H) as (Hsix & Hy & Hm & Hd).
  unfold reported, validateFechaNacimiento. rewrite Hsix. cbn [negb]. cbv zeta.
  change (substring 0 2 [a; b; c; d; e; f]) with [a; b].
  change (substring 2 4 [a; b; c; d; e; f]) with [c; d].
  change (substring 4 6 [a; b; c; d; e; f]) with [e; f].
  rewrite Hy, Hm, Hd. unfold gt, lt.
  destruct ((10 * (c - 0x30) + (d - 0x30) <? 1) || (12 <? 10 * (c - 0x30) + (d - 0x30)));
    destruct ((10 * (e - 0x30) + (f - 0x30) <? 1) || (31 <? 10 * (e - 0x30) + (f - 0x30)));
    destruct (Z.rem y 100 + 10 <? 10 * (a - 0x30) + (b - 0x30));
    reflexivity.
Qed.

Lemma reported_validateFechaConstitucion (a b c d e f : Z) :
  forallb isDigit [a; b; c; d; e; f] = true ->
  reported (validateFechaConstitucion [a; b; c; d; e; f])
  = (if (10 * (c - 0x30) + (d - 0x30) <? 1) || (12 <? 10 * (c - 0x30) + (d - 0x30))
     then [err_mes_constitucion] else [])
    ++ (if (10 * (e - 0x30) + (f - 0x30) <? 1) || (31 <? 10 * (e - 0x30) + (f - 0x30))
        then [err_dia_constitucion] else []).
Proof.
  intros H. destruct (date_digits _ _ _ _ _ _ H) as (Hsix & Hy & Hm & Hd).
  unfold reported, validateFechaConstitucion. rewrite Hsix. cbn [negb]. cbv zeta.
  change (substring 2 4 [a; b; c; d; e; f]) with [c; d].
  change (substring 4 6 [a; b; c; d; e; f]) with [e; f].
  rewrite Hm, Hd. unfold gt, lt.
  destruct ((10 * (c - 0x30) + (d - 0x30) <? 1) || (12 <? 10 * (c - 0x30) + (d - 0x30)));
    destruct ((10 * (e - 0x30) + (f - 0x30) <? 1) || (31 <? 10 * (e - 0x30) + (f - 0x30)));
    reflexivity.
Qed.

Lemma RFC_MORAL_REGEX_fields (rfc : jsstring) :
  test RFC_MORAL_REGEX rfc = true ->
  exists l0 l1 l2 y1 y2 m1 m2 d1 d2 h1 h2 h3,
    rfc = [l0; l1; l2; y1; y2; m1; m2; d1; d2; h1; h2; h3]
    /\ forallb isLetra [l0; l1; l2] = true
    /\ forallb isDigit [y1; y2; m1; m2; d1; d2] = true
    /\ forallb isAlfanumerico [h1; h2; h3] = true.
Proof.
  unfold RFC_MORAL_REGEX, test. intros H.
  pose proof (matchFields_length _ _ H) as Hlen. cbn in Hlen.
  do 12 (destruct rfc as [|? rfc]; [discriminate Hlen|]).
  destruct rfc; [|discriminate Hlen].
  cbn [matchFields firstn skipn List.length Nat.eqb isEmpty andb] in H.
  rewrite andb_true_r in H.
  apply andb_prop in H as [H1 H]. apply andb_prop in H as [H2 H3].
  repeat eexists; eassumption.
Qed.

(** Behind the FISICA gate only the date ranges and the forbidden-word list
    can still report. *)
Lemma validatePersonaFisica_errors_exact (y : Z) (rfc : jsstring) (r : RFCAnalysis) :
  test RFC_FISICA_REGEX rfc = true ->
  errors (validatePersonaFisica y rfc r) = errors r ++ fisicaErrors y rfc.
Proof.
  intros Hre. rewrite (validatePersonaFisica_errors y rfc r Hre).
  destruct (RFC_FISICA_REGEX_fields _ Hre)
    as (l0 & l1 & l2 & l3 & y1 & y2 & m1 & m2 & d1 & d2 & h1 & h2 & h3
        & -> & Hl & Hd & Hh).
  set (rfc := [l0; l1; l2; l3; y1; y2; m1; m2; d1; d2; h1; h2; h3]).
  change (substring 0 2 rfc) with [l0; l1].
  change (substring 2 3 rfc) with [l2].
  change (substring 3 4 rfc) with [l3].
  change (substring 4 10 rfc) with [y1; y2; m1; m2; d1; d2].
  change (substring 10 13 rfc) with [h1; h2; h3].
  change (substring 0 4 rfc) with [l0; l1; l2; l3].
  cbn [forallb] in Hl.
  apply andb_prop in Hl as [L0 Hl]. apply andb_prop in Hl as [L1 Hl].
  apply andb_prop in Hl as [L2 Hl]. apply andb_prop in Hl as [L3 _].
  rewrite !reported_validateLetters_ok
    by (try discriminate; cbn [forallb]; rewrite ?L0, ?L1, ?L2, ?L3; reflexivity).
  rewrite (reported_validateHomoclave_ok _ _ _ Hh).
  rewrite (reported_validateFechaNacimiento y _ _ _ _ _ _ Hd).
  assert (Hchars : reported (validateCharacters rfc) = []).
  { unfold reported, validateCharacters. rewrite validateCharacters_from_valid; [reflexivity|].
    subst rfc. cbn [forallb].
    cbn [forallb] in Hd, Hh.
    repeat match goal with
           | H : _ && _ = true |- _ => apply andb_prop in H as [? H]
           end.
    rewrite !isLetra_valid, !isDigit_valid, !isAlfanumerico_valid by assumption.
    reflexivity. }
  rewrite Hchars. unfold fisicaErrors.
  change (firstn 4 rfc) with [l0; l1; l2; l3].
  change (twoDigits 6 rfc) with (10 * (m1 - 0x30) + (m2 - 0x30)).
  change (twoDigits 8 rfc) with (10 * (d1 - 0x30) + (d2 - 0x30)).
  change (twoDigits 4 rfc) with (10 * (y1 - 0x30) + (y2 - 0x30)).
  cbn [app]. rewrite <- !app_assoc, app_nil_r. reflexivity.
Qed.

Lemma validatePersonaMoral_errors_exact (rfc : jsstring) (r : RFCAnalysis) :
  test RFC_MORAL_REGEX rfc = true ->
  errors (validatePersonaMoral rfc r) = errors r ++ moralErrors rfc.
Proof.
  intros Hre. rewrite (validatePersonaMoral_errors rfc r Hre).
  rewrite substring_0_3_not_forbidden.
  destruct (RFC_MORAL_REGEX_fields _ Hre)
    as (l0 & l1 & l2 & y1 & y2 & m1 & m2 & d1 & d2 & h1 & h2 & h3
        & -> & Hl & Hd & Hh).
  set (rfc := [l0; l1; l2; y1; y2; m1; m2; d1; d2; h1; h2; h3]).
  change (substring 0 3 rfc) with [l0; l1; l2].
  change (substring 3 9 rfc) with [y1; y2; m1; m2; d1; d2].
  change (substring 9 12 rfc) with [h1; h2; h3].
  rewrite (reported_validateLetters_ok [l0; l1; l2]) by (try discriminate; exact Hl).
  rewrite (reported_validateHomoclave_ok _ _ _ Hh).
  rewrite (reported_validateFechaConstitucion _ _ _ _ _ _ Hd).
  assert (Hchars : reported (validateCharacters rfc) = []).
  { unfold reported, validateCharacters. rewrite validateCharacters_from_valid; [reflexivity|].
    subst rfc. cbn [forallb].
    cbn [forallb] in Hl, Hd, Hh.
    repeat match goal with
           | H : _ && _ = true |- _ => apply andb_prop in H as [? H]
           end.
    rewrite !isLetra_valid, !isDigit_valid, !isAlfanumerico_valid by assumption.
    reflexivity. }
  rewrite Hchars. unfold moralErrors.
  change (twoDigits 5 rfc) with (10 * (m1 - 0x30) + (m2 - 0x30)).
  change (twoDigits 7 rfc) with (10 * (d1 - 0x30) + (d2 - 0x30)).
  cbn [app]. rewrite !app_nil_r. reflexivity.
Qed.

Lemma validate_isValid_errors (y : Z) (s : jsstring) :
  isValid (validate y s) = true <-> errors (validate y s) = [].
Proof.
  unfold validate. destruct (isEmpty s).
  - cbn. split; discriminate.
  - cbv zeta.
    destruct (negb (List.length (clean s) =? 12)%nat
              && negb (List.length (clean s) =? 13)%nat).
    + cbn. split; discriminate.
    + destruct (List.length (clean s) =? 13)%nat.
      * now apply validatePersonaFisica_isValid_iff.
      * now apply validatePersonaMoral_isValid_iff.
Qed.

Lemma regex_fisica_length (rfc : jsstring) :
  test RFC_FISICA_REGEX rfc = true -> List.length rfc = 13%nat.
Proof. intros H. exact (matchFields_length _ _ H). Qed.

Lemma regex_moral_length (rfc : jsstring) :
  test RFC_MORAL_REGEX rfc = true -> List.length rfc = 12%nat.
Proof. intros H. exact (matchFields_length _ _ H). Qed.

Lemma validate_fisica_errors (y : Z) (s : jsstring) :
  test RFC_FISICA_REGEX (clean s) = true ->
  errors (validate y s) = fisicaErrors y (clean s).
Proof.
  intros Hre. rewrite (validate_fisica y s (regex_fisica_length _ Hre)).
  now rewrite (validatePersonaFisica_errors_exact y _ _ Hre).
Qed.

Lemma validate_moral_errors (y : Z) (s : jsstring) :
  test RFC_MORAL_REGEX (clean s) = true ->
  errors (validate y s) = moralErrors (clean s).
Proof.
  intros Hre. rewrite (validate_moral y s (regex_moral_length _ Hre)).
  now rewrite (validatePersonaMoral_errors_exact _ _ Hre).
Qed.

(** X1. A 13-unit input that matches the FISICA format gets exactly the
    month, day, birth-year and forbidden-word errors that apply, in this
    order; the letter-class, homoclave and character-scan checks that also
    run add nothing. *)
Theorem fisica_error_list (y : Z) (s : jsstring) :
  test RFC_FISICA_REGEX (clean s) = true ->
  errors (validate y s) = fisicaErrors y (clean s)
  /\ tipoPersona (validate y s) = Some FISICA
  /\ format (validate y s) = clean s.
Proof.
  intros Hre. split; [now apply validate_fisica_errors|].
  rewrite (validate_fisica y s (regex_fisica_length _ Hre)).
  unfold validatePersonaFisica. rewrite Hre. cbn [negb]. cbv zeta.
  unfold setIsValid. cbn [tipoPersona format].
  unfold validateCharacters. rewrite validateCharacters_from_tipoPersona.
  split.
  - destruct (Array_includes FORBIDDEN_WORDS (substring 0 4 (clean s)));
      rewrite ?push_tipoPersona, validateHomoclave_tipoPersona,
        validateFechaNacimiento_tipoPersona, !validateLetters_tipoPersona;
      reflexivity.
  - destruct (RFC_FISICA_REGEX_fields _ Hre)
      as (l0 & l1 & l2 & l3 & y1 & y2 & m1 & m2 & d1 & d2 & h1 & h2 & h3
          & E & Hl & Hd & Hh).
    rewrite validateCharacters_from_valid.
    + unfold validateHomoclave, validateFechaNacimiento, validateLetters.
      repeat match goal with
             | |- context [if ?b then _ else _] => destruct b
             end; reflexivity.
    + rewrite E. cbn [forallb]. cbn [forallb] in Hl, Hd, Hh.
      repeat match goal with
             | H : _ && _ = true |- _ => apply andb_prop in H as [? H]
             end.
      rewrite !isLetra_valid, !isDigit_valid, !isAlfanumerico_valid by assumption.
      reflexivity.
Qed.

Lemma fisica_error_list_witness :
  errors (validate 2024 (js " caca 991399 abc "))
  = [err_mes_nacimiento; err_dia_nacimiento; err_anio_nacimiento;
     err_iniciales (js "CACA")].
Proof.
  rewrite (proj1 (fisica_error_list 2024 (js " caca 991399 abc ")
                    ltac:(vm_compute; reflexivity))).
  vm_compute. reflexivity.
Defined.

(** X2. A 12-unit input that matches the MORAL format gets exactly the
    month and day errors that apply; nothing else is ever reported behind
    the MORAL gate. *)
Theorem moral_error_list (y : Z) (s : jsstring) :
  test RFC_MORAL_REGEX (clean s) = true ->
  errors (validate y s) = moralErrors (clean s)
  /\ tipoPersona (validate y s) = Some MORAL
  /\ (List.length (errors (validate y s)) <= 2)%nat.
Proof.
  intros Hre. rewrite (validate_moral_errors y s Hre).
  split; [reflexivity|]. split.
  - rewrite (validate_moral y s (regex_moral_length _ Hre)).
    now rewrite validatePersonaMoral_tipoPersona.
  - unfold moralErrors. rewrite length_app.
    repeat match goal with
           | |- context [if ?b then _ else _] => destruct b
           end; cbn [List.length]; lia.
Qed.

Lemma moral_error_list_witness :
  errors (validate 2024 (js "TUB651399ABC"))
  = [err_mes_constitucion; err_dia_constitucion].
Proof.
  rewrite (proj1 (moral_error_list 2024 (js "TUB651399ABC")
                    ltac:(vm_compute; reflexivity))).
  vm_compute. reflexivity.
Defined.

Lemma fisicaErrors_nil (y : Z) (rfc : jsstring) :
  fisicaErrors y rfc = []
  <-> 1 <= twoDigits 6 rfc <= 12
      /\ 1 <= twoDigits 8 rfc <= 31
      /\ twoDigits 4 rfc <= Z.rem y 100 + 10
      /\ ~ In (firstn 4 rfc) FORBIDDEN_WORDS.
Proof.
  unfold fisicaErrors.
  destruct ((twoDigits 6 rfc <? 1) || (12 <? twoDigits 6 rfc)) eqn:Em;
    destruct ((twoDigits 8 rfc <? 1) || (31 <? twoDigits 8 rfc)) eqn:Ed;
    destruct (Z.rem y 100 + 10 <? twoDigits 4 rfc) eqn:Ey;
    destruct (Array_includes FORBIDDEN_WORDS (firstn 4 rfc)) eqn:Ef;
    cbn [app];
    rewrite ?orb_true_iff, ?orb_false_iff, ?Z.ltb_lt, ?Z.ltb_ge in *;
    (split; [intros H; try discriminate H | intros (Hm & Hd & Hy & Hf); try lia]).
  - exfalso. apply Hf. now apply Array_includes_In.
  - repeat split; try lia. intros Hin. apply In_Array_includes in Hin. congruence.
  - reflexivity.
Qed.

Lemma moralErrors_nil (rfc : jsstring) :
  moralErrors rfc = []
  <-> 1 <= twoDigits 5 rfc <= 12 /\ 1 <= twoDigits 7 rfc <= 31.
Proof.
  unfold moralErrors.
  destruct ((twoDigits 5 rfc <? 1) || (12 <? twoDigits 5 rfc)) eqn:Em;
    destruct ((twoDigits 7 rfc <? 1) || (31 <? twoDigits 7 rfc)) eqn:Ed;
    cbn [app];
    rewrite ?orb_true_iff, ?orb_false_iff, ?Z.ltb_lt, ?Z.ltb_ge in *;
    (split; [intros H; try discriminate H | intros (Hm & Hd); try lia]).
  - split; lia.
  - reflexivity.
Qed.

Lemma validate_isValid_fields (y : Z) (s : jsstring) :
  isValid (validate y s) = true
  <-> (test RFC_FISICA_REGEX (clean s) = true
       /\ 1 <= twoDigits 6 (clean s) <= 12
       /\ 1 <= twoDigits 8 (clean s) <= 31
       /\ twoDigits 4 (clean s) <= Z.rem y 100 + 10
       /\ ~ In (firstn 4 (clean s)) FORBIDDEN_WORDS)
      \/ (test RFC_MORAL_REGEX (clean s) = true
          /\ 1 <= twoDigits 5 (clean s) <= 12
          /\ 1 <= twoDigits 7 (clean s) <= 31).
Proof.
  rewrite validate_isValid_errors.
  destruct (test RFC_FISICA_REGEX (clean s)) eqn:Ef.
  - rewrite (validate_fisica_errors y s Ef), fisicaErrors_nil.
    assert (Em : test RFC_MORAL_REGEX (clean s) = false).
    { destruct (test RFC_MORAL_REGEX (clean s)) eqn:Em; [|reflexivity].
      apply regex_fisica_length in Ef. apply regex_moral_length in Em. lia. }
    rewrite Em. split; [intros H; left; tauto|].
    intros [H|[H _]]; [tauto|discriminate H].
  - destruct (test RFC_MORAL_REGEX (clean s)) eqn:Em.
    + rewrite (validate_moral_errors y s Em), moralErrors_nil.
      split; [intros H; right; tauto|].
      intros [[H _]|H]; [discriminate H|tauto].
    + split; [|intros [[H _]|[H _]]; discriminate H].
      intros H. exfalso. revert H. unfold validate.
      destruct (isEmpty s); [discriminate|]. cbv zeta.
      destruct (List.length (clean s) =? 13)%nat eqn:E13.
      * rewrite andb_false_r. rewrite validatePersonaFisica_errors_gate by exact Ef.
        cbn. discriminate.
      * rewrite andb_true_r.
        destruct (List.length (clean s) =? 12)%nat eqn:E12; cbn [negb].
        -- rewrite validatePersonaMoral_errors_gate by exact Em. cbn. discriminate.
        -- cbn. discriminate.
Qed.

(** X3. The inputs [validate] accepts: the normalized form matches the
    FISICA format with month 1..12, day 1..31, a two-digit year of at most
    the current one plus 10 and leading letters outside the forbidden list,
    or it matches the MORAL format with month 1..12 and day 1..31. *)
Theorem validate_accepts_iff (y : Z) (s : jsstring) :
  isValid (validate y s) = true
  <-> (test RFC_FISICA_REGEX (clean s) = true
       /\ 1 <= twoDigits 6 (clean s) <= 12
       /\ 1 <= twoDigits 8 (clean s) <= 31
       /\ twoDigits 4 (clean s) <= Z.rem y 100 + 10
       /\ ~ In (firstn 4 (clean s)) FORBIDDEN_WORDS)
      \/ (test RFC_MORAL_REGEX (clean s) = true
          /\ 1 <= twoDigits 5 (clean s) <= 12
          /\ 1 <= twoDigits 7 (clean s) <= 31).
Proof. apply validate_isValid_fields. Qed.

(** ** What [validate] can and cannot report *)

Ltac closed_reportable :=
  repeat first [apply Forall_nil | apply Forall_cons];
  first [assumption | left; cbn; tauto].

Lemma fisicaErrors_Reportable (y : Z) (rfc : jsstring) :
  Forall Reportable (fisicaErrors y rfc) /\ (List.length (fisicaErrors y rfc) <= 4)%nat.
Proof.
  unfold fisicaErrors.
  destruct (Array_includes FORBIDDEN_WORDS (firstn 4 rfc)) eqn:Ef.
  - apply Array_includes_In in Ef.
    assert (Hw : Reportable (err_iniciales (firstn 4 rfc))) by (right; eauto).
    repeat match goal with
           | |- context [if ?b then _ else _] => destruct b
           end; cbn [app List.length];
      (split; [closed_reportable | lia]).
  - repeat match goal with
           | |- context [if ?b then _ else _] => destruct b
           end; cbn [app List.length];
      (split; [closed_reportable | lia]).
Qed.

Lemma moralErrors_Reportable (rfc : jsstring) :
  Forall Reportable (moralErrors rfc) /\ (List.length (moralErrors rfc) <= 4)%nat.
Proof.
  unfold moralErrors.
  repeat match goal with
         | |- context [if ?b then _ else _] => destruct b
         end; cbn [app List.length];
    (split; [closed_reportable | lia]).
Qed.

Lemma validate_Reportable (y : Z) (s : jsstring) :
  Forall Reportable (errors (validate y s))
  /\ (List.length (errors (validate y s)) <= 4)%nat.
Proof.
  destruct (test RFC_FISICA_REGEX (clean s)) eqn:Ef.
  { rewrite (validate_fisica_errors y s Ef). apply fisicaErrors_Reportable. }
  destruct (test RFC_MORAL_REGEX (clean s)) eqn:Em.
  { rewrite (validate_moral_errors y s Em). apply moralErrors_Reportable. }
  unfold validate. destruct (isEmpty s).
  { cbn. split; [closed_reportable|lia]. }
  cbv zeta. destruct (List.length (clean s) =? 13)%nat eqn:E13.
  - rewrite andb_false_r. rewrite validatePersonaFisica_errors_gate by exact Ef.
    cbn. split; [closed_reportable|lia].
  - rewrite andb_true_r.
    destruct (List.length (clean s) =? 12)%nat eqn:E12; cbn [negb].
    + rewrite validatePersonaMoral_errors_gate by exact Em.
      cbn. split; [closed_reportable|lia].
    + cbn. split; [closed_reportable|lia].
Qed.

Lemma Reportable_cases (e : jsstring) :
  Reportable e ->
  In (firstn 2 e)
     [js "RF"; js "Fo"; js "Me"; js "Dí"; js "Añ"; js "La"]
  /\ e <> [] /\ e <> js "RFC inválido".
Proof.
  intros [H|(w & _ & ->)].
  - cbn [In] in H.
    repeat (destruct H as [<-|H]; [vm_compute; intuition discriminate|]).
    destruct H.
  - split; [|split].
    + cbn. tauto.
    + discriminate.
    + intros E. apply (f_equal (hd 0)) in E. rewrite err_iniciales_hd in E.
      vm_compute in E. discriminate E.
Qed.

(** X4. Whatever the input, [validate] reports at most four errors, each of
    them the missing-input, length, format, month, day, birth-year or
    forbidden-word message; the letter-class, date-format, homoclave and
    invalid-character messages of the field checks never reach the caller. *)
Theorem validate_messages (y : Z) (s : jsstring) :
  Forall Reportable (errors (validate y s))
  /\ (List.length (errors (validate y s)) <= 4)%nat
  /\ (forall f, In f fieldNames -> ~ In (err_letras f) (errors (validate y s)))
  /\ ~ In err_fecha_nacimiento (errors (validate y s))
  /\ ~ In err_fecha_constitucion (errors (validate y s))
  /\ ~ In err_homoclave (errors (validate y s))
  /\ (forall c p, ~ In (err_caracter c p) (errors (validate y s))).
Proof.
  destruct (validate_Reportable y s) as [Hall Hlen].
  split; [exact Hall|]. split; [exact Hlen|].
  rewrite Forall_forall in Hall.
  assert (Hno : forall e, ~ In (firstn 2 e)
                            [js "RF"; js "Fo"; js "Me"; js "Dí"; js "Añ"; js "La"] ->
                          ~ In e (errors (validate y s))).
  { intros e Hn Hin. apply Hn. now apply Reportable_cases, Hall. }
  repeat split.
  - intros f Hf. apply Hno. cbn [In fieldNames] in Hf.
    repeat (destruct Hf as [<-|Hf]; [vm_compute; intuition discriminate|]).
    destruct Hf.
  - apply Hno. vm_compute. intuition discriminate.
  - apply Hno. vm_compute. intuition discriminate.
  - apply Hno. vm_compute. intuition discriminate.
  - intros c p. apply Hno. rewrite err_caracter_firstn.
    vm_compute. intuition discriminate.
Qed.

Lemma validate_messages_witness :
  ~ In (err_letras (js "Nombre")) (errors (validate 2024 (js "GOP3650615ABC")))
  /\ errors (validate 2024 (js "GOP3650615ABC")) = [err_formato_fisica].
Proof.
  split; [|vm_compute; reflexivity].
  apply (proj1 (proj2 (proj2 (validate_messages 2024 (js "GOP3650615ABC"))))).
  cbn. tauto.
Defined.

(** ** The clock *)

(** X5. The result depends on the current year only through its last two
    digits, and only on the FISICA path: when the normalized form does not
    have 13 units the year plays no part. *)
Theorem validate_clock (y y' : Z) (s : jsstring) :
  (Z.rem y 100 = Z.rem y' 100 -> validate y s = validate y' s)
  /\ (List.length (clean s) <> 13%nat -> validate y s = validate y' s).
Proof.
  split.
  - intros H. rewrite <- (validate_rem y s), <- (validate_rem y' s). now rewrite H.
  - intros H. unfold validate. apply Nat.eqb_neq in H. rewrite H. reflexivity.
Qed.

Lemma validate_clock_witness :
  validate 1926 (js "GOPE360615ABC") = validate 2026 (js "GOPE360615ABC")
  /\ validate 1999 (js "TUB990615ABC") = validate 2026 (js "TUB990615ABC").
Proof.
  split.
  - apply (proj1 (validate_clock 1926 2026 (js "GOPE360615ABC"))). reflexivity.
  - apply (proj2 (validate_clock 1999 2026 (js "TUB990615ABC"))).
    vm_compute. discriminate.
Defined.

(** ** The message shown to the user *)

(** X6. [getErrorMessage] returns the empty string exactly for valid input;
    for invalid input it returns the first entry of [errors], and the
    fallback text "RFC inválido" is never returned. *)
Theorem getErrorMessage_first_error (y : Z) (s : jsstring) :
  (RFCQueries.getErrorMessage y s = [] <-> isValid (validate y s) = true)
  /\ (isValid (validate y s) = false ->
      exists rest, errors (validate y s) = RFCQueries.getErrorMessage y s :: rest)
  /\ RFCQueries.getErrorMessage y s <> js "RFC inválido".
Proof.
  unfold RFCQueries.getErrorMessage. cbv zeta.
  pose proof (validate_isValid_errors y s) as Hiff.
  destruct (validate_Reportable y s) as [Hall _].
  destruct (isValid (validate y s)) eqn:Ev.
  - split; [tauto|]. split; [discriminate|discriminate].
  - destruct (errors (validate y s)) as [|e rest] eqn:Ee.
    + exfalso. assert (H : false = true) by now apply Hiff. discriminate H.
    + cbn [List.length Nat.eqb nth].
      apply Forall_inv in Hall. apply Reportable_cases in Hall as (_ & Hne & Hfb).
      split; [split; [intros H; now contradiction Hne|discriminate]|].
      split; [intros _; now exists rest|exact Hfb].
Qed.

Lemma getErrorMessage_first_error_witness :
  isValid (validate 2024 (js "CACA991399ABC")) = false
  /\ exists rest,
       errors (validate 2024 (js "CACA991399ABC"))
       = RFCQueries.getErrorMessage 2024 (js "CACA991399ABC") :: rest.
Proof.
  split; [vm_compute; reflexivity|].
  apply (proj1 (proj2 (getErrorMessage_first_error 2024 (js "CACA991399ABC")))).
  vm_compute. reflexivity.
Defined.

(** ** Normalizing before validating *)

Lemma validate_ext (y : Z) (s s' : jsstring) :
  isEmpty s = isEmpty s' -> clean s = clean s' -> validate y s = validate y s'.
Proof. intros He Hc. unfold validate. now rewrite He, Hc. Qed.

Lemma clean_clean (s : jsstring) :
  forallb isCodeUnit s = true -> isWellFormed s = true -> clean (clean s) = clean s.
Proof.
  intros Hu Hwf.
  destruct (clean_Encoded s (wellFormed_Encoded s Hu Hwf)) as (cps & E & Hsc & Hfix).
  apply (clean_fixed_point _ cps E Hsc Hfix).
  unfold clean. apply removeWhiteSpace_no_whitespace.
Qed.

Lemma validate_normalize (y : Z) (s : jsstring) :
  forallb isCodeUnit s = true -> isWellFormed s = true ->
  normalize s <> [] -> validate y (normalize s) = validate y s.
Proof.
  intros Hu Hwf Hne. unfold normalize in *.
  destruct s as [|c s]; [now contradiction Hne|]. cbn [isEmpty] in *.
  apply validate_ext; [|now apply clean_clean].
  now destruct (clean (c :: s)).
Qed.

(** X7. For a string without unpaired surrogates, normalizing before the
    call (as [extractInfo] and the login controller do) never changes the
    verdict or the person type, and leaves the whole result unchanged unless
    the input normalizes to the empty string; in that case the call on the
    normalized form reports the missing-input error. *)
Theorem normalize_then_validate (y : Z) (s : jsstring) :
  forallb isCodeUnit s = true ->
  isWellFormed s = true ->
  (normalize s <> [] -> validate y (normalize s) = validate y s)
  /\ (normalize s = [] -> errors (validate y (normalize s)) = [err_requerido])
  /\ isValid (validate y (normalize s)) = isValid (validate y s)
  /\ getTipoPersona (normalize s) = getTipoPersona s.
Proof.
  intros Hu Hwf.
  split; [now apply validate_normalize|].
  split; [intros ->; reflexivity|].
  destruct (normalize s) as [|c n] eqn:En.
  - unfold normalize in En. destruct s as [|c s]; [split; reflexivity|].
    cbn [isEmpty] in En. unfold validate, getTipoPersona. cbn [isEmpty]. cbv zeta.
    rewrite En. split; reflexivity.
  - assert (Hne : normalize s <> []) by (rewrite En; discriminate).
    rewrite <- En. rewrite (validate_normalize y s Hu Hwf Hne).
    split; [reflexivity|].
    unfold normalize in *. destruct s as [|c' s]; [discriminate En|].
    cbn [isEmpty] in *. unfold getTipoPersona. rewrite En at 1. cbn [isEmpty].
    now rewrite (clean_clean _ Hu Hwf).
Qed.

Lemma normalize_then_validate_witness :
  validate 2024 (normalize (js " tub 650615 abc ")) = validate 2024 (js " tub 650615 abc ")
  /\ errors (validate 2024 (normalize (js "   "))) = [err_requerido]
  /\ errors (validate 2024 (js "   ")) = [err_longitud].
Proof.
  split; [|split; [|vm_compute; reflexivity]].
  - apply (proj1 (normalize_then_validate 2024 (js " tub 650615 abc ")
                    ltac:(vm_compute; reflexivity) ltac:(vm_compute; reflexivity))).
    vm_compute. discriminate.
  - apply (proj1 (proj2 (normalize_then_validate 2024 (js "   ")
                           ltac:(vm_compute; reflexivity) ltac:(vm_compute; reflexivity)))).
    vm_compute. reflexivity.
Defined.

(** ** [extractInfo] *)

Lemma validate_valid_path (y : Z) (s : jsstring) :
  isValid (validate y s) = true ->
  (test RFC_FISICA_REGEX (clean s) = true /\ tipoPersona (validate y s) = Some FISICA)
  \/ (test RFC_MORAL_REGEX (clean s) = true /\ tipoPersona (validate y s) = Some MORAL).
Proof.
  intros H. apply validate_isValid_fields in H as [[Hf _]|[Hm _]].
  - left. split; [exact Hf|].
    rewrite (validate_fisica y s (regex_fisica_length _ Hf)).
    now rewrite validatePersonaFisica_tipoPersona.
  - right. split; [exact Hm|].
    rewrite (validate_moral y s (regex_moral_length _ Hm)).
    now rewrite validatePersonaMoral_tipoPersona.
Qed.

Lemma getTipoPersona_clean (s : jsstring) (n : nat) :
  List.length (clean s) = n -> n <> 0%nat ->
  getTipoPersona s = tipoOfLength n.
Proof.
  intros H Hn. unfold getTipoPersona, tipoOfLength.
  rewrite (clean_length_nonempty s) by (rewrite H; exact Hn). now rewrite H.
Qed.

(** X8. When [extractInfo] returns an object for a string without unpaired
    surrogates, its three fields are consecutive pieces of the normalized
    string and together make it up: four (FISICA) or three (MORAL) letters,
    six digits, three alphanumerics; the person type is the one
    [getTipoPersona] gives. *)
Theorem extractInfo_fields (y : Z) (s : jsstring) (info : RFCQueries.RFCInfo) :
  forallb isCodeUnit s = true ->
  isWellFormed s = true ->
  RFCQueries.extractInfo y s = Some info ->
  RFCQueries.info_iniciales info ++ RFCQueries.info_fecha info
    ++ RFCQueries.info_homoclave info = normalize s
  /\ getTipoPersona s = Some (RFCQueries.info_tipoPersona info)
  /\ List.length (RFCQueries.info_iniciales info)
     = match RFCQueries.info_tipoPersona info with FISICA => 4%nat | MORAL => 3%nat end
  /\ forallb isLetra (RFCQueries.info_iniciales info) = true
  /\ List.length (RFCQueries.info_fecha info) = 6%nat
  /\ forallb isDigit (RFCQueries.info_fecha info) = true
  /\ List.length (RFCQueries.info_homoclave info) = 3%nat
  /\ forallb isAlfanumerico (RFCQueries.info_homoclave info) = true
  /\ RFCQueries.info_isValid info = true.
Proof.
  intros Hu Hwf. unfold RFCQueries.extractInfo. cbv zeta.
  destruct (isValid (validate y (normalize s))) eqn:Ev; [|discriminate].
  cbn [negb].
  assert (Hne : normalize s <> []).
  { intros E. rewrite E in Ev. discriminate Ev. }
  assert (Hcc : clean (normalize s) = normalize s).
  { unfold normalize in *. destruct (isEmpty s); [now contradiction Hne|].
    now apply clean_clean. }
  assert (Hns : normalize s = clean s).
  { unfold normalize in *. destruct (isEmpty s); [now contradiction Hne|reflexivity]. }
  destruct (validate_valid_path y _ Ev) as [[Hre Ht]|[Hre Ht]];
    rewrite Ht; rewrite Hcc in Hre; intros E; injection E as <-;
    cbn [RFCQueries.info_iniciales RFCQueries.info_fecha RFCQueries.info_homoclave
         RFCQueries.info_tipoPersona RFCQueries.info_isValid].
  - pose proof (regex_fisica_length _ Hre) as Hlen.
    rewrite (getTipoPersona_clean s 13) by (rewrite <- ?Hns; auto; discriminate).
    destruct (RFC_FISICA_REGEX_fields _ Hre)
      as (l0 & l1 & l2 & l3 & y1 & y2 & m1 & m2 & d1 & d2 & h1 & h2 & h3
          & -> & Hl & Hd & Hh).
    repeat split; assumption.
  - pose proof (regex_moral_length _ Hre) as Hlen.
    rewrite (getTipoPersona_clean s 12) by (rewrite <- ?Hns; auto; discriminate).
    destruct (RFC_MORAL_REGEX_fields _ Hre)
      as (l0 & l1 & l2 & y1 & y2 & m1 & m2 & d1 & d2 & h1 & h2 & h3
          & -> & Hl & Hd & Hh).
    repeat split; assumption.
Qed.

Lemma extractInfo_fields_witness :
  exists info,
    RFCQueries.extractInfo 2024 (js " tub 650615 abc ") = Some info
    /\ RFCQueries.info_iniciales info ++ RFCQueries.info_fecha info
         ++ RFCQueries.info_homoclave info = js "TUB650615ABC"
    /\ RFCQueries.info_iniciales info = js "TUB".
Proof.
  eexists. split; [vm_compute; reflexivity|].
  split; [|reflexivity].
  refine (eq_trans
            (proj1 (extractInfo_fields 2024 (js " tub 650615 abc ") _
                      ltac:(vm_compute; reflexivity) ltac:(vm_compute; reflexivity)
                      ltac:(vm_compute; reflexivity))) _).
  vm_compute. reflexivity.
Defined.

(** X9. For a string without unpaired surrogates, [extractInfo] returns an
    object exactly when [validate] accepts the string, and [isValid] is that
    same verdict. *)
Theorem extractInfo_some_iff (y : Z) (s : jsstring) :
  forallb isCodeUnit s = true ->
  isWellFormed s = true ->
  ((exists info, RFCQueries.extractInfo y s = Some info)
   <-> isValid (validate y s) = true)
  /\ RFCQueries.isValid y s = isValid (validate y s).
Proof.
  intros Hu Hwf. split; [|reflexivity].
  assert (Hv : isValid (validate y (normalize s)) = isValid (validate y s)).
  { destruct (normalize s) as [|c n] eqn:En.
    - unfold normalize in En. destruct s as [|c s]; [reflexivity|].
      cbn [isEmpty] in En. unfold validate. cbn [isEmpty]. cbv zeta.
      now rewrite En.
    - rewrite <- En. now rewrite validate_normalize by (rewrite ?En; auto; discriminate). }
  unfold RFCQueries.extractInfo. cbv zeta. rewrite <- Hv.
  destruct (isValid (validate y (normalize s))) eqn:Ev; cbn [negb].
  - split; [reflexivity|]. intros _.
    destruct (validate_valid_path y _ Ev) as [[_ Ht]|[_ Ht]]; rewrite Ht; eauto.
  - split; [intros (info & E); discriminate E|discriminate].
Qed.

Lemma extractInfo_some_iff_witness :
  (exists info, RFCQueries.extractInfo 2024 (js "XAXX010101000") = Some info)
  /\ RFCQueries.extractInfo 2024 (js "GOPE650615ABC") = None.
Proof.
  split.
  - apply (proj1 (extractInfo_some_iff 2024 (js "XAXX010101000")
                    ltac:(vm_compute; reflexivity) ltac:(vm_compute; reflexivity))).
    vm_compute. reflexivity.
  - vm_compute. reflexivity.
Defined.

(** ** Valid identifiers *)

Lemma includes_single (s : jsstring) (c : Z) : includes s [c] = true -> In c s.
Proof.
  induction s as [|a s IH]; cbn [includes startsWith].
  - discriminate.
  - rewrite orb_true_iff, andb_true_r, Z.eqb_eq. intros [->|H]; [now left|right; auto].
Qed.

Lemma VALID_CHARS_plain :
  forallb (fun c => isScalarValue c && isUpperFixed c && negb (isWhiteSpace c)
                    && (c <=? 0xFFFF))
          VALID_CHARS = true.
Proof. vm_compute. reflexivity. Qed.

Lemma CodePointsToString_bmp (t : list Z) :
  forallb (fun c => c <=? 0xFFFF) t = true -> CodePointsToString t = t.
Proof.
  induction t as [|c t IH]; [reflexivity|].
  cbn [forallb]. intros H. apply andb_prop in H as [Hc Ht].
  rewrite CodePointsToString_cons, encode_bmp by now apply Z.leb_le.
  cbn [app]. now rewrite IH.
Qed.

Lemma clean_alphabet (t : jsstring) :
  forallb (fun c => includes VALID_CHARS [c]) t = true -> clean t = t.
Proof.
  intros H.
  assert (Hall : forall c, In c t ->
                   isScalarValue c = true /\ isUpperFixed c = true
                   /\ negb (isWhiteSpace c) = true /\ (c <=? 0xFFFF) = true).
  { intros c Hc. rewrite forallb_forall in H. specialize (H c Hc).
    apply includes_single in H.
    pose proof VALID_CHARS_plain as P. rewrite forallb_forall in P. specialize (P c H).
    apply andb_prop in P as [P P4]. apply andb_prop in P as [P P3].
    apply andb_prop in P as [P1 P2]. auto. }
  apply (clean_fixed_point t t).
  - symmetry. apply CodePointsToString_bmp. apply forallb_forall. intros c Hc.
    now apply Hall.
  - apply forallb_forall. intros c Hc. now apply Hall.
  - apply forallb_forall. intros c Hc. now apply Hall.
  - apply forallb_forall. intros c Hc. now apply Hall.
Qed.

Lemma regex_valid_chars (rfc : jsstring) :
  test RFC_FISICA_REGEX rfc = true \/ test RFC_MORAL_REGEX rfc = true ->
  forallb (fun c => includes VALID_CHARS [c]) rfc = true.
Proof.
  intros [Hre|Hre].
  - destruct (RFC_FISICA_REGEX_fields _ Hre)
      as (l0 & l1 & l2 & l3 & y1 & y2 & m1 & m2 & d1 & d2 & h1 & h2 & h3
          & -> & Hl & Hd & Hh).
    cbn [forallb] in *.
    repeat match goal with
           | H : _ && _ = true |- _ => apply andb_prop in H as [? H]
           end.
    rewrite !isLetra_valid, !isDigit_valid, !isAlfanumerico_valid by assumption.
    reflexivity.
  - destruct (RFC_MORAL_REGEX_fields _ Hre)
      as (l0 & l1 & l2 & y1 & y2 & m1 & m2 & d1 & d2 & h1 & h2 & h3
          & -> & Hl & Hd & Hh).
    cbn [forallb] in *.
    repeat match goal with
           | H : _ && _ = true |- _ => apply andb_prop in H as [? H]
           end.
    rewrite !isLetra_valid, !isDigit_valid, !isAlfanumerico_valid by assumption.
    reflexivity.
Qed.

Lemma valid_regex (y : Z) (s : jsstring) :
  isValid (validate y s) = true ->
  test RFC_FISICA_REGEX (clean s) = true \/ test RFC_MORAL_REGEX (clean s) = true.
Proof.
  intros H. destruct (validate_valid_path y s H) as [[Hf _]|[Hm _]]; auto.
Qed.

Lemma valid_normalize (y : Z) (s : jsstring) :
  isValid (validate y s) = true -> s <> [] /\ normalize s = clean s.
Proof.
  intros H. unfold normalize. destruct s as [|c s]; [discriminate H|].
  split; [discriminate|reflexivity].
Qed.

Lemma valid_canonical (y : Z) (s : jsstring) :
  isValid (validate y s) = true ->
  forallb (fun c => includes VALID_CHARS [c]) (normalize s) = true
  /\ normalize (normalize s) = normalize s
  /\ validate y (normalize s) = validate y s.
Proof.
  intros Hv. destruct (valid_normalize y s Hv) as [Hne Hn].
  pose proof (regex_valid_chars _ (valid_regex y s Hv)) as Hchars.
  pose proof (clean_alphabet _ Hchars) as Hcc.
  assert (Hne' : isEmpty (clean s) = false).
  { destruct (valid_regex y s Hv) as [H|H];
      [apply regex_fisica_length in H|apply regex_moral_length in H];
      now destruct (clean s). }
  rewrite Hn. split; [exact Hchars|]. split.
  - unfold normalize. now rewrite Hne', Hcc.
  - apply validate_ext; [|exact Hcc]. rewrite Hne'. now destruct s.
Qed.

(** X10. Every input [validate] accepts has a person type, the one
    [getTipoPersona] gives, and its normalized form has the length of that
    type: after a successful validation the classification cannot come back
    empty. *)
Theorem valid_has_tipoPersona (y : Z) (s : jsstring) :
  isValid (validate y s) = true ->
  exists t,
    getTipoPersona s = Some t
    /\ tipoPersona (validate y s) = Some t
    /\ List.length (normalize s)
       = match t with FISICA => 13%nat | MORAL => 12%nat end.
Proof.
  intros Hv. destruct (valid_normalize y s Hv) as [_ ->].
  destruct (validate_valid_path y s Hv) as [[Hre Ht]|[Hre Ht]].
  - exists FISICA. pose proof (regex_fisica_length _ Hre) as Hlen.
    rewrite (getTipoPersona_clean s 13 Hlen) by discriminate. auto.
  - exists MORAL. pose proof (regex_moral_length _ Hre) as Hlen.
    rewrite (getTipoPersona_clean s 12 Hlen) by discriminate. auto.
Qed.

Lemma valid_has_tipoPersona_witness :
  exists t, getTipoPersona (js "xaxx 010101 000") = Some t
            /\ tipoPersona (validate 2024 (js "xaxx 010101 000")) = Some t.
Proof.
  destruct (valid_has_tipoPersona 2024 (js "xaxx 010101 000")
              ltac:(vm_compute; reflexivity)) as (t & H1 & H2 & _).
  exists t. split; assumption.
Defined.

(** X11. The normalized form of an accepted input is canonical: every unit
    is in the validator's alphabet, normalizing it again changes nothing,
    and validating it gives the same result as validating the raw input.
    This holds for every accepted input, whatever the raw string was. *)
Theorem valid_normal_form_stable (y : Z) (s : jsstring) :
  isValid (validate y s) = true ->
  forallb (fun c => includes VALID_CHARS [c]) (normalize s) = true
  /\ normalize (normalize s) = normalize s
  /\ validate y (normalize s) = validate y s.
Proof. apply valid_canonical. Qed.

Lemma valid_normal_form_stable_witness :
  normalize (normalize (js " tub 650615 abc ")) = normalize (js " tub 650615 abc ")
  /\ validate 2024 (normalize (js " tub 650615 abc "))
     = validate 2024 (js " tub 650615 abc ").
Proof.
  apply (valid_normal_form_stable 2024 (js " tub 650615 abc ")).
  vm_compute. reflexivity.
Defined.

(** ** The echoed normalized form *)

Lemma validateCharacters_from_echo (rest : jsstring) :
  forall (i : Z) (r : RFCAnalysis),
    (format (validateCharacters_from i rest r),
     length (validateCharacters_from i rest r)) = (format r, length r).
Proof.
  induction rest as [|c rest IH]; intros i r.
  - reflexivity.
  - rewrite validateCharacters_from_cons, IH.
    now destruct (negb (includes VALID_CHARS [c])).
Qed.

Lemma validateLetters_echo (t f : jsstring) (r : RFCAnalysis) :
  (format (validateLetters t f r), length (validateLetters t f r))
  = (format r, length r).
Proof.
  unfold validateLetters. now destruct (negb (test (Plus isLetra) t)).
Qed.

Lemma validateFechaNacimiento_echo (y : Z) (t : jsstring) (r : RFCAnalysis) :
  (format (validateFechaNacimiento y t r),
   length (validateFechaNacimiento y t r)) = (format r, length r).
Proof.
  unfold validateFechaNacimiento.
  repeat match goal with
         | |- context [if ?b then _ else _] => destruct b
         end; reflexivity.
Qed.

Lemma validateFechaConstitucion_echo (t : jsstring) (r : RFCAnalysis) :
  (format (validateFechaConstitucion t r),
   length (validateFechaConstitucion t r)) = (format r, length r).
Proof.
  unfold validateFechaConstitucion.
  repeat match goal with
         | |- context [if ?b then _ else _] => destruct b
         end; reflexivity.
Qed.

Lemma validateHomoclave_echo (t : jsstring) (r : RFCAnalysis) :
  (format (validateHomoclave t r), length (validateHomoclave t r))
  = (format r, length r).
Proof.
  unfold validateHomoclave.
  now destruct (negb (test (Fields [(isAlfanumerico, 3%nat)]) t)).
Qed.

Lemma validatePersonaFisica_echo (y : Z) (rfc : jsstring) (r : RFCAnalysis) :
  (format (validatePersonaFisica y rfc r),
   length (validatePersonaFisica y rfc r)) = (format r, length r).
Proof.
  unfold validatePersonaFisica.
  destruct (negb (test RFC_FISICA_REGEX rfc)); [reflexivity|].
  cbv zeta. unfold setIsValid, validateCharacters. cbn [format length].
  rewrite validateCharacters_from_echo.
  destruct (Array_includes FORBIDDEN_WORDS (substring 0 4 rfc));
    cbn [push format length];
    now rewrite validateHomoclave_echo, validateFechaNacimiento_echo,
      !validateLetters_echo.
Qed.

Lemma validatePersonaMoral_echo (rfc : jsstring) (r : RFCAnalysis) :
  (format (validatePersonaMoral rfc r),
   length (validatePersonaMoral rfc r)) = (format r, length r).
Proof.
  unfold validatePersonaMoral.
  destruct (negb (test RFC_MORAL_REGEX rfc)); [reflexivity|].
  cbv zeta. unfold setIsValid, validateCharacters. cbn [format length].
  rewrite validateCharacters_from_echo.
  destruct (Array_includes FORBIDDEN_WORDS (substring 0 3 rfc));
    cbn [push format length];
    now rewrite validateHomoclave_echo, validateFechaConstitucion_echo,
      validateLetters_echo.
Qed.

(** X12. For every input, valid or not, the result echoes the normalized
    form: [format] is [normalize] of the input and [length] is its number of
    code units. *)
Theorem validate_echoes_normalized (y : Z) (s : jsstring) :
  format (validate y s) = normalize s
  /\ length (validate y s) = Z.of_nat (List.length (normalize s)).
Proof.
  enough (H : (format (validate y s), length (validate y s))
              = (normalize s, Z.of_nat (List.length (normalize s))))
    by (inversion H; split; reflexivity).
  unfold validate, normalize. destruct (isEmpty s).
  - reflexivity.
  - cbv zeta.
    destruct (negb (List.length (clean s) =? 12)%nat
              && negb (List.length (clean s) =? 13)%nat); [reflexivity|].
    destruct (List.length (clean s) =? 13)%nat.
    + now rewrite validatePersonaFisica_echo.
    + now rewrite validatePersonaMoral_echo.
Qed.

(** ** Example generation *)

(** X13. When the last two digits of the current year are 25 or more,
    [generateExample] round-trips: the example of either person type is
    accepted by [validate], evaluated in the same year, and carries the
    requested type. *)
Theorem generateExample_round_trip (y : Z) (t : TipoPersona) :
  25 <= Z.rem y 100 ->
  isValid (validate y (generateExample y t)) = true
  /\ tipoPersona (validate y (generateExample y t)) = Some t
  /\ getTipoPersona (generateExample y t) = Some t.
Proof.
  intros Hy. rewrite <- validate_rem, <- generateExample_rem.
  assert (Hb : Z.rem y 100 < 100).
  { pose proof (Z.rem_bound_abs y 100 ltac:(discriminate)). lia. }
  revert Hy Hb. generalize (Z.rem y 100). intros cy Hy Hb.
  assert (Hall : forallb
                   (fun c =>
                      forallb
                        (fun t' =>
                           isValid (validate c (generateExample c t'))
                           && match tipoPersona (validate c (generateExample c t')),
                                    getTipoPersona (generateExample c t'), t' with
                              | Some FISICA, Some FISICA, FISICA
                              | Some MORAL, Some MORAL, MORAL => true
                              | _, _, _ => false
                              end)
                        [FISICA; MORAL])
                   (map Z.of_nat (seq 25 75)) = true)
    by (vm_compute; reflexivity).
  rewrite forallb_forall in Hall.
  specialize (Hall cy (in_Z_range 25 75 cy ltac:(lia))).
  rewrite forallb_forall in Hall.
  assert (Ht : In t [FISICA; MORAL]) by (destruct t; cbn; auto).
  specialize (Hall t Ht). apply andb_prop in Hall as [Hv Htp].
  split; [exact Hv|].
  destruct (tipoPersona (validate cy (generateExample cy t))) as [[]|],
    (getTipoPersona (generateExample cy t)) as [[]|], t;
    try discriminate Htp; split; reflexivity.
Qed.

Lemma generateExample_round_trip_witness :
  isValid (validate 2026 (generateExample 2026 FISICA)) = true
  /\ generateExample 2026 FISICA = js "GOPE010615ABC".
Proof.
  split; [|vm_compute; reflexivity].
  apply (generateExample_round_trip 2026 FISICA). vm_compute. discriminate.
Defined.

(** * The spreadsheet import *)

(** ** Headers *)

Lemma strictEquals_true (str : jsstring) (c : ExcelUtils.Cell) :
  ExcelUtils.strictEquals str c = true <-> c = ExcelUtils.CString str.
Proof.
  destruct c as [s|t x]; cbn [ExcelUtils.strictEquals].
  - split.
    + intros H. apply eqb_eq in H. now subst.
    + intros H. injection H as ->. unfold eqb.
      now destruct (list_eq_dec Z.eq_dec str str).
  - split; discriminate.
Qed.

Lemma existsb_strictEquals (str : jsstring) (hs : list ExcelUtils.Cell) :
  existsb (ExcelUtils.strictEquals str) hs = true <-> In (ExcelUtils.CString str) hs.
Proof.
  rewrite existsb_exists. split.
  - intros (c & Hc & E). apply strictEquals_true in E. now subst.
  - intros H. exists (ExcelUtils.CString str). split; [exact H|].
    now apply strictEquals_true.
Qed.

Lemma missing_fold (hs : list ExcelUtils.Cell) (req acc : list jsstring) :
  fold_left
    (fun errors requiredColumn =>
       if negb (existsb (ExcelUtils.strictEquals requiredColumn) hs)
       then errors ++ [ExcelUtils.err_columna_faltante requiredColumn]
       else errors)
    req acc
  = acc ++ flat_map
             (fun requiredColumn =>
                if negb (existsb (ExcelUtils.strictEquals requiredColumn) hs)
                then [ExcelUtils.err_columna_faltante requiredColumn] else [])
             req.
Proof.
  revert acc. induction req as [|c req IH]; intros acc; cbn [fold_left flat_map].
  - now rewrite app_nil_r.
  - rewrite IH. destruct (negb (existsb (ExcelUtils.strictEquals c) hs)).
    + now rewrite <- app_assoc.
    + reflexivity.
Qed.

Lemma checkOrder_acc (hs : list ExcelUtils.Cell) :
  forall (i : Z) (req acc : list jsstring),
    ExcelUtils.checkOrder i hs req acc = acc ++ ExcelUtils.checkOrder i hs req [].
Proof.
  induction hs as [|h hs IH]; intros i req acc; cbn [ExcelUtils.checkOrder].
  - now rewrite app_nil_r.
  - destruct req as [|e req]; [now rewrite app_nil_r|].
    destruct (negb (ExcelUtils.strictEquals e h)); [reflexivity|apply IH].
Qed.


Lemma checkOrder_nil (hs : list ExcelUtils.Cell) :
  forall (i : Z) (req : list jsstring),
    ExcelUtils.checkOrder i hs req [] = []
    <-> firstn (List.length req) hs
        = map ExcelUtils.CString (firstn (List.length hs) req).
Proof.
  induction hs as [|h hs IH]; intros i req; cbn [ExcelUtils.checkOrder].
  - rewrite firstn_nil. cbn. tauto.
  - destruct req as [|e req]; [cbn; tauto|].
    cbn [List.length firstn map].
    destruct (ExcelUtils.strictEquals e h) eqn:E; cbn [negb].
    + apply strictEquals_true in E. subst h. rewrite (IH (i + 1) req).
      split; [intros ->; reflexivity|intros H; now injection H].
    + split; [cbn [app]; discriminate|].
      intros H. injection H as -> _.
      assert (T : ExcelUtils.strictEquals e (ExcelUtils.CString e) = true)
        by now apply strictEquals_true.
      congruence.
Qed.

Lemma validateHeaders_errors (hs : list ExcelUtils.Cell) :
  ExcelUtils.HeaderValidation.errors (ExcelUtils.validateHeaders hs)
  = flat_map
      (fun requiredColumn =>
         if negb (existsb (ExcelUtils.strictEquals requiredColumn) hs)
         then [ExcelUtils.err_columna_faltante requiredColumn] else [])
      ExcelUtils.REQUIRED_COLUMNS
    ++ ExcelUtils.checkOrder 0 hs ExcelUtils.REQUIRED_COLUMNS [].
Proof.
  unfold ExcelUtils.validateHeaders. cbv zeta. cbn [ExcelUtils.HeaderValidation.errors].
  now rewrite checkOrder_acc, missing_fold.
Qed.

Lemma validateHeaders_isValid (hs : list ExcelUtils.Cell) :
  ExcelUtils.HeaderValidation.isValid (ExcelUtils.validateHeaders hs) = true
  <-> ExcelUtils.HeaderValidation.errors (ExcelUtils.validateHeaders hs) = [].
Proof.
  unfold ExcelUtils.validateHeaders. cbv zeta.
  cbn [ExcelUtils.HeaderValidation.isValid ExcelUtils.HeaderValidation.errors].
  rewrite Nat.eqb_eq. apply length_zero_iff_nil.
Qed.

Lemma missing_nil (hs : list ExcelUtils.Cell) (req : list jsstring) :
  flat_map
    (fun requiredColumn =>
       if negb (existsb (ExcelUtils.strictEquals requiredColumn) hs)
       then [ExcelUtils.err_columna_faltante requiredColumn] else [])
    req = []
  <-> forall c, In c req -> In (ExcelUtils.CString c) hs.
Proof.
  induction req as [|c req IH]; cbn [flat_map].
  - split; [intros _ c []|reflexivity].
  - destruct (existsb (ExcelUtils.strictEquals c) hs) eqn:E; cbn [negb app].
    + apply existsb_strictEquals in E. rewrite IH. split.
      * intros H x [<-|Hx]; auto.
      * intros H x Hx. apply H. now right.
    + split; [discriminate|].
      intros H. assert (Hc : In (ExcelUtils.CString c) hs) by (apply H; now left).
      apply existsb_strictEquals in Hc. congruence.
Qed.

Lemma REQUIRED_COLUMNS_NoDup : NoDup ExcelUtils.REQUIRED_COLUMNS.
Proof.
  unfold ExcelUtils.REQUIRED_COLUMNS.
  repeat constructor; cbn [In]; intuition discriminate.
Qed.

Lemma prefix_of_NoDup (req : list jsstring) (hs : list ExcelUtils.Cell) :
  NoDup req ->
  (forall c, In c req -> In (ExcelUtils.CString c) hs) ->
  firstn (List.length req) hs = map ExcelUtils.CString (firstn (List.length hs) req) ->
  firstn (List.length req) hs = map ExcelUtils.CString req.
Proof.
  intros Hnd Hin Hpos.
  destruct (Nat.le_gt_cases (List.length req) (List.length hs)) as [Hle|Hgt].
  - now rewrite (firstn_all2 req Hle) in Hpos.
  - exfalso. rewrite (firstn_all2 hs) in Hpos by lia.
    destruct (nth_error req (List.length hs)) as [x|] eqn:Ex.
    + pose proof (firstn_skipn_middle _ _ Ex) as Hsplit.
      rewrite <- Hsplit in Hnd. apply NoDup_remove_2 in Hnd.
      apply Hnd. apply in_or_app. left.
      assert (Hx : In (ExcelUtils.CString x) hs).
      { apply Hin. rewrite <- Hsplit. apply in_or_app. right. now left. }
      rewrite Hpos in Hx. apply in_map_iff in Hx as (x' & E & Hx').
      injection E as ->. exact Hx'.
    + apply nth_error_None in Ex. lia.
Qed.

Lemma validateHeaders_isValid_prefix (hs : list ExcelUtils.Cell) :
  ExcelUtils.HeaderValidation.isValid (ExcelUtils.validateHeaders hs) = true
  <-> firstn 5 hs = map ExcelUtils.CString ExcelUtils.REQUIRED_COLUMNS.
Proof.
  rewrite validateHeaders_isValid, validateHeaders_errors.
  change 5%nat with (List.length ExcelUtils.REQUIRED_COLUMNS).
  split.
  - intros H. apply app_eq_nil in H as [Hmiss Hord].
    pose proof (proj1 (missing_nil hs _) Hmiss) as Hmiss'.
    pose proof (proj1 (checkOrder_nil hs 0 _) Hord) as Hord'.
    exact (prefix_of_NoDup _ hs REQUIRED_COLUMNS_NoDup Hmiss' Hord').
  - intros H.
    assert (Hlen : (List.length ExcelUtils.REQUIRED_COLUMNS <= List.length hs)%nat).
    { apply (f_equal (@List.length _)) in H.
      rewrite length_firstn, length_map in H. lia. }
    assert (Hmiss : forall c, In c ExcelUtils.REQUIRED_COLUMNS ->
                              In (ExcelUtils.CString c) hs).
    { intros c Hc. rewrite <- (firstn_skipn (List.length ExcelUtils.REQUIRED_COLUMNS) hs).
      apply in_or_app. left. rewrite H. now apply in_map. }
    rewrite (proj2 (missing_nil hs _) Hmiss). cbn [app].
    apply (proj2 (checkOrder_nil hs 0 _)). now rewrite (firstn_all2 _ Hlen).
Qed.

(** X14. [validateHeaders] accepts a header row exactly when its first five
    cells are the five required column names, as strings and in the required
    order; anything may follow them. *)
Theorem validateHeaders_accepts_iff (hs : list ExcelUtils.Cell) :
  ExcelUtils.HeaderValidation.isValid (ExcelUtils.validateHeaders hs) = true
  <-> firstn 5 hs = map ExcelUtils.CString ExcelUtils.REQUIRED_COLUMNS.
Proof. apply validateHeaders_isValid_prefix. Qed.




(** ** Rows *)

Lemma nth_cleanCell (i : nat) (row : list ExcelUtils.Cell) :
  nth i (map ExcelUtils.cleanCell row) [] = rowField i row.
Proof.
  unfold rowField.
  change (@nil Z) with (ExcelUtils.cleanCell (ExcelUtils.COther false [])) at 1.
  apply map_nth.
Qed.

Lemma validate_empty_invalid (y : Z) : isValid (validate y []) = false.
Proof. reflexivity. Qed.

(** The three ways [validateAndParseRow] can return. *)
Lemma validateAndParseRow_cases (y : Z) (row : list ExcelUtils.Cell) (n : Z) :
  let r := ExcelUtils.validateAndParseRow y row n in
  ((List.length row < 5)%nat
   /\ rowAccepted y row = false
   /\ ExcelUtils.RowValidation.isValid r = false
   /\ ExcelUtils.RowValidation.cliente r = None
   /\ List.length (ExcelUtils.RowValidation.errors r) = 1%nat
   /\ ExcelUtils.RowValidation.warnings r = [])
  \/ (rowAccepted y row = true
      /\ ExcelUtils.RowValidation.isValid r = true
      /\ ExcelUtils.RowValidation.cliente r = Some (rowCliente row)
      /\ ExcelUtils.RowValidation.errors r = [])
  \/ ((5 <= List.length row)%nat
      /\ rowAccepted y row = false
      /\ ExcelUtils.RowValidation.isValid r = false
      /\ ExcelUtils.RowValidation.cliente r = None
      /\ ExcelUtils.RowValidation.errors r <> []).
Proof.
  cbv zeta. unfold ExcelUtils.validateAndParseRow, rowAccepted, rowCliente.
  change (List.length ExcelUtils.REQUIRED_COLUMNS) with 5%nat.
  destruct (List.length row <? 5)%nat eqn:Elen.
  - left. apply Nat.ltb_lt in Elen.
    assert (E : (5 <=? List.length row)%nat = false) by (apply Nat.leb_gt; lia).
    rewrite E.
    cbn [andb List.length ExcelUtils.RowValidation.isValid
         ExcelUtils.RowValidation.cliente ExcelUtils.RowValidation.errors
         ExcelUtils.RowValidation.warnings].
    repeat split; try reflexivity. exact Elen.
  - right. apply Nat.ltb_ge in Elen.
    assert (E : (5 <=? List.length row)%nat = true) by now apply Nat.leb_le.
    rewrite E. cbv zeta. rewrite !nth_cleanCell.
    destruct (isEmpty (rowField 2 row)) eqn:E2.
    + assert (Hinv : isValid (validate y (rowField 2 row)) = false).
      { destruct (rowField 2 row); [reflexivity|discriminate E2]. }
      rewrite Hinv. right.
      destruct (isEmpty (rowField 0 row)), (isEmpty (rowField 1 row)),
        (isEmpty (rowField 3 row)), (isEmpty (rowField 4 row));
        cbn [negb andb app List.length Nat.ltb Nat.leb
             ExcelUtils.RowValidation.isValid ExcelUtils.RowValidation.cliente
             ExcelUtils.RowValidation.errors];
        (repeat split; try reflexivity; try exact Elen; discriminate).
    + destruct (isValid (validate y (rowField 2 row))) eqn:Ev;
        destruct (isEmpty (rowField 0 row)), (isEmpty (rowField 1 row)),
          (isEmpty (rowField 3 row)), (isEmpty (rowField 4 row));
        cbn [negb andb app List.length Nat.ltb Nat.leb
             ExcelUtils.RowValidation.isValid ExcelUtils.RowValidation.cliente
             ExcelUtils.RowValidation.errors];
        first [ left; repeat split; reflexivity
              | right; repeat split; try reflexivity; try exact Elen; discriminate ].
Qed.

(** X16. A row becomes a client record exactly when it has at least five
    cells, the cleaned code, name, payment-terms code and group code are not
    empty and the cleaned RFC passes [validate]; warnings play no part.  The
    record then holds the cleaned cells, with the RFC normalized. *)
Theorem validateAndParseRow_accepts (y : Z) (row : list ExcelUtils.Cell) (n : Z) :
  ExcelUtils.RowValidation.isValid (ExcelUtils.validateAndParseRow y row n)
  = rowAccepted y row
  /\ ExcelUtils.RowValidation.cliente (ExcelUtils.validateAndParseRow y row n)
     = if rowAccepted y row then Some (rowCliente row) else None.
Proof.
  destruct (validateAndParseRow_cases y row n)
    as [(_ & -> & -> & -> & _)|[(-> & -> & -> & _)|(_ & -> & -> & -> & _)]];
    split; reflexivity.
Qed.

(** X17. The flag, the record and the error list of a row result agree: an
    accepted row has no errors, a rejected row has at least one and carries
    no record; a row with fewer than five cells is rejected with exactly one
    error and no warnings, whatever its cells hold. *)
Theorem validateAndParseRow_consistent (y : Z) (row : list ExcelUtils.Cell) (n : Z) :
  (ExcelUtils.RowValidation.isValid (ExcelUtils.validateAndParseRow y row n) = true
   <-> ExcelUtils.RowValidation.errors (ExcelUtils.validateAndParseRow y row n) = [])
  /\ (ExcelUtils.RowValidation.isValid (ExcelUtils.validateAndParseRow y row n) = true
      <-> ExcelUtils.RowValidation.cliente (ExcelUtils.validateAndParseRow y row n)
          <> None)
  /\ ((List.length row < 5)%nat ->
      ExcelUtils.RowValidation.isValid (ExcelUtils.validateAndParseRow y row n) = false
      /\ List.length
           (ExcelUtils.RowValidation.errors (ExcelUtils.validateAndParseRow y row n))
         = 1%nat
      /\ ExcelUtils.RowValidation.warnings (ExcelUtils.validateAndParseRow y row n)
         = []).
Proof.
  destruct (validateAndParseRow_cases y row n)
    as [(Hlen & _ & Hv & Hc & He & Hw)|[(_ & Hv & Hc & He)|(Hlen & _ & Hv & Hc & He)]];
    rewrite ?Hv, ?Hc, ?He, ?Hw.
  - split; [|split].
    + split; [discriminate|].
      intros E. rewrite E in He. discriminate He.
    + split; [discriminate|]. intros H. now contradiction H.
    + intros _. auto.
  - split; [|split].
    + tauto.
    + split; [discriminate|reflexivity].
    + intros Hlen. exfalso.
      destruct (validateAndParseRow_cases y row n)
        as [(_ & _ & Hv' & _)|[(Ha & _)|(Hge & _)]].
      * congruence.
      * unfold rowAccepted in Ha.
        destruct (5 <=? List.length row)%nat eqn:E; [|discriminate Ha].
        apply Nat.leb_le in E. lia.
      * lia.
  - split; [|split].
    + split; [discriminate|]. intros E. now contradiction He.
    + split; [discriminate|]. intros H. now contradiction H.
    + intros H. lia.
Qed.

Lemma validateAndParseRow_consistent_witness :
  List.length
    (ExcelUtils.RowValidation.errors
       (ExcelUtils.validateAndParseRow 2024
          [ExcelUtils.CString (js "CLI001"); ExcelUtils.CString (js "EMP950523ABC")] 7))
  = 1%nat.
Proof.
  apply (proj2 (proj2 (validateAndParseRow_consistent 2024
                         [ExcelUtils.CString (js "CLI001");
                          ExcelUtils.CString (js "EMP950523ABC")] 7))).
  cbn. lia.
Defined.

(** X18. The RFC stored in the record of an accepted row is in canonical
    form: it matches the FISICA or the MORAL format, every unit is in the
    validator's alphabet, and validating the stored value again accepts it. *)
Theorem accepted_row_rfc_canonical (y : Z) (row : list ExcelUtils.Cell) (n : Z)
    (c : ExcelUtils.Cliente) :
  ExcelUtils.RowValidation.cliente (ExcelUtils.validateAndParseRow y row n) = Some c ->
  (test RFC_FISICA_REGEX (ExcelUtils.rfc c) = true
   \/ test RFC_MORAL_REGEX (ExcelUtils.rfc c) = true)
  /\ forallb (fun u => includes VALID_CHARS [u]) (ExcelUtils.rfc c) = true
  /\ isValid (validate y (ExcelUtils.rfc c)) = true
  /\ normalize (ExcelUtils.rfc c) = ExcelUtils.rfc c.
Proof.
  intros Hc.
  destruct (validateAndParseRow_cases y row n)
    as [(_ & _ & _ & Hn & _)|[(Ha & _ & Hs & _)|(_ & _ & _ & Hn & _)]];
    try congruence.
  rewrite Hs in Hc. injection Hc as <-. cbn [ExcelUtils.rfc rowCliente].
  unfold rowAccepted in Ha.
  repeat (apply andb_prop in Ha as [Ha ?]).
  assert (Hv : isValid (validate y (rowField 2 row)) = true) by assumption.
  destruct (valid_canonical y _ Hv) as (Hchars & Hnn & Hvv).
  destruct (valid_normalize y _ Hv) as [_ Hnc].
  split; [rewrite Hnc; exact (valid_regex y _ Hv)|].
  split; [exact Hchars|]. split; [now rewrite Hvv|exact Hnn].
Qed.

Lemma accepted_row_rfc_canonical_witness :
  exists c,
    ExcelUtils.RowValidation.cliente
      (ExcelUtils.validateAndParseRow 2024
         [ExcelUtils.CString (js "cli001"); ExcelUtils.CString (js "Ejemplo SA");
          ExcelUtils.CString (js " emp950523abc "); ExcelUtils.COther true (js "30");
          ExcelUtils.CString (js "a")] 2) = Some c
    /\ ExcelUtils.rfc c = js "EMP950523ABC"
    /\ isValid (validate 2024 (ExcelUtils.rfc c)) = true.
Proof.
  eexists. split; [vm_compute; reflexivity|]. split; [reflexivity|].
  refine (proj1 (proj2 (proj2
            (accepted_row_rfc_canonical 2024
               [ExcelUtils.CString (js "cli001"); ExcelUtils.CString (js "Ejemplo SA");
                ExcelUtils.CString (js " emp950523abc "); ExcelUtils.COther true (js "30");
                ExcelUtils.CString (js "a")] 2 _ _)))).
  vm_compute. reflexivity.
Defined.

(** ** Duplicates *)

Lemma eqb_refl (a : jsstring) : eqb a a = true.
Proof. unfold eqb. now destruct (list_eq_dec Z.eq_dec a a). Qed.

Lemma eqb_neq (a b : jsstring) : a <> b -> eqb a b = false.
Proof. intros H. unfold eqb. now destruct (list_eq_dec Z.eq_dec a b). Qed.

Lemma eqb_spec (a b : jsstring) : eqb a b = true <-> a = b.
Proof. split; [apply eqb_eq|intros ->; apply eqb_refl]. Qed.

Lemma Map_get_push (m : list (jsstring * list Z)) (key k : jsstring) (v : Z) :
  Map_get (ExcelUtils.Map_push m key v) k
  = if eqb k key then Map_get m key ++ [v] else Map_get m k.
Proof.
  unfold Map_get. induction m as [|[k0 l0] m IH]; cbn [ExcelUtils.Map_push find fst snd].
  - destruct (eqb k key) eqn:E.
    + apply eqb_eq in E. subst. now rewrite eqb_refl.
    + destruct (eqb key k) eqn:E'; [|reflexivity].
      apply eqb_eq in E'. subst. now rewrite eqb_refl in E.
  - destruct (eqb k0 key) eqn:E0; cbn [find fst snd].
    + apply eqb_eq in E0. subst k0.
      destruct (eqb k key) eqn:E.
      * apply eqb_eq in E. subst. now rewrite eqb_refl.
      * destruct (eqb key k) eqn:E'; [|reflexivity].
        apply eqb_eq in E'. subst. now rewrite eqb_refl in E.
    + destruct (eqb k0 k) eqn:E1.
      * apply eqb_eq in E1. subst k0. now rewrite E0.
      * exact IH.
Qed.

Lemma Map_push_keys (m : list (jsstring * list Z)) (key : jsstring) (v : Z) :
  (forall k, In k (map fst (ExcelUtils.Map_push m key v))
             <-> k = key \/ In k (map fst m))
  /\ (NoDup (map fst m) -> NoDup (map fst (ExcelUtils.Map_push m key v))).
Proof.
  induction m as [|[k0 l0] m [IHk IHn]]; cbn [ExcelUtils.Map_push map fst In].
  - split; [intros k; intuition|]. intros _. repeat constructor. intros [].
  - destruct (eqb k0 key) eqn:E0; cbn [map fst In].
    + apply eqb_eq in E0. subst k0. split; [intros k; intuition|auto].
    + split.
      * intros k. rewrite IHk. intuition.
      * intros Hnd. inversion Hnd as [|? ? Hnot Hnd']; subst.
        constructor; [|now apply IHn].
        rewrite IHk. intros [->|H]; [now rewrite eqb_refl in E0|contradiction].
Qed.

Lemma collectRows_spec (key : ExcelUtils.Cliente -> jsstring)
    (cs : list ExcelUtils.Cliente) :
  forall (i : Z) (m : list (jsstring * list Z)),
    (forall k, List.length (Map_get (ExcelUtils.collectRows key cs i m) k)
               = (List.length (Map_get m k)
                  + count_occ (list_eq_dec Z.eq_dec) (map key cs) k)%nat)
    /\ (forall k, In k (map fst (ExcelUtils.collectRows key cs i m))
                  <-> In k (map key cs) \/ In k (map fst m))
    /\ (NoDup (map fst m) -> NoDup (map fst (ExcelUtils.collectRows key cs i m))).
Proof.
  induction cs as [|c cs IH]; intros i m; cbn [ExcelUtils.collectRows map count_occ In].
  - split; [intros k; lia|]. split; [intros k; tauto|auto].
  - destruct (IH (i + 1) (ExcelUtils.Map_push m (key c) (i + 2))) as (IHl & IHk & IHn).
    destruct (Map_push_keys m (key c) (i + 2)) as [Pk Pn].
    split; [|split].
    + intros k. rewrite IHl, Map_get_push.
      destruct (list_eq_dec Z.eq_dec (key c) k) as [<-|Hne].
      * rewrite eqb_refl, length_app. cbn [List.length]. lia.
      * rewrite eqb_neq by congruence. lia.
    + intros k. rewrite IHk, Pk. intuition.
    + intros Hnd. apply IHn. now apply Pn.
Qed.

Lemma reportDuplicates_fold (what : jsstring) (m : list (jsstring * list Z))
    (acc : list jsstring) :
  ExcelUtils.reportDuplicates what m acc
  = acc ++ flat_map
             (fun entry =>
                if (1 <? List.length (snd entry))%nat
                then [ExcelUtils.err_duplicado what (fst entry) (snd entry)] else [])
             m.
Proof.
  unfold ExcelUtils.reportDuplicates. revert acc.
  induction m as [|e m IH]; intros acc; cbn [fold_left flat_map].
  - now rewrite app_nil_r.
  - rewrite IH. destruct (1 <? List.length (snd e))%nat.
    + now rewrite <- app_assoc.
    + reflexivity.
Qed.

Lemma flat_map_nil_iff {A B : Type} (f : A -> list B) (l : list A) :
  flat_map f l = [] <-> forall x, In x l -> f x = [].
Proof.
  induction l as [|a l IH]; cbn [flat_map In].
  - split; [intros _ x []|reflexivity].
  - split.
    + intros H. apply app_eq_nil in H as [Ha Hl]. intros x [<-|Hx]; [exact Ha|].
      now apply IH.
    + intros H. rewrite (H a) by now left. cbn [app]. apply IH. auto.
Qed.

Lemma Map_get_In (m : list (jsstring * list Z)) (k : jsstring) (l : list Z) :
  NoDup (map fst m) -> In (k, l) m -> Map_get m k = l.
Proof.
  unfold Map_get. induction m as [|[k0 l0] m IH]; [intros _ []|].
  cbn [map fst find In]. intros Hnd [E|Hin].
  - injection E as -> ->. now rewrite eqb_refl.
  - inversion Hnd as [|? ? Hnot Hnd']; subst.
    destruct (eqb k0 k) eqn:E0.
    + apply eqb_eq in E0. subst k0. exfalso. apply Hnot.
      apply in_map_iff. now exists (k, l).
    + now apply IH.
Qed.

(** No duplicate error for the keys [key] reads, iff the keys are pairwise
    distinct. *)
Lemma no_duplicate_errors (what : jsstring) (key : ExcelUtils.Cliente -> jsstring)
    (cs : list ExcelUtils.Cliente) :
  flat_map
    (fun entry =>
       if (1 <? List.length (snd entry))%nat
       then [ExcelUtils.err_duplicado what (fst entry) (snd entry)] else [])
    (ExcelUtils.collectRows key cs 0 []) = []
  <-> NoDup (map key cs).
Proof.
  destruct (collectRows_spec key cs 0 []) as (Hl & Hk & Hn).
  specialize (Hn (NoDup_nil _)).
  assert (Hl' : forall k,
             List.length (Map_get (ExcelUtils.collectRows key cs 0 []) k)
             = count_occ (list_eq_dec Z.eq_dec) (map key cs) k)
    by (intros k; rewrite Hl; reflexivity).
  clear Hl.
  rewrite flat_map_nil_iff, (NoDup_count_occ (list_eq_dec Z.eq_dec)).
  split.
  - intros H k.
    destruct (in_dec (list_eq_dec Z.eq_dec) k (map key cs)) as [Hin|Hnin].
    + assert (Hkm : In k (map fst (ExcelUtils.collectRows key cs 0 []))) by (apply Hk; auto).
      apply in_map_iff in Hkm as ([k' l] & E & He). cbn [fst] in E. subst k'.
      specialize (H _ He). cbn [fst snd] in H.
      rewrite <- (Map_get_In _ _ _ Hn He) in H. rewrite Hl' in H.
      destruct (1 <? count_occ (list_eq_dec Z.eq_dec) (map key cs) k)%nat eqn:E;
        [discriminate H|]. apply Nat.ltb_ge in E. exact E.
    + apply (count_occ_not_In (list_eq_dec Z.eq_dec)) in Hnin. lia.
  - intros H [k l] He. cbn [fst snd].
    rewrite <- (Map_get_In _ _ _ Hn He), Hl'.
    specialize (H k).
    destruct (1 <? count_occ (list_eq_dec Z.eq_dec) (map key cs) k)%nat eqn:E;
      [|reflexivity]. apply Nat.ltb_lt in E. lia.
Qed.

Lemma validateDuplicates_nil (cs : list ExcelUtils.Cliente) :
  ExcelUtils.DuplicateValidation.errors (ExcelUtils.validateDuplicates cs) = []
  <-> NoDup (map ExcelUtils.codigo_sn cs) /\ NoDup (map ExcelUtils.rfc cs).
Proof.
  unfold ExcelUtils.validateDuplicates. cbv zeta.
  cbn [ExcelUtils.DuplicateValidation.errors].
  rewrite (reportDuplicates_fold (js "RFC")), (reportDuplicates_fold (js "Código SN")).
  cbn [app].
  rewrite <- (no_duplicate_errors (js "Código SN") ExcelUtils.codigo_sn cs).
  rewrite <- (no_duplicate_errors (js "RFC") ExcelUtils.rfc cs).
  split.
  - intros H. now apply app_eq_nil in H.
  - intros [-> ->]. reflexivity.
Qed.

(** X19. [validateDuplicates] reports nothing exactly when the client codes
    are pairwise distinct and the RFCs are pairwise distinct; it never
    produces a warning. *)
Theorem validateDuplicates_none_iff (cs : list ExcelUtils.Cliente) :
  (ExcelUtils.DuplicateValidation.errors (ExcelUtils.validateDuplicates cs) = []
   <-> NoDup (map ExcelUtils.codigo_sn cs) /\ NoDup (map ExcelUtils.rfc cs))
  /\ ExcelUtils.DuplicateValidation.warnings (ExcelUtils.validateDuplicates cs) = [].
Proof. split; [apply validateDuplicates_nil|reflexivity]. Qed.

(** ** The import as a whole *)

Lemma processRows_spec (y : Z) (rows : list (list ExcelUtils.Cell)) :
  forall (i : Z) (r : ExcelUtils.ExcelValidationResult.t),
    ExcelUtils.ExcelValidationResult.clientes (ExcelUtils.processRows y i rows r)
    = ExcelUtils.ExcelValidationResult.clientes r
      ++ map rowCliente (filter (rowAccepted y) rows)
    /\ ExcelUtils.ExcelValidationResult.validRows (ExcelUtils.processRows y i rows r)
       = ExcelUtils.ExcelValidationResult.validRows r
         + Z.of_nat (List.length (filter (rowAccepted y) rows))
    /\ ExcelUtils.ExcelValidationResult.errors (ExcelUtils.processRows y i rows r)
       = ExcelUtils.ExcelValidationResult.errors r ++ rejectedErrors y i rows
    /\ ExcelUtils.ExcelValidationResult.warnings (ExcelUtils.processRows y i rows r)
       = ExcelUtils.ExcelValidationResult.warnings r ++ rejectedWarnings y i rows
    /\ ExcelUtils.ExcelValidationResult.totalRows (ExcelUtils.processRows y i rows r)
       = ExcelUtils.ExcelValidationResult.totalRows r.
Proof.
  induction rows as [|row rows IH]; intros i r;
    cbn [ExcelUtils.processRows filter rejectedErrors rejectedWarnings].
  - cbn [map List.length]. rewrite !app_nil_r, Z.add_0_r. auto.
  - cbv zeta.
    destruct (validateAndParseRow_cases y row (i + 2))
      as [(_ & Ha & Hv & Hc & _)|[(Ha & Hv & Hc & He)|(_ & Ha & Hv & Hc & _)]];
      rewrite Ha, Hv, ?Hc;
      match goal with
      | |- context [ExcelUtils.processRows y (i + 1) rows ?r'] =>
          destruct (IH (i + 1) r') as (Ic & Iv & Ie & Iw & It)
      end;
      rewrite Ic, Iv, Ie, Iw, It;
      cbn [ExcelUtils.ExcelValidationResult.clientes
           ExcelUtils.ExcelValidationResult.validRows
           ExcelUtils.ExcelValidationResult.errors
           ExcelUtils.ExcelValidationResult.warnings
           ExcelUtils.ExcelValidationResult.totalRows map List.length app];
      rewrite <- ?app_assoc; cbn [app];
      repeat split; try reflexivity; lia.
Qed.

Lemma rejectedErrors_nil (y : Z) (rows : list (list ExcelUtils.Cell)) :
  forall i : Z, rejectedErrors y i rows = [] <-> forallb (rowAccepted y) rows = true.
Proof.
  induction rows as [|row rows IH]; intros i; cbn [rejectedErrors forallb].
  - tauto.
  - destruct (validateAndParseRow_cases y row (i + 2))
      as [(_ & Ha & _ & _ & He & _)|[(Ha & _)|(_ & Ha & _ & _ & He)]];
      rewrite Ha; cbn [andb app].
    + split; [|discriminate]. intros H. apply app_eq_nil in H as [H _].
      rewrite H in He. discriminate He.
    + apply IH.
    + split; [|discriminate]. intros H. apply app_eq_nil in H as [H _].
      now contradiction He.
Qed.

Lemma rejectedWarnings_nil (y : Z) (rows : list (list ExcelUtils.Cell)) :
  forall i : Z, forallb (rowAccepted y) rows = true -> rejectedWarnings y i rows = [].
Proof.
  induction rows as [|row rows IH]; intros i; cbn [rejectedWarnings forallb];
    [reflexivity|].
  intros H. apply andb_prop in H as [Ha Hr]. rewrite Ha. cbn [app]. now apply IH.
Qed.

Lemma filter_all {A : Type} (f : A -> bool) (l : list A) :
  forallb f l = true -> filter f l = l.
Proof.
  induction l as [|a l IH]; cbn [forallb filter]; [reflexivity|].
  intros H. apply andb_prop in H as [Ha Hl]. now rewrite Ha, IH.
Qed.

(** The result of [parseJsonData] once the header row is accepted and there
    is at least one data row. *)
Lemma parseJsonData_rows (y : Z) (headers : list ExcelUtils.Cell)
    (row : list ExcelUtils.Cell) (rows : list (list ExcelUtils.Cell)) :
  ExcelUtils.HeaderValidation.isValid (ExcelUtils.validateHeaders headers) = true ->
  let accepted := map rowCliente (filter (rowAccepted y) (row :: rows)) in
  let errors :=
    rejectedErrors y 0 (row :: rows)
    ++ ExcelUtils.DuplicateValidation.errors (ExcelUtils.validateDuplicates accepted) in
  ExcelUtils.parseJsonData y (headers :: row :: rows)
  = {| ExcelUtils.ExcelValidationResult.isValid :=
         (List.length errors =? 0)%nat && (0 <? Z.of_nat (List.length accepted));
       ExcelUtils.ExcelValidationResult.clientes := accepted;
       ExcelUtils.ExcelValidationResult.errors := errors;
       ExcelUtils.ExcelValidationResult.warnings := rejectedWarnings y 0 (row :: rows);
       ExcelUtils.ExcelValidationResult.totalRows :=
         Z.of_nat (List.length (row :: rows));
       ExcelUtils.ExcelValidationResult.validRows := Z.of_nat (List.length accepted) |}.
Proof.
  intros Hh. cbv zeta. unfold ExcelUtils.parseJsonData. rewrite Hh.
  cbn [negb]. cbv zeta.
  change (List.length (row :: rows) =? 0)%nat with false. cbv iota.
  match goal with
  | |- context [ExcelUtils.processRows y 0 (row :: rows) ?r] =>
      destruct (processRows_spec y (row :: rows) 0 r) as (Ic & Iv & Ie & Iw & It)
  end.
  rewrite Ic, Iv, Ie, Iw, It.
  cbn [ExcelUtils.ExcelValidationResult.clientes
       ExcelUtils.ExcelValidationResult.validRows
       ExcelUtils.ExcelValidationResult.errors
       ExcelUtils.ExcelValidationResult.warnings
       ExcelUtils.ExcelValidationResult.totalRows app].
  rewrite length_map.
  replace (ExcelUtils.DuplicateValidation.warnings
             (ExcelUtils.validateDuplicates
                (map rowCliente (filter (rowAccepted y) (row :: rows)))))
    with (@nil jsstring) by reflexivity.
  rewrite app_nil_r, Z.add_0_l. reflexivity.
Qed.

Lemma parseJsonData_early (y : Z) (jsonData : list (list ExcelUtils.Cell)) :
  match jsonData with
  | headers :: _ :: _ =>
      ExcelUtils.HeaderValidation.isValid (ExcelUtils.validateHeaders headers) = false
  | _ => True
  end ->
  ExcelUtils.ExcelValidationResult.isValid (ExcelUtils.parseJsonData y jsonData) = false
  /\ ExcelUtils.ExcelValidationResult.clientes (ExcelUtils.parseJsonData y jsonData) = []
  /\ ExcelUtils.ExcelValidationResult.warnings (ExcelUtils.parseJsonData y jsonData) = []
  /\ ExcelUtils.ExcelValidationResult.totalRows (ExcelUtils.parseJsonData y jsonData) = 0
  /\ ExcelUtils.ExcelValidationResult.validRows (ExcelUtils.parseJsonData y jsonData) = 0.
Proof.
  unfold ExcelUtils.parseJsonData.
  destruct jsonData as [|headers [|row rows]]; [intros _; cbn; auto| |].
  - intros _.
    destruct (ExcelUtils.HeaderValidation.isValid (ExcelUtils.validateHeaders headers));
      cbn; auto.
  - intros ->. cbn. auto.
Qed.

(** X20. Whatever the sheet holds, the counters of the import result are
    consistent: [validRows] is the number of client records returned, it
    never exceeds [totalRows], [totalRows] never exceeds the number of data
    rows, and every record returned is the record of an accepted data
    row. *)
Theorem parseJsonData_counts (y : Z) (jsonData : list (list ExcelUtils.Cell)) :
  ExcelUtils.ExcelValidationResult.validRows (ExcelUtils.parseJsonData y jsonData)
  = Z.of_nat (List.length
                (ExcelUtils.ExcelValidationResult.clientes
                   (ExcelUtils.parseJsonData y jsonData)))
  /\ ExcelUtils.ExcelValidationResult.validRows (ExcelUtils.parseJsonData y jsonData)
     <= ExcelUtils.ExcelValidationResult.totalRows (ExcelUtils.parseJsonData y jsonData)
  /\ ExcelUtils.ExcelValidationResult.totalRows (ExcelUtils.parseJsonData y jsonData)
     <= Z.of_nat (List.length (tl jsonData))
  /\ (forall c,
        In c (ExcelUtils.ExcelValidationResult.clientes
                (ExcelUtils.parseJsonData y jsonData)) ->
        exists row, In row (tl jsonData) /\ rowAccepted y row = true
                    /\ c = rowCliente row).
Proof.
  destruct jsonData as [|headers [|row rows]].
  - destruct (parseJsonData_early y [] I) as (_ & -> & _ & -> & ->).
    cbn. repeat split; first [lia | intros c []].
  - destruct (parseJsonData_early y [headers] I) as (_ & -> & _ & -> & ->).
    cbn. repeat split; first [lia | intros c []].
  - destruct (ExcelUtils.HeaderValidation.isValid (ExcelUtils.validateHeaders headers))
      eqn:Hh.
    + rewrite (parseJsonData_rows y headers row rows Hh).
      cbn [ExcelUtils.ExcelValidationResult.clientes
           ExcelUtils.ExcelValidationResult.validRows
           ExcelUtils.ExcelValidationResult.totalRows tl].
      split; [reflexivity|]. split.
      * rewrite length_map. apply Nat2Z.inj_le. apply filter_length_le.
      * split; [lia|]. intros c Hc. apply in_map_iff in Hc as (r & <- & Hr).
        apply filter_In in Hr as [Hin Ha]. now exists r.
    + destruct (parseJsonData_early y (headers :: row :: rows) Hh)
        as (_ & -> & _ & -> & ->).
      cbn [tl List.length]. repeat split; first [lia | intros c []].
Qed.

(** X21. The import succeeds exactly when the header row opens with the five
    required columns, there is at least one data row, every data row is
    accepted, and the accepted records have pairwise distinct codes and
    pairwise distinct RFCs.  A successful result holds one record per data
    row, in row order, no error and no warning. *)
Theorem parseJsonData_succeeds_iff (y : Z) (jsonData : list (list ExcelUtils.Cell)) :
  (ExcelUtils.ExcelValidationResult.isValid (ExcelUtils.parseJsonData y jsonData) = true
   <-> firstn 5 (hd [] jsonData) = map ExcelUtils.CString ExcelUtils.REQUIRED_COLUMNS
       /\ tl jsonData <> []
       /\ forallb (rowAccepted y) (tl jsonData) = true
       /\ NoDup (map ExcelUtils.codigo_sn (map rowCliente (tl jsonData)))
       /\ NoDup (map ExcelUtils.rfc (map rowCliente (tl jsonData))))
  /\ (ExcelUtils.ExcelValidationResult.isValid (ExcelUtils.parseJsonData y jsonData) = true ->
      ExcelUtils.ExcelValidationResult.clientes (ExcelUtils.parseJsonData y jsonData)
      = map rowCliente (tl jsonData)
      /\ ExcelUtils.ExcelValidationResult.errors (ExcelUtils.parseJsonData y jsonData) = []
      /\ ExcelUtils.ExcelValidationResult.warnings (ExcelUtils.parseJsonData y jsonData) = []
      /\ ExcelUtils.ExcelValidationResult.validRows (ExcelUtils.parseJsonData y jsonData)
         = ExcelUtils.ExcelValidationResult.totalRows (ExcelUtils.parseJsonData y jsonData)).
Proof.
  destruct jsonData as [|headers [|row rows]].
  - destruct (parseJsonData_early y [] I) as (-> & _).
    split; [|discriminate]. split; [discriminate|]. intros (_ & H & _). now contradiction H.
  - destruct (parseJsonData_early y [headers] I) as (-> & _).
    split; [|discriminate]. split; [discriminate|]. intros (_ & H & _). now contradiction H.
  - cbn [hd tl].
    destruct (ExcelUtils.HeaderValidation.isValid (ExcelUtils.validateHeaders headers))
      eqn:Hh.
    + pose proof (proj1 (validateHeaders_isValid_prefix headers) Hh) as Hpre.
      rewrite (parseJsonData_rows y headers row rows Hh).
      cbn [ExcelUtils.ExcelValidationResult.isValid
           ExcelUtils.ExcelValidationResult.clientes
           ExcelUtils.ExcelValidationResult.errors
           ExcelUtils.ExcelValidationResult.warnings
           ExcelUtils.ExcelValidationResult.validRows
           ExcelUtils.ExcelValidationResult.totalRows].
      assert (Hkey :
                (List.length
                   (rejectedErrors y 0 (row :: rows)
                    ++ ExcelUtils.DuplicateValidation.errors
                         (ExcelUtils.validateDuplicates
                            (map rowCliente (filter (rowAccepted y) (row :: rows)))))
                 =? 0)%nat = true
                <-> forallb (rowAccepted y) (row :: rows) = true
                    /\ NoDup (map ExcelUtils.codigo_sn (map rowCliente (row :: rows)))
                    /\ NoDup (map ExcelUtils.rfc (map rowCliente (row :: rows)))).
      { rewrite Nat.eqb_eq, length_zero_iff_nil. split.
        - intros H. apply app_eq_nil in H as [He Hd].
          apply rejectedErrors_nil in He. rewrite (filter_all _ _ He) in Hd.
          apply validateDuplicates_nil in Hd. tauto.
        - intros (Ha & Hd). rewrite (proj2 (rejectedErrors_nil y _ 0) Ha).
          rewrite (filter_all _ _ Ha). cbn [app]. now apply validateDuplicates_nil. }
      split.
      * rewrite andb_true_iff, Hkey. split.
        -- intros [(Ha & Hd) _]. repeat split; try tauto. discriminate.
        -- intros (_ & _ & Ha & Hd). split; [tauto|].
           rewrite (filter_all _ _ Ha). reflexivity.
      * intros H. apply andb_prop in H as [H _]. pose proof (proj1 Hkey H) as (Ha & _).
        apply Nat.eqb_eq, length_zero_iff_nil in H.
        rewrite H, (filter_all _ _ Ha), (rejectedWarnings_nil y _ 0 Ha), length_map.
        auto.
    + destruct (parseJsonData_early y (headers :: row :: rows) Hh) as (-> & _).
      split; [|discriminate]. split; [discriminate|].
      intros (Hpre & _). apply validateHeaders_isValid_prefix in Hpre. congruence.
Qed.

(** X22. Once the header row is accepted and there is a data row, the
    result's warnings are exactly the warnings of the rejected rows and its
    errors are the errors of the rejected rows followed by the duplicate
    errors of the accepted ones: a warning raised on a row that is accepted
    is never reported. *)
Theorem parseJsonData_reports (y : Z) (headers row : list ExcelUtils.Cell)
    (rows : list (list ExcelUtils.Cell)) :
  ExcelUtils.HeaderValidation.isValid (ExcelUtils.validateHeaders headers) = true ->
  ExcelUtils.ExcelValidationResult.warnings
    (ExcelUtils.parseJsonData y (headers :: row :: rows))
  = rejectedWarnings y 0 (row :: rows)
  /\ ExcelUtils.ExcelValidationResult.errors
       (ExcelUtils.parseJsonData y (headers :: row :: rows))
     = rejectedErrors y 0 (row :: rows)
       ++ ExcelUtils.DuplicateValidation.errors
            (ExcelUtils.validateDuplicates
               (ExcelUtils.ExcelValidationResult.clientes
                  (ExcelUtils.parseJsonData y (headers :: row :: rows))))
  /\ ExcelUtils.ExcelValidationResult.clientes
       (ExcelUtils.parseJsonData y (headers :: row :: rows))
     = map rowCliente (filter (rowAccepted y) (row :: rows)).
Proof.
  intros Hh. rewrite (parseJsonData_rows y headers row rows Hh).
  cbn [ExcelUtils.ExcelValidationResult.warnings ExcelUtils.ExcelValidationResult.errors
       ExcelUtils.ExcelValidationResult.clientes].
  auto.
Qed.

Lemma parseJsonData_succeeds_iff_witness :
  ExcelUtils.ExcelValidationResult.warnings
    (ExcelUtils.parseJsonData 2024
       [map ExcelUtils.CString ExcelUtils.REQUIRED_COLUMNS;
        [ExcelUtils.CString (js "cli001"); ExcelUtils.CString (js "Ejemplo SA");
         ExcelUtils.CString (js "emp950523abc"); ExcelUtils.CString (js "treinta");
         ExcelUtils.CString (js "a")]]) = [].
Proof.
  apply (proj2 (parseJsonData_succeeds_iff 2024
                  [map ExcelUtils.CString ExcelUtils.REQUIRED_COLUMNS;
                   [ExcelUtils.CString (js "cli001"); ExcelUtils.CString (js "Ejemplo SA");
                    ExcelUtils.CString (js "emp950523abc");
                    ExcelUtils.CString (js "treinta"); ExcelUtils.CString (js "a")]])).
  vm_compute. reflexivity.
Defined.

(** The only data row carries a non-numeric payment-terms code: the row
    result has a warning, the import result has none. *)
Lemma parseJsonData_reports_witness :
  ExcelUtils.RowValidation.warnings
    (ExcelUtils.validateAndParseRow 2024
       [ExcelUtils.CString (js "cli001"); ExcelUtils.CString (js "Ejemplo SA");
        ExcelUtils.CString (js "emp950523abc"); ExcelUtils.CString (js "treinta");
        ExcelUtils.CString (js "a")] 2) <> []
  /\ ExcelUtils.ExcelValidationResult.warnings
       (ExcelUtils.parseJsonData 2024
          [map ExcelUtils.CString ExcelUtils.REQUIRED_COLUMNS;
           [ExcelUtils.CString (js "cli001"); ExcelUtils.CString (js "Ejemplo SA");
            ExcelUtils.CString (js "emp950523abc"); ExcelUtils.CString (js "treinta");
            ExcelUtils.CString (js "a")]]) = [].
Proof.
  split; [vm_compute; discriminate|].
  rewrite (proj1 (parseJsonData_reports 2024
                    (map ExcelUtils.CString ExcelUtils.REQUIRED_COLUMNS)
                    [ExcelUtils.CString (js "cli001"); ExcelUtils.CString (js "Ejemplo SA");
                     ExcelUtils.CString (js "emp950523abc");
                     ExcelUtils.CString (js "treinta"); ExcelUtils.CString (js "a")]
                    [] ltac:(vm_compute; reflexivity))).
  vm_compute. reflexivity.
Defined.
